(** * umbreld system router: update orchestration and status registers

    A shallow embedding of the tRPC system router of umbreld
    (src/unnamed/part_001): the two status registers, the update flow with
    its output handler, [hiddenService] and [factoryReset], then the other
    procedures of the router and the drawer component of the same file.

    JavaScript numbers are IEEE 754 binary64 values; they are modelled by
    Rocq's primitive floats, which are binary64 with round-to-nearest-even.
    JavaScript objects are finite maps from property names to values. *)

From Stdlib Require Import ZArith Zpower Floats Ascii String List Lia.
From stdpp Require Import base option gmap strings list fin_maps pretty.
Import ListNotations.

Set Warnings "-register-all".

Local Open Scope string_scope.
Local Open Scope list_scope.

(** Concatenation of strings, as the [+] of JavaScript on strings. *)
Infix "^^" := String.append (at level 60, right associativity).

(** ** JavaScript values *)

Module JS.

(** The values [JSON.parse] can produce, plus [undefined].  An object is a
    finite map from property names to values. *)
Inductive Value : Type :=
| Undefined
| Null
| Bool (b : bool)
| Number (n : float)
| Str (s : string)
| Array (items : list Value)
| Object (props : gmap string Value).

(** [!v] is [negb (truthy v)]: the falsy values are [undefined], [null],
    [false], [+0], [-0], [NaN] and the empty string. *)
Definition truthy (v : Value) : bool :=
  match v with
  | Undefined | Null => false
  | Bool b => b
  | Number n => negb (PrimFloat.eqb n 0 || negb (PrimFloat.eqb n n))
  | Str s => negb (String.eqb s "")
  | Array _ | Object _ => true
  end.

(** A text stands for a JavaScript string by its UTF-8 bytes; a JavaScript
    string is a sequence of UTF-16 code units, and it is by code units that
    it is indexed.  The number of bytes of the UTF-8 sequence that the byte
    [b] starts (1 for a byte that starts none): *)
Definition utf8_width (b : ascii) : nat :=
  let n := N_of_ascii b in
  if (n <? 192)%N then 1 else if (n <? 224)%N then 2 else if (n <? 240)%N then 3
  else if (n <? 248)%N then 4 else 1.

(** The three bytes that stand for the code unit [u] on its own. *)
Definition unit_text (u : N) : string :=
  String (ascii_of_N (224 + u / 4096)%N)
    (String (ascii_of_N (128 + (u / 64) mod 64)%N)
       (String (ascii_of_N (128 + u mod 64)%N) EmptyString)).

(** The code units of one character: itself, or for a character outside
    the basic plane (four bytes) its high and its low surrogate. *)
Definition units_of (character : string) : list string :=
  match character with
  | String b0 (String b1 (String b2 (String b3 EmptyString))) =>
      let point := ((N_of_ascii b0 mod 8) * 262144 + (N_of_ascii b1 mod 64) * 4096
                    + (N_of_ascii b2 mod 64) * 64 + N_of_ascii b3 mod 64)%N in
      [unit_text (55296 + (point - 65536) / 1024)%N;
       unit_text (56320 + (point - 65536) mod 1024)%N]
  | _ => [character]
  end.

(** The code units of [s] after the bytes [current] of a character of which
    [pending] bytes are still to come. *)
Fixpoint code_units (pending : nat) (current s : string) : list string :=
  match s with
  | EmptyString => match current with EmptyString => [] | _ => [current] end
  | String b rest =>
      match pending with
      | O =>
          match utf8_width b with
          | 1 => String b EmptyString :: code_units 0 EmptyString rest
          | width => code_units (width - 1) (String b EmptyString) rest
          end
      | 1 => units_of (current ^^ String b EmptyString) ++ code_units 0 EmptyString rest
      | S pending => code_units pending (current ^^ String b EmptyString) rest
      end
  end.

(** The one-code-unit strings of [s], in order: [s[0]], [s[1]], ... *)
Definition chars (s : string) : list string := code_units 0 EmptyString s.

(** Index keys ["0"], ["1"], ... paired with the elements of [l]. *)
Definition indexed {A} (l : list A) : list (string * A) :=
  imap (fun i x => (pretty i, x)) l.

(** Own enumerable string-keyed properties of a value, the ones an object
    spread [{...v}] copies.  Primitives other than strings have none; a
    string exposes its characters and an array its elements under their
    indices. *)
Definition own_properties (v : Value) : gmap string Value :=
  match v with
  | Undefined | Null | Bool _ | Number _ => ∅
  | Str s => list_to_map (indexed (Str <$> chars s))
  | Array items => list_to_map (indexed items)
  | Object props => props
  end.

(** [{...target, ...source}]: every own property of [source] is copied over
    [target]; the properties of [target] that [source] lacks stay. *)
Definition spread (target : gmap string Value) (source : Value)
  : gmap string Value :=
  own_properties source ∪ target.

(** Reading a property that is absent yields [undefined]. *)
Definition get (o : gmap string Value) (k : string) : Value :=
  default Undefined (o !! k).

(** [String.prototype.split('\n')]: the pieces between line feeds; a text
    without line feed is one piece, and a trailing line feed leaves a last
    empty piece. *)
Fixpoint split_lines (text : string) : list string :=
  match text with
  | EmptyString => [EmptyString]
  | String c rest =>
      if Ascii.eqb c "010"%char then EmptyString :: split_lines rest
      else match split_lines rest with
           | [] => [String c EmptyString]
           | l :: ls => String c l :: ls
           end
  end.

(** [s.startsWith(p)], by recursion on the searched text [p]. *)
Fixpoint startsWith (s p : string) {struct p} : bool :=
  match p with
  | EmptyString => true
  | String a p' =>
      match s with
      | EmptyString => false
      | String b s' => Ascii.eqb a b && startsWith s' p'
      end
  end.

(** Drop the first [n] characters. *)
Fixpoint skip (n : nat) (s : string) : string :=
  match n, s with
  | O, _ => s
  | S n', String _ s' => skip n' s'
  | S _, EmptyString => EmptyString
  end.

(** [s.replace(pat, rep)] for a string pattern [pat] and a replacement
    without dollar patterns: the first occurrence of [pat] is replaced. *)
Fixpoint replace (pat rep s : string) : string :=
  if startsWith s pat then rep ^^ skip (String.length pat) s
  else match s with
       | EmptyString => EmptyString
       | String c s' => String c (replace pat rep s')
       end.

(** The largest integer that is not above the finite non-zero number with
    sign [s], mantissa [m] and exponent [e]. *)
Definition floor_finite (s : bool) (m : positive) (e : Z) : Z :=
  if (0 <=? e)%Z then (if s then - (Z.pos m * 2 ^ e) else Z.pos m * 2 ^ e)%Z
  else if s then (- ((Z.pos m + 2 ^ (- e) - 1) / 2 ^ (- e)))%Z
       else (Z.pos m / 2 ^ (- e))%Z.

(** [Math.floor], through the sign, mantissa and exponent of the number.
    Infinities, NaN and zeros are returned unchanged. *)
Definition Math_floor (x : float) : float :=
  match Prim2SF x with
  | S754_finite s m e =>
      let z := floor_finite s m e in
      if (z =? 0)%Z then 0%float
      else SF2Prim (binary_normalize prec emax z 0 false)
  | _ => x
  end.

(** [Math.min] of two numbers: NaN if either is NaN, and [-0] below [+0]. *)
Definition Math_min (x y : float) : float :=
  if negb (PrimFloat.eqb x x) then x
  else if negb (PrimFloat.eqb y y) then y
  else if PrimFloat.ltb x y then x
  else if PrimFloat.ltb y x then y
  else if get_sign x then x else y.

End JS.

(** ** The router's state and the world around it *)

Inductive SystemStatus : Type :=
| running | updating | shutting_down | restarting | migrating.

(** How an awaited promise settles. *)
Inductive Outcome (A : Type) : Type :=
| Resolved (a : A)
| Rejected (message : string).
Arguments Resolved {A} a.
Arguments Rejected {A} message.

(** What [getLatestRelease] returns. *)
Record ReleaseInfo : Type := {
  version : string;
  releaseNotes : string;
  updateScript : option string;
}.

Inductive Stream : Type := stdout | stderr.

(** Commands handed to collaborators of the router. *)
Inductive Command : Type :=
| Stop                              (* ctx.umbreld.stop() *)
| Reboot                            (* reboot() *)
| Shutdown                          (* shutdown() *)
| StartReset (dataDirectory : string). (* startReset(currentInstall) *)

Inductive LogMessage : Type :=
| UpdateProgress (progress : float)        (* verbose: Update progress: <progress>% *)
| UpdateScriptFailed (message : string)    (* error: Update script failed: <message> *)
| HiddenServiceReadFailed (message : string).

(** What an observer of the process can see happen, in order. *)
Inductive Event : Type :=
| WriteSystemStatus (status : SystemStatus)
| WriteUpdateStatus (status : gmap string JS.Value)
| Call (c : Command) (awaited : bool)
| Log (m : LogMessage).

(** The module-level variables, and the events so far (latest last). *)
Record State : Type := {
  systemStatus : SystemStatus;
  updateStatus : gmap string JS.Value;
  factoryResetDemoState : JS.Value;
  events : list Event;
}.

(** Everything the router reaches outside itself. *)
Record Context : Type := {
  dataDirectory : string;                 (* ctx.umbreld.dataDirectory *)
  latestRelease : Outcome ReleaseInfo;    (* fetch of the release endpoint and .json() *)
  fetchText : string -> Outcome string;   (* fetch(url) and .text() *)
  (* the chunks `bash -c script` emits, in arrival order, and how the
     awaited process settles *)
  bash : string -> list (Stream * string) * Outcome unit;
  readFile : string -> Outcome string;    (* fse.readFile(path, 'utf-8') *)
  validatePassword : string -> bool;      (* ctx.user.validatePassword *)
  (* what the synchronous part of startReset leaves in factoryResetDemoState *)
  startResetState : string -> JS.Value -> JS.Value;
  (* how ctx.umbreld.stop(), reboot() and shutdown() settle when awaited *)
  settles : Command -> Outcome unit;
}.

Inductive Error : Type :=
| JsError (message : string)              (* new Error(message), or a rejection *)
| TRPCError (code message : string).

Definition error_message (e : Error) : string :=
  match e with JsError m => m | TRPCError _ m => m end.

(** ** A state and exception monad for the procedures *)

Inductive Result (A : Type) : Type :=
| Returned (a : A)
| Thrown (e : Error).
Arguments Returned {A} a.
Arguments Thrown {A} e.

Definition M (A : Type) : Type := State -> State * Result A.

#[global] Instance M_ret : MRet M := fun A a st => (st, Returned a).
#[global] Instance M_bind : MBind M := fun A B k m st =>
  match m st with
  | (st', Returned a) => k a st'
  | (st', Thrown e) => (st', Thrown e)
  end.

Definition throw {A} (e : Error) : M A := fun st => (st, Thrown e).
Definition try_catch {A} (body : M A) (handler : Error -> M A) : M A :=
  fun st => match body st with
            | (st', Returned a) => (st', Returned a)
            | (st', Thrown e) => handler e st'
            end.
Definition await {A} (o : Outcome A) : M A :=
  match o with
  | Resolved a => mret a
  | Rejected message => throw (JsError message)
  end.

(** Read the module-level variables. *)
Definition gets {A} (f : State -> A) : M A := fun st => (st, Returned (f st)).

Definition emit (e : Event) : M unit :=
  fun st => ({| systemStatus := systemStatus st;
                updateStatus := updateStatus st;
                factoryResetDemoState := factoryResetDemoState st;
                events := events st ++ [e] |}, Returned tt).

Definition call (c : Command) (awaited : bool) : M unit := emit (Call c awaited).
Definition log (m : LogMessage) : M unit := emit (Log m).

(** ** Status registers *)

Definition setSystemStatus (status : SystemStatus) : M unit :=
  fun st => ({| systemStatus := status;
                updateStatus := updateStatus st;
                factoryResetDemoState := factoryResetDemoState st;
                events := events st ++ [WriteSystemStatus status] |}, Returned tt).

Definition write_updateStatus (status : gmap string JS.Value) : M unit :=
  fun st => ({| systemStatus := systemStatus st;
                updateStatus := status;
                factoryResetDemoState := factoryResetDemoState st;
                events := events st ++ [WriteUpdateStatus status] |}, Returned tt).

Definition write_factoryResetDemoState (state : JS.Value) : M unit :=
  fun st => ({| systemStatus := systemStatus st;
                updateStatus := updateStatus st;
                factoryResetDemoState := state;
                events := events st |}, Returned tt).

Definition idle_status : gmap string JS.Value :=
  {[ "running" := JS.Bool false;
     "progress" := JS.Number 0;
     "description" := JS.Str "";
     "error" := JS.Bool false ]}.

Definition resetUpdateStatus : M unit := write_updateStatus idle_status.

(** [updateStatus = {...updateStatus, ...properties}] *)
Definition setUpdateStatus (properties : JS.Value) : M unit :=
  status ← gets updateStatus;
  write_updateStatus (JS.spread status properties).

(** An object literal. *)
Definition obj (props : list (string * JS.Value)) : JS.Value :=
  JS.Object (list_to_map props).

Definition initial_state : State :=
  {| systemStatus := running;
     updateStatus := idle_status;
     factoryResetDemoState := JS.Undefined;
     events := [] |}.

Section Router.

(** [JSON.parse]: the parsed value, or [None] where it throws a SyntaxError. *)
Variable JSON_parse : string -> option JS.Value.
Variable ctx : Context.

Definition marker : string := "umbrel-update: ".

(** The body of the loop of [handleUpdateScriptOutput] for one line;
    [menderInstallDots] is threaded through. *)
Definition handleLine (line : string) (menderInstallDots : float) : M float :=
  (* Handle our custom status updates *)
  (if JS.startsWith line marker then
     match JSON_parse (JS.replace marker "" line) with
     | Some status => setUpdateStatus status
     | None => mret tt   (* Don't kill update on JSON parse errors *)
     end
   else mret tt);;
  (* Handle mender install progress *)
  if String.eqb line "." then
    let menderInstallDots := (menderInstallDots + 1)%float in
    let progress :=
      JS.Math_min 95 (JS.Math_floor (menderInstallDots / 70 * 90) + 5)%float in
    log (UpdateProgress progress);;
    setUpdateStatus (obj [("progress", JS.Number progress)]);;
    mret menderInstallDots
  else mret menderInstallDots.

Fixpoint handleLines (lines : list string) (menderInstallDots : float) : M float :=
  match lines with
  | [] => mret menderInstallDots
  | line :: lines =>
      menderInstallDots ← handleLine line menderInstallDots;
      handleLines lines menderInstallDots
  end.

(** [chunk.toString()] is the chunk's text. *)
Definition handleUpdateScriptOutput (chunk : string) (menderInstallDots : float)
  : M float :=
  handleLines (JS.split_lines chunk) menderInstallDots.

(** The data listeners of both streams call the same handler, one chunk at
    a time, in the order the chunks arrive. *)
Fixpoint deliver (chunks : list (Stream * string)) (menderInstallDots : float)
  : M float :=
  match chunks with
  | [] => mret menderInstallDots
  | (_, chunk) :: chunks =>
      menderInstallDots ← handleUpdateScriptOutput chunk menderInstallDots;
      deliver chunks menderInstallDots
  end.

Definition getLatestRelease : M ReleaseInfo := await (latestRelease ctx).

(** [!updateScript] for an optional string. *)
Definition script_missing (updateScript : option string) : bool :=
  match updateScript with
  | None => true
  | Some url => String.eqb url ""
  end.

(** The [try] block of [update]. *)
Definition update_try : M unit :=
  release ← getLatestRelease;
  if script_missing (updateScript release) then
    setUpdateStatus (obj [("error", JS.Str "No update script found")]);;
    throw (JsError "No update script found")
  else
    (* the URL, which is present and not empty here *)
    let updateScript := default "" (updateScript release) in
    updateSCriptContents ← await (fetchText ctx updateScript);
    (* Exectute update script and report progress *)
    let process := bash ctx updateSCriptContents in
    deliver process.1 0%float;;
    (* Wait for script to complete and handle errors *)
    await process.2.

(** The [catch] block of [update]. *)
Definition update_catch (error : Error) : M bool :=
  (* Don't overwrite a useful error message reported by the update script *)
  status ← gets updateStatus;
  (if negb (JS.truthy (JS.get status "error"))
   then setUpdateStatus (obj [("error", JS.Str "Update failed")])
   else mret tt);;
  (* Reset the state back to running but leave the error message *)
  status ← gets updateStatus;
  let errorStatus := JS.get status "error" in
  resetUpdateStatus;;
  setUpdateStatus (obj [("error", errorStatus)]);;
  setSystemStatus running;;
  log (UpdateScriptFailed (error_message error));;
  mret false.

(** [await command()]: the call is made; the caller goes on when it
    resolves and throws when it rejects. *)
Definition run (c : Command) : M unit :=
  call c true;;
  await (settles ctx c).

(** The statements of [update] after the [try] statement. *)
Definition update_complete : M bool :=
  setUpdateStatus (obj [("progress", JS.Number 95)]);;
  run Stop;;
  run Reboot;;
  mret true.

Definition update : M bool :=
  setSystemStatus updating;;
  setUpdateStatus (obj [("running", JS.Bool true); ("progress", JS.Number 5);
                        ("description", JS.Str "Updating...");
                        ("error", JS.Bool false)]);;
  failed ← try_catch (update_try;; mret None)
                     (fun error => b ← update_catch error; mret (Some b));
  match failed with
  | Some b => mret b
  | None => update_complete
  end.

Definition hiddenService : M string :=
  try_catch
    (await (readFile ctx (dataDirectory ctx ^^ "/tor/data/web/hostname")))
    (fun error =>
       log (HiddenServiceReadFailed (error_message error));;
       mret "").

Definition shutdown : M bool :=
  setSystemStatus shutting_down;;
  run Stop;;
  run Shutdown;;
  mret true.

Definition restart : M bool :=
  setSystemStatus restarting;;
  run Stop;;
  run Reboot;;
  mret true.

(** [startReset(currentInstall)], not awaited: the call is made, and what its
    synchronous part stored in [factoryResetDemoState] is visible after it. *)
Definition startReset (currentInstall : string) : M unit :=
  call (StartReset currentInstall) false;;
  state ← gets factoryResetDemoState;
  write_factoryResetDemoState (startResetState ctx currentInstall state).

Definition factoryReset (password : string) : M JS.Value :=
  if negb (validatePassword ctx password) then
    throw (TRPCError "UNAUTHORIZED" "Invalid password")
  else
    let currentInstall := dataDirectory ctx in
    startReset currentInstall;;
    gets factoryResetDemoState.

Definition getFactoryResetStatus : M JS.Value := gets factoryResetDemoState.

End Router.

(** The progress written for a dot count, as [handleLine] computes it. *)
Definition dot_progress (menderInstallDots : float) : float :=
  JS.Math_min 95 (JS.Math_floor (menderInstallDots / 70 * 90) + 5)%float.

(** [menderInstallDots++] *)
Definition count_dot (menderInstallDots : float) : float :=
  (menderInstallDots + 1)%float.

(** The value of [menderInstallDots] after [n] dot lines. *)
Definition dots_after (n : nat) : float := Nat.iter n count_dot 0%float.

(** The progress written by the [n]-th dot line of an attempt. *)
Definition progress_after (n : nat) : float := dot_progress (dots_after n).

(** The progress values the dot lines logged (and wrote), oldest first. *)
Fixpoint progress_logged (es : list Event) : list float :=
  match es with
  | [] => []
  | Log (UpdateProgress p) :: es => p :: progress_logged es
  | _ :: es => progress_logged es
  end.

(** The UpdateStatus records written, oldest first. *)
Fixpoint status_written (es : list Event) : list (gmap string JS.Value) :=
  match es with
  | [] => []
  | WriteUpdateStatus s :: es => s :: status_written es
  | _ :: es => status_written es
  end.

(** The text of a sequence of chunks, put end to end. *)
Fixpoint chunks_text (chunks : list (Stream * string)) : string :=
  match chunks with
  | [] => ""
  | (_, chunk) :: chunks => chunk ^^ chunks_text chunks
  end.

(** The object [update] writes when it starts. *)
Definition starting_status : JS.Value :=
  obj [("running", JS.Bool true); ("progress", JS.Number 5);
       ("description", JS.Str "Updating..."); ("error", JS.Bool false)].

(** [update] up to the point where its [try] block completes or throws. *)
Definition attempt (JSON_parse : string -> option JS.Value) (ctx : Context) : M unit :=
  setSystemStatus updating;;
  setUpdateStatus starting_status;;
  update_try JSON_parse ctx.

(** The ways an update attempt fails. *)
Inductive FailureKind : Type :=
| ReleaseFetchFailed | MissingScript | ScriptDownloadFailed | ScriptExitedNonZero.

Inductive update_failure (ctx : Context) : FailureKind -> Prop :=
| release_fetch_failed message :
    latestRelease ctx = Rejected message ->
    update_failure ctx ReleaseFetchFailed
| missing_script release :
    latestRelease ctx = Resolved release ->
    script_missing (updateScript release) = true ->
    update_failure ctx MissingScript
| script_download_failed release url message :
    latestRelease ctx = Resolved release ->
    updateScript release = Some url -> url <> "" ->
    fetchText ctx url = Rejected message ->
    update_failure ctx ScriptDownloadFailed
| script_exited_non_zero release url script message :
    latestRelease ctx = Resolved release ->
    updateScript release = Some url -> url <> "" ->
    fetchText ctx url = Resolved script ->
    (bash ctx script).2 = Rejected message ->
    update_failure ctx ScriptExitedNonZero.

(** The attempt gets through: release and script are fetched and the
    subprocess exits with success. *)
Definition update_succeeds (ctx : Context) (script : string) : Prop :=
  exists release url,
    latestRelease ctx = Resolved release /\
    updateScript release = Some url /\ url <> "" /\
    fetchText ctx url = Resolved script /\
    (bash ctx script).2 = Resolved tt.

(** The idle record with an error put in. *)
Definition failed_status (error : JS.Value) : gmap string JS.Value :=
  {[ "running" := JS.Bool false;
     "progress" := JS.Number 0;
     "description" := JS.Str "";
     "error" := error ]}.

(** The state once [update] has announced itself. *)
Definition started (st : State) : State :=
  (setUpdateStatus starting_status (setSystemStatus updating st).1).1.

(** The progress values [n] successive dot lines write when the counter
    stands at [dots]. *)
Fixpoint dot_trail (n : nat) (dots : float) : list float :=
  match n with
  | O => []
  | S n => dot_progress (count_dot dots) :: dot_trail n (count_dot dots)
  end.

(** Does the text end with a line feed? *)
Fixpoint ends_with_lf (text : string) : bool :=
  match text with
  | EmptyString => false
  | String c EmptyString => Ascii.eqb c "010"%char
  | String _ rest => ends_with_lf rest
  end.

(** Every chunk but the last ends with a line feed: the chunk boundaries
    fall between lines. *)
Fixpoint line_aligned (chunks : list (Stream * string)) : bool :=
  match chunks with
  | [] => true
  | [_] => true
  | (_, chunk) :: chunks => ends_with_lf chunk && line_aligned chunks
  end.

(** What a run of the handler did: it returned the counter after [n] more
    dots, appended events, logged the progress of those [n] dots and left
    SystemState alone. *)
Definition handled (n : nat) (dots : float) (st : State) (r : State * Result float) : Prop :=
  r.2 = Returned (Nat.iter n count_dot dots)
  /\ systemStatus r.1 = systemStatus st
  /\ factoryResetDemoState r.1 = factoryResetDemoState st
  /\ exists new, events r.1 = events st ++ new
                 /\ progress_logged new = dot_trail n dots.

(** The error the [catch] block leaves in UpdateStatus. *)
Definition kept_error (status : gmap string JS.Value) : JS.Value :=
  if JS.truthy (JS.get status "error") then JS.get status "error"
  else JS.Str "Update failed".

(** The progress fields the dot lines wrote, oldest first: a dot line logs
    its progress and writes UpdateStatus right after, and nothing else
    writes right after such a log. *)
Fixpoint dot_written (es : list Event) : list JS.Value :=
  match es with
  | [] => []
  | Log (UpdateProgress _) :: WriteUpdateStatus status :: es =>
      JS.get status "progress" :: dot_written es
  | _ :: es => dot_written es
  end.

(** The events do not end with a progress log whose write is still to
    come. *)
Definition settled (es : list Event) : Prop :=
  forall p, last es <> Some (Log (UpdateProgress p)).

(** [n] dot lines, each ended by its line feed. *)
Fixpoint dot_lines_text (n : nat) : string :=
  match n with
  | O => ""
  | S n => "." ^^ String "010"%char (dot_lines_text n)
  end.

(** How the statements of [update] after the [try] statement end: with the
    rejection of stop(), else with the rejection of reboot(), else with
    true. *)
Definition completion_result (ctx : Context) : Result bool :=
  match settles ctx Stop with
  | Rejected message => Thrown (JsError message)
  | Resolved _ =>
      match settles ctx Reboot with
      | Rejected message => Thrown (JsError message)
      | Resolved _ => Returned true
      end
  end.

(** The commands they hand over: reboot() is called only once stop() has
    resolved. *)
Definition completion_commands (ctx : Context) : list Command :=
  match settles ctx Stop with
  | Rejected _ => [Stop]
  | Resolved _ => [Stop; Reboot]
  end.

(** ** Binary64 numbers by mantissa and exponent

    The primitive floats are specified through [Prim2SF], which gives the
    sign, mantissa and exponent of a number.  These are the notions the
    bounds on the progress formula are stated with. *)

Module Binary64.

Local Open Scope Z_scope.

(** A positive normal number: 53 significant bits and an exponent in range. *)
Definition normal (m : positive) (e : Z) : Prop :=
  2 ^ 52 <= Z.pos m < 2 ^ 53 /\ -1074 <= e <= 971.

(** The value of a mantissa and exponent, scaled by 2^1074 so that it is an
    integer for every exponent of the format. *)
Definition scaled (m e : Z) : Z := m * 2 ^ (e + 1074).

(** [x] is a positive number, finite and normal or infinite, that is at
    least the normal number with mantissa [mr] and exponent [er]. *)
Definition at_least (mr er : Z) (x : spec_float) : Prop :=
  match x with
  | S754_infinity false => True
  | S754_finite false m e => normal m e /\ scaled mr er <= scaled (Z.pos m) e
  | _ => False
  end.

(** The numbers of the progress formula. *)
Definition m70 : positive := 4925812092436480.   (* 70 = m70 * 2^-46 *)
Definition m90 : positive := 6333186975989760.   (* 90 = m90 * 2^-46 *)
Definition m95 : positive := 6685030696878080.   (* 95 = m95 * 2^-46 *)
Definition m5 : positive := 5629499534213120.    (*  5 = m5  * 2^-50 *)
Definition m1 : positive := 4503599627370496.    (*  1 = m1  * 2^-52 *)

End Binary64.

(** The formula as the specification words it, min(95, floor(dots/70 * 90)
    + 5), evaluated exactly for [n] dots: over the rationals
    floor(n/70 * 90) is the integer quotient of 90 n by 70.  It is compared
    with [progress_after], which is the code's binary64 evaluation. *)
Definition exact_progress (n : nat) : Z :=
  Z.min 95 (Z.of_nat n * 90 / 70 + 5).

(** An integer below 2^63 as a number. *)
Definition number_of_Z (z : Z) : float := PrimFloat.of_uint63 (Uint63.of_Z z).

(** ** Sample inputs *)

Definition dq : string := String (ascii_of_nat 34) "".
Definition lf : string := String "010"%char "".

(** The texts of three structured updates. *)
Definition progress_42_json : string := "{" ^^ dq ^^ "progress" ^^ dq ^^ ": 42}".
Definition progress_100_json : string := "{" ^^ dq ^^ "progress" ^^ dq ^^ ": 100}".
Definition disk_full_json : string :=
  "{" ^^ dq ^^ "error" ^^ dq ^^ ": " ^^ dq ^^ "disk full" ^^ dq ^^ "}".

(** A fragment of [JSON.parse]: its value on these three texts, and the
    SyntaxError on everything else this development feeds it. *)
Definition sample_JSON_parse (text : string) : option JS.Value :=
  if String.eqb text progress_42_json
  then Some (obj [("progress", JS.Number 42)])
  else if String.eqb text progress_100_json
  then Some (obj [("progress", JS.Number 100)])
  else if String.eqb text disk_full_json
  then Some (obj [("error", JS.Str "disk full")])
  else None.

(** A context whose release has a script that prints [output] in one chunk
    on stdout and then exits as [exit] says. *)
Definition sample_context (script_url : option string)
    (output : list (Stream * string)) (exit : Outcome unit) : Context :=
  {| dataDirectory := "/home/umbrel/umbrel";
     latestRelease := Resolved {| version := "1.0.0"; releaseNotes := "";
                                  updateScript := script_url |};
     fetchText := fun _ => Resolved "mender install";
     bash := fun _ => (output, exit);
     readFile := fun _ => Rejected "ENOENT: no such file or directory";
     validatePassword := fun password => String.eqb password "moneyprintergobrrr";
     startResetState := fun _ _ => obj [("progress", JS.Number 0)];
     settles := fun _ => Resolved tt |}.

(** Contexts for a release without script, and for scripts with a given
    output and exit. *)
Definition no_script_context : Context :=
  sample_context None [] (Resolved tt).

Definition script_context (output : list (Stream * string)) (exit : Outcome unit)
  : Context :=
  sample_context (Some "https://example.org/update.sh") output exit.

(** One marker line, in one chunk and cut in two. *)
Definition marker_line_whole : list (Stream * string) :=
  [(stdout, marker ^^ progress_42_json ^^ lf)].
Definition marker_line_cut : list (Stream * string) :=
  [(stdout, "umbrel-upd"); (stdout, "ate: " ^^ progress_42_json ^^ lf)].

(** The line [Unpacking.] in one chunk, and with its final dot in a chunk of
    its own. *)
Definition text_line_whole : list (Stream * string) :=
  [(stdout, "Unpacking." ^^ lf)].
Definition text_line_cut : list (Stream * string) :=
  [(stdout, "Unpacking"); (stdout, "." ^^ lf)].

(** Two dot lines and a structured update, cut after line feeds. *)
Definition aligned_chunks : list (Stream * string) :=
  [(stdout, "." ^^ lf); (stderr, marker ^^ progress_42_json ^^ lf ^^ "." ^^ lf);
   (stdout, "done")].

(** The progress fields of the UpdateStatus records a run wrote. *)
Definition progress_written (es : list Event) : list JS.Value :=
  (fun status => JS.get status "progress") <$> status_written es.

(** ** The other procedures of the router *)

(** A SystemState as the string the source writes for it. *)
Definition status_name (status : SystemStatus) : string :=
  match status with
  | running => "running"
  | updating => "updating"
  | shutting_down => "shutting-down"
  | restarting => "restarting"
  | migrating => "migrating"
  end.

(** [z.enum(['umbrel', 'system'])], the type of [input.type] of [logs]. *)
Inductive LogType : Type := umbrel | system.

Definition LogType_eqb (a b : LogType) : bool :=
  match a, b with
  | umbrel, umbrel | system, system => true
  | _, _ => false
  end.

(** What the queries reach outside the router. *)
Record Host : Type := {
  umbreld_version : string;                     (* ctx.umbreld.version *)
  os_uptime : float;                            (* os.uptime() *)
  (* the awaited execa process of journalctl with these arguments: its
     stdout, or the rejection *)
  journalctl : list string -> Outcome string;
  stripAnsi : string -> string;                 (* strip-ansi *)
}.

Section Procedures.

Variable ctx : Context.
Variable host : Host.

Definition latestAvailableVersion : M JS.Value :=
  release ← getLatestRelease ctx;
  let version := version release in
  let releaseNotes := releaseNotes release in
  mret (obj [("version", JS.Str version); ("releaseNotes", JS.Str releaseNotes)]).

(** [process] starts undefined ([None]), and holds the stdout of the
    awaited process once one ran; reading [stdout] of an undefined process
    is a TypeError. *)
Definition logs (type : LogType) : M string :=
  let process : option string := None in
  process ←
    (if LogType_eqb type umbrel then
       output ← await (journalctl host
                         ["--unit"; "umbrel"; "--unit"; "umbreld-production";
                          "--unit"; "umbreld"; "--unit"; "ui"; "--lines"; "1500"]);
       mret (Some output)
     else mret process);
  process ←
    (if LogType_eqb type system then
       output ← await (journalctl host ["--lines"; "1500"]);
       mret (Some output)
     else mret process);
  match process with
  | Some output => mret (stripAnsi host output)   (* process.stdout *)
  | None => throw (JsError "Cannot read properties of undefined (reading 'stdout')")
  end.

End Procedures.

(** The procedures of the router.  The five that only hand over to
    system.js (device, cpuTemperature, diskUsage, memoryUsage, cpuUsage) are
    left out. *)
Module Procedure.
Inductive name : Type :=
| online
| version
| status
| updateStatus
| uptime
| latestAvailableVersion
| update
| hiddenService
| shutdown
| restart
| logs (type : LogType)
| factoryReset (password : string)
| getFactoryResetStatus.
End Procedure.

(** One request served by the router, its result as a value. *)
Definition serve (JSON_parse : string -> option JS.Value) (ctx : Context) (host : Host)
    (procedure : Procedure.name) : M JS.Value :=
  match procedure with
  | Procedure.online => mret (JS.Bool true)
  | Procedure.version => mret (JS.Str (umbreld_version host))
  | Procedure.status => status ← gets systemStatus; mret (JS.Str (status_name status))
  | Procedure.updateStatus => status ← gets updateStatus; mret (JS.Object status)
  | Procedure.uptime => mret (JS.Number (os_uptime host))
  | Procedure.latestAvailableVersion => latestAvailableVersion ctx
  | Procedure.update => done ← update JSON_parse ctx; mret (JS.Bool done)
  | Procedure.hiddenService => hostname ← hiddenService ctx; mret (JS.Str hostname)
  | Procedure.shutdown => done ← shutdown ctx; mret (JS.Bool done)
  | Procedure.restart => done ← restart ctx; mret (JS.Bool done)
  | Procedure.logs type => text ← logs host type; mret (JS.Str text)
  | Procedure.factoryReset password => factoryReset ctx password
  | Procedure.getFactoryResetStatus => getFactoryResetStatus
  end.

(** A request together with the world it is served in. *)
Record Request : Type := {
  world : Context;
  host_of : Host;
  procedure : Procedure.name;
}.

(** The state after a sequence of requests; a request that throws fails
    alone, the state it left stays. *)
Fixpoint serve_all (JSON_parse : string -> option JS.Value) (requests : list Request)
    (st : State) : State :=
  match requests with
  | [] => st
  | r :: requests =>
      serve_all JSON_parse requests
        (serve JSON_parse (world r) (host_of r) (procedure r) st).1
  end.

(** The procedures that write nothing of the state, not even a log
    message. *)
Definition read_only (procedure : Procedure.name) : bool :=
  match procedure with
  | Procedure.update | Procedure.shutdown | Procedure.restart
  | Procedure.hiddenService | Procedure.factoryReset _ => false
  | _ => true
  end.

(** Whether the router declares the procedure with [publicProcedure], which
    serves it to callers that are not logged in. *)
Definition is_public (procedure : Procedure.name) : bool :=
  match procedure with
  | Procedure.online | Procedure.version | Procedure.status
  | Procedure.getFactoryResetStatus => true
  | _ => false
  end.

(** ** The drawer of the user interface *)

Module UI.

(** A React element: the component and the props it is given. *)
Record Element : Type := {
  component : string;
  props : gmap string JS.Value;
}.

(** A destructured parameter with a default takes the default when the
    property is absent or undefined. *)
Definition with_default (value : option JS.Value) (default : JS.Value) : JS.Value :=
  match value with
  | None | Some JS.Undefined => default
  | Some v => v
  end.

(** [({shouldScaleBackground = true, ...props}) =>
       <DrawerPrimitive.Root shouldScaleBackground={shouldScaleBackground} {...props} />] *)
Definition Drawer (props : gmap string JS.Value) : Element :=
  let shouldScaleBackground :=
    with_default (props !! "shouldScaleBackground") (JS.Bool true) in
  let props := delete "shouldScaleBackground" props in
  {| component := "DrawerPrimitive.Root";
     props := JS.spread {[ "shouldScaleBackground" := shouldScaleBackground ]}
                        (JS.Object props) |}.

End UI.

(** ** What a run shows to an observer *)

(** The commands handed to collaborators, oldest first. *)
Fixpoint commands (es : list Event) : list Command :=
  match es with
  | [] => []
  | Call c _ :: es => c :: commands es
  | _ :: es => commands es
  end.

(** The values written to SystemState, oldest first. *)
Fixpoint system_written (es : list Event) : list SystemStatus :=
  match es with
  | [] => []
  | WriteSystemStatus s :: es => s :: system_written es
  | _ :: es => system_written es
  end.

(** The lines of a sequence of chunks, in the order the handler goes
    through them. *)
Fixpoint chunk_lines (chunks : list (Stream * string)) : list string :=
  match chunks with
  | [] => []
  | (_, chunk) :: chunks => JS.split_lines chunk ++ chunk_lines chunks
  end.

(** How many of the lines are exactly one dot. *)
Fixpoint dot_count (lines : list string) : nat :=
  match lines with
  | [] => 0
  | line :: lines => (if String.eqb line "." then 1 else 0) + dot_count lines
  end.

(** No line starts with the marker of structured updates. *)
Definition no_marker (lines : list string) : bool :=
  forallb (fun line => negb (JS.startsWith line marker)) lines.

(** The fields of the UpdateStatus type. *)
Definition fields : list string := ["running"; "progress"; "description"; "error"].

(** The messages of the update failures logged, oldest first. *)
Fixpoint failures_logged (es : list Event) : list string :=
  match es with
  | [] => []
  | Log (UpdateScriptFailed message) :: es => message :: failures_logged es
  | _ :: es => failures_logged es
  end.

(** Two states hold the same thing under the key [k] of UpdateStatus. *)
Definition same_field (k : string) (s1 s2 : State) : Prop :=
  updateStatus s1 !! k = updateStatus s2 !! k.

(** UpdateStatus defines each of its four fields. *)
Definition has_fields (status : gmap string JS.Value) : Prop :=
  forall k, In k fields -> is_Some (status !! k).

(** [lines.join('\n')] *)
Fixpoint join_lines (lines : list string) : string :=
  match lines with
  | [] => ""
  | [line] => line
  | line :: lines => line ^^ lf ^^ join_lines lines
  end.

(** Does the text hold a line feed? *)
Fixpoint has_lf (text : string) : bool :=
  match text with
  | EmptyString => false
  | String c rest => Ascii.eqb c "010"%char || has_lf rest
  end.

(** The number of line feeds of the text. *)
Fixpoint count_lf (text : string) : nat :=
  match text with
  | EmptyString => 0
  | String c rest => (if Ascii.eqb c "010"%char then 1 else 0) + count_lf rest
  end.

(** The whole number of percent the [n]-th dot line of an attempt writes:
    the exact value of the formula, but for the 49th dot (see
    [exact_progress]). *)
Definition written_percent (n : nat) : Z :=
  if Nat.eqb n 49 then 67%Z else exact_progress n.

(** ** More sample inputs *)

(** Output of a script that holds neither a structured update nor a dot
    line: a blank line, a line with three dots, and a line that mentions the
    marker after its start. *)
Definition ordinary_chunks : list (Stream * string) :=
  [(stdout, "Downloading update" ^^ lf ^^ lf);
   (stderr, "..." ^^ lf ^^ " umbrel-update: {}" ^^ lf)].

(** Three dot lines among ordinary output, on both streams. *)
Definition dotted_chunks : list (Stream * string) :=
  [(stdout, "Installing" ^^ lf ^^ "." ^^ lf ^^ "."); (stderr, lf ^^ "." ^^ lf)].

(** A release whose updateScript is the empty string. *)
Definition empty_script_context : Context :=
  sample_context (Some "") [(stdout, "." ^^ lf)] (Resolved tt).

(** A fragment of [JSON.parse] on texts that are not objects. *)
Definition scalar_JSON_parse (text : string) : option JS.Value :=
  if String.eqb text "95" then Some (JS.Number 95)
  else if String.eqb text (dq ^^ "ok" ^^ dq) then Some (JS.Str "ok")
  else None.

(** The chunks of [dotted_chunks] arriving in the other order. *)
Definition dotted_chunks_swapped : list (Stream * string) :=
  [(stderr, lf ^^ "." ^^ lf); (stdout, "Installing" ^^ lf ^^ "." ^^ lf ^^ ".")].

(** A host whose journal holds one line. *)
Definition sample_host : Host :=
  {| umbreld_version := "1.0.0";
     os_uptime := 3600;
     journalctl := fun _ => Resolved "umbreld started";
     stripAnsi := fun text => text |}.

(** The context [ctx] in a world where the awaited commands settle as
    [outcome] says. *)
Definition with_settles (ctx : Context) (outcome : Command -> Outcome unit) : Context :=
  {| dataDirectory := dataDirectory ctx;
     latestRelease := latestRelease ctx;
     fetchText := fetchText ctx;
     bash := bash ctx;
     readFile := readFile ctx;
     validatePassword := validatePassword ctx;
     startResetState := startResetState ctx;
     settles := outcome |}.

(** A script that prints one dot line and exits with success, in a world
    where stop() rejects. *)
Definition stop_failing_context : Context :=
  with_settles (script_context [(stdout, "." ^^ lf)] (Resolved tt))
    (fun c => match c with
              | Stop => Rejected "umbreld failed to stop"
              | _ => Resolved tt
              end).

(** ** Properties *)

(** *** Rounding and order of binary64 numbers *)

Module Binary64Facts.

Import Binary64.
Local Open Scope Z_scope.

(** **** Digits *)

Lemma digits2_pos_bounds (m : positive) :
  2 ^ (Z.pos (digits2_pos m) - 1) <= Z.pos m < 2 ^ Z.pos (digits2_pos m).
Proof.
  induction m as [m IH|m IH|]; cbn [digits2_pos].
  - rewrite Pos2Z.inj_succ. replace (Z.succ (Z.pos (digits2_pos m)) - 1)
      with (Z.succ (Z.pos (digits2_pos m) - 1)) by lia.
    rewrite !Z.pow_succ_r by lia. lia.
  - rewrite Pos2Z.inj_succ. replace (Z.succ (Z.pos (digits2_pos m)) - 1)
      with (Z.succ (Z.pos (digits2_pos m) - 1)) by lia.
    rewrite !Z.pow_succ_r by lia. lia.
  - cbn. lia.
Qed.

Lemma digits2_pos_unique (m : positive) (d : Z) :
  2 ^ (d - 1) <= Z.pos m < 2 ^ d -> Z.pos (digits2_pos m) = d.
Proof.
  intros [Hlo Hhi]. pose proof (digits2_pos_bounds m) as [Hlo' Hhi'].
  assert (0 < d).
  { destruct d as [|d|d]; [|lia|].
    - change (2 ^ 0) with 1 in Hhi. lia.
    - rewrite Z.pow_neg_r in Hhi by lia. lia. }
  assert (Z.pos (digits2_pos m) - 1 < d).
  { apply (Z.pow_lt_mono_r_iff 2); lia. }
  assert (d - 1 < Z.pos (digits2_pos m)).
  { apply (Z.pow_lt_mono_r_iff 2); lia. }
  lia.
Qed.

(** **** Shifting right *)

Lemma shr_1_m (r : shr_record) :
  0 <= shr_m r -> shr_m (shr_1 r) = shr_m r / 2.
Proof.
  destruct r as [m rb sb]; cbn [shr_m shr_1]. intros Hm.
  destruct m as [|[p|p|]|p]; cbn [shr_m]; try reflexivity; try lia.
  - rewrite Pos2Z.inj_xI. apply Z.div_unique with 1; lia.
  - rewrite Pos2Z.inj_xO. apply Z.div_unique with 0; lia.
Qed.

Lemma pow2_xI (p : positive) : 2 ^ Z.pos p~1 = 2 * (2 ^ Z.pos p * 2 ^ Z.pos p).
Proof.
  replace (Z.pos p~1) with (Z.pos p + Z.pos p + 1) by lia.
  rewrite !Z.pow_add_r by lia. rewrite Z.pow_1_r. ring.
Qed.

Lemma pow2_xO (p : positive) : 2 ^ Z.pos p~0 = 2 ^ Z.pos p * 2 ^ Z.pos p.
Proof.
  replace (Z.pos p~0) with (Z.pos p + Z.pos p) by lia.
  rewrite !Z.pow_add_r by lia. reflexivity.
Qed.

Lemma iter_shr_1_m (p : positive) (r : shr_record) :
  0 <= shr_m r -> shr_m (SpecFloat.iter_pos shr_1 p r) = shr_m r / 2 ^ Z.pos p.
Proof.
  revert r. induction p as [p IH|p IH|]; intros r Hr; cbn [SpecFloat.iter_pos].
  - assert (H1 : 0 <= shr_m (shr_1 r)) by (rewrite shr_1_m by lia; apply Z.div_pos; lia).
    assert (H2 : 0 <= shr_m (SpecFloat.iter_pos shr_1 p (shr_1 r)))
      by (rewrite IH by lia; apply Z.div_pos; lia).
    rewrite IH, IH, shr_1_m by lia.
    rewrite !Z.div_div by lia. rewrite pow2_xI. reflexivity.
  - assert (H2 : 0 <= shr_m (SpecFloat.iter_pos shr_1 p r))
      by (rewrite IH by lia; apply Z.div_pos; lia).
    rewrite IH, IH by lia.
    rewrite !Z.div_div by lia. rewrite pow2_xO. reflexivity.
  - rewrite shr_1_m by lia. reflexivity.
Qed.

Lemma round_nearest_even_range (m : Z) (l : location) :
  m <= round_nearest_even m l <= m + 1.
Proof.
  destruct l as [|[]]; cbn [round_nearest_even]; try lia.
  destruct (Z.even m); lia.
Qed.

Lemma loc_of_shr_record_of_loc m l : shr_m (shr_record_of_loc m l) = m.
Proof. destruct l as [|[]]; reflexivity. Qed.

(** **** Rounding *)

Lemma shr_fexp_m (m : positive) (e : Z) (l : location) :
  let d := Z.pos (digits2_pos m) in
  53 <= d -> -1074 <= d + e - 53 ->
  shr_m (fst (shr_fexp prec emax (Z.pos m) e l)) = Z.pos m / 2 ^ (d - 53)
  /\ snd (shr_fexp prec emax (Z.pos m) e l) = d + e - 53.
Proof.
  intros d Hd He. unfold shr_fexp, fexp, Zdigits2. fold d.
  change (SpecFloat.emin prec emax) with (-1074). change prec with 53.
  rewrite Z.max_l by lia.
  replace (d + e - 53 - e) with (d - 53) by lia.
  unfold shr. destruct (d - 53) as [|p|p] eqn:E; try lia; cbn [fst snd].
  - rewrite loc_of_shr_record_of_loc, Z.div_1_r. lia.
  - rewrite iter_shr_1_m by (rewrite loc_of_shr_record_of_loc; lia).
    rewrite loc_of_shr_record_of_loc. lia.
Qed.

Lemma round_aux_lower (m : positive) (e : Z) (l : location) :
  let d := Z.pos (digits2_pos m) in
  53 <= d -> -1074 <= d + e - 53 ->
  binary_round_aux prec emax false (Z.pos m) e l = S754_infinity false
  \/ exists m' e',
       binary_round_aux prec emax false (Z.pos m) e l = S754_finite false m' e'
       /\ normal m' e'
       /\ ((e' = d + e - 53 /\ Z.pos m / 2 ^ (d - 53) <= Z.pos m')
           \/ (e' = d + e - 53 + 1 /\ Z.pos m' = 2 ^ 52)).
Proof.
  intros d Hd He.
  pose proof (shr_fexp_m m e l Hd He) as [Hm1 He1]. fold d in Hm1, He1.
  pose proof (digits2_pos_bounds m) as [Hlo Hhi]. fold d in Hlo, Hhi.
  assert (Hm1range : 2 ^ 52 <= Z.pos m / 2 ^ (d - 53) < 2 ^ 53).
  { assert (Hp : 0 < 2 ^ (d - 53)) by (apply Z.pow_pos_nonneg; lia).
    split.
    - apply Z.div_le_lower_bound; [lia|].
      rewrite <- Z.pow_add_r by lia. replace (d - 53 + 52) with (d - 1) by lia. lia.
    - apply Z.div_lt_upper_bound; [lia|].
      rewrite <- Z.pow_add_r by lia. replace (d - 53 + 53) with d by lia. lia. }
  unfold binary_round_aux.
  destruct (shr_fexp prec emax (Z.pos m) e l) as [r1 e1]. cbn [fst snd] in Hm1, He1.
  pose proof (round_nearest_even_range (shr_m r1) (loc_of_shr_record r1)) as Hrne.
  set (m2 := round_nearest_even (shr_m r1) (loc_of_shr_record r1)) in *.
  rewrite Hm1 in Hrne.
  destruct m2 as [|p2|p2] eqn:Ep2; try lia.
  destruct (Z.eq_dec (Z.pos p2) (2 ^ 53)) as [Htop|Hnot].
  - assert (Hd2 : Z.pos (digits2_pos p2) = 54)
      by (apply digits2_pos_unique; rewrite Htop; cbn; lia).
    pose proof (shr_fexp_m p2 e1 loc_Exact) as Hs. cbv zeta in Hs. rewrite Hd2 in Hs.
    destruct Hs as [Hm3 He3]; [lia|lia|].
    destruct (shr_fexp prec emax (Z.pos p2) e1 loc_Exact) as [r3 e3].
    cbn [fst snd] in Hm3, He3. rewrite Hm3, Htop.
    change (2 ^ 53 / 2 ^ (54 - 53)) with (Z.pos 4503599627370496).
    destruct (e3 <=? emax - prec) eqn:Hle; [|left; reflexivity].
    right. exists 4503599627370496%positive, e3.
    apply Z.leb_le in Hle. change (emax - prec) with 971 in Hle.
    split; [reflexivity|]. split; [split; [cbn; lia|lia]|].
    right. split; [lia|reflexivity].
  - assert (Hd2 : Z.pos (digits2_pos p2) = 53)
      by (apply digits2_pos_unique; change (53 - 1) with 52; lia).
    pose proof (shr_fexp_m p2 e1 loc_Exact) as Hs. cbv zeta in Hs. rewrite Hd2 in Hs.
    destruct Hs as [Hm3 He3]; [lia|lia|].
    destruct (shr_fexp prec emax (Z.pos p2) e1 loc_Exact) as [r3 e3].
    cbn [fst snd] in Hm3, He3. rewrite Hm3.
    change (2 ^ (53 - 53)) with 1. rewrite Z.div_1_r.
    destruct (e3 <=? emax - prec) eqn:Hle; [|left; reflexivity].
    right. exists p2, e3.
    apply Z.leb_le in Hle. change (emax - prec) with 971 in Hle.
    split; [reflexivity|]. split; [split; lia|].
    left. split; lia.
Qed.

Lemma pow2_pos (n : Z) : 0 <= n -> 0 < 2 ^ n.
Proof. intros. apply Z.pow_pos_nonneg; lia. Qed.

Lemma pow2_le (a b : Z) : 0 <= a <= b -> 2 ^ a <= 2 ^ b.
Proof. intros. apply Z.pow_le_mono_r; lia. Qed.

(** Truncating to 53 bits keeps a number above any normal number below it. *)
Lemma trunc_ge (s : positive) (ez mr er k : Z) :
  let d := Z.pos (digits2_pos s) in
  2 ^ 52 <= mr -> 0 <= ez + k -> 0 <= er + k ->
  mr * 2 ^ (er + k) <= Z.pos s * 2 ^ (ez + k) ->
  er <= d + ez - 53
  /\ (er = d + ez - 53 -> 53 <= d -> mr <= Z.pos s / 2 ^ (d - 53)).
Proof.
  intros d Hmr Hez Her Hle.
  pose proof (digits2_pos_bounds s) as [Hlo Hhi]. fold d in Hlo, Hhi.
  assert (Hd : 0 < d) by (unfold d; lia).
  assert (H1 : 2 ^ (52 + (er + k)) < 2 ^ (d + (ez + k))).
  { rewrite (Z.pow_add_r 2 52 (er + k)), (Z.pow_add_r 2 d (ez + k)) by lia.
    pose proof (pow2_pos (er + k) Her). pose proof (pow2_pos (ez + k) Hez).
    assert (2 ^ 52 * 2 ^ (er + k) <= mr * 2 ^ (er + k))
      by (apply Z.mul_le_mono_nonneg_r; lia).
    assert (Z.pos s * 2 ^ (ez + k) < 2 ^ d * 2 ^ (ez + k))
      by (apply Z.mul_lt_mono_pos_r; lia).
    lia. }
  apply Z.pow_lt_mono_r_iff in H1; [|lia|lia].
  split; [lia|]. intros E Hd53.
  apply Z.div_le_lower_bound; [apply pow2_pos; lia|].
  replace (er + k) with ((ez + k) + (d - 53)) in Hle by lia.
  rewrite Z.pow_add_r in Hle by lia.
  pose proof (pow2_pos (ez + k) Hez).
  apply Z.mul_le_mono_pos_l with (2 ^ (ez + k)); lia.
Qed.

Lemma scaled_normal_lt (mr er m e : Z) :
  mr < 2 ^ 53 -> 2 ^ 52 <= m -> -1074 <= er -> er < e -> scaled mr er < scaled m e.
Proof.
  intros Hmr Hm Her Hlt. unfold scaled.
  replace (e + 1074) with ((er + 1074) + (e - er)) by lia.
  rewrite (Z.pow_add_r 2 (er + 1074) (e - er)) by lia.
  pose proof (pow2_pos (er + 1074) ltac:(lia)) as HA.
  assert (HP : 2 ^ 1 <= 2 ^ (e - er)) by (apply pow2_le; lia).
  change (2 ^ 1) with 2 in HP.
  set (A := 2 ^ (er + 1074)) in *. set (P := 2 ^ (e - er)) in *.
  apply Z.lt_le_trans with (2 ^ 52 * A * 2).
  - change (2 ^ 53) with (2 ^ 52 * 2) in Hmr.
    assert (mr * A < 2 ^ 52 * 2 * A) by (apply Z.mul_lt_mono_pos_r; lia). lia.
  - rewrite Z.mul_assoc. apply Z.mul_le_mono_nonneg; try lia.
    apply Z.mul_le_mono_nonneg_r; lia.
Qed.

Lemma scaled_normal_le (mr er m e : Z) :
  mr < 2 ^ 53 -> 2 ^ 52 <= m -> -1074 <= er -> er < e -> scaled mr er <= scaled m e.
Proof. intros. apply Z.lt_le_incl, scaled_normal_lt; assumption. Qed.

(** On normal numbers the order of the values is the order of the
    exponents, then of the mantissas. *)
Lemma scaled_le_lex (mr er m e : Z) :
  2 ^ 52 <= mr -> m < 2 ^ 53 -> -1074 <= e -> -1074 <= er ->
  scaled mr er <= scaled m e -> er < e \/ (er = e /\ mr <= m).
Proof.
  intros Hmr Hm He Her Hle.
  destruct (Z.lt_trichotomy er e) as [Hlt|[Heq|Hgt]]; [left; exact Hlt| |].
  - right. split; [exact Heq|]. subst e. unfold scaled in Hle.
    pose proof (pow2_pos (er + 1074) ltac:(lia)).
    apply Z.mul_le_mono_pos_r with (2 ^ (er + 1074)); lia.
  - pose proof (scaled_normal_lt m e mr er Hm Hmr He Hgt). lia.
Qed.

Lemma round_aux_at_least (m : positive) (e : Z) (l : location) (mr er k : Z) :
  53 <= Z.pos (digits2_pos m) ->
  2 ^ 52 <= mr < 2 ^ 53 -> -1074 <= er ->
  0 <= e + k -> 0 <= er + k ->
  mr * 2 ^ (er + k) <= Z.pos m * 2 ^ (e + k) ->
  at_least mr er (binary_round_aux prec emax false (Z.pos m) e l).
Proof.
  intros Hd [Hmr Hmr'] Her Hek Herk Hle.
  destruct (trunc_ge m e mr er k Hmr Hek Herk Hle) as [He1 Hm1].
  destruct (round_aux_lower m e l Hd ltac:(lia)) as [->|(m' & e' & -> & Hn & Hcase)];
    [exact I|].
  split; [exact Hn|]. destruct Hn as [[Hlo Hhi] He'].
  destruct Hcase as [[-> Hm']|[-> Hm']].
  - destruct (Z.eq_dec er (Z.pos (digits2_pos m) + e - 53)) as [E|E].
    + specialize (Hm1 E Hd). unfold scaled. rewrite <- E.
      pose proof (pow2_pos (er + 1074) ltac:(lia)). nia.
    + apply scaled_normal_le; lia.
  - apply scaled_normal_le; lia.
Qed.

Lemma iter_xO (p s : positive) : Z.pos (Pos.iter xO s p) = Z.pos s * 2 ^ Z.pos p.
Proof.
  change (Pos.iter xO s p) with (shift_pos p s). rewrite shift_pos_correct.
  rewrite Zpower_pos_nat, Zpower_nat_Z, positive_nat_Z. ring.
Qed.

Lemma normalize_at_least (s : positive) (e mr er k : Z) :
  2 ^ 52 <= mr < 2 ^ 53 -> -1074 <= er ->
  0 <= e + k -> 0 <= er + k ->
  mr * 2 ^ (er + k) <= Z.pos s * 2 ^ (e + k) ->
  at_least mr er (binary_normalize prec emax (Z.pos s) e false).
Proof.
  intros Hmr Her Hek Herk Hle.
  destruct (trunc_ge s e mr er k (proj1 Hmr) Hek Herk Hle) as [He1 _].
  pose proof (digits2_pos_bounds s) as [Hlo Hhi].
  set (d := Z.pos (digits2_pos s)) in *.
  cbn [binary_normalize]. unfold binary_round, shl_align, fexp. fold d.
  change (SpecFloat.emin prec emax) with (-1074). change prec with 53.
  rewrite Z.max_l by lia.
  destruct (d + e - 53 - e) as [|p|p] eqn:E.
  - apply round_aux_at_least with k; try assumption. fold d. lia.
  - apply round_aux_at_least with k; try assumption. fold d. lia.
  - assert (Hp : Z.pos p = 53 - d) by lia.
    assert (Hval : Z.pos (Pos.iter xO s p) = Z.pos s * 2 ^ Z.pos p) by apply iter_xO.
    assert (Hdig : Z.pos (digits2_pos (Pos.iter xO s p)) = 53).
    { apply digits2_pos_unique. rewrite Hval.
      assert (E1 : 2 ^ (53 - 1) = 2 ^ (d - 1) * 2 ^ Z.pos p)
        by (rewrite <- Z.pow_add_r by lia; f_equal; lia).
      assert (E2 : 2 ^ 53 = 2 ^ d * 2 ^ Z.pos p)
        by (rewrite <- Z.pow_add_r by lia; f_equal; lia).
      rewrite E1, E2. pose proof (pow2_pos (Z.pos p) ltac:(lia)).
      split; [apply Z.mul_le_mono_nonneg_r|apply Z.mul_lt_mono_pos_r]; lia. }
    apply round_aux_at_least with (k + Z.pos p); try assumption; try lia.
    rewrite Hval.
    replace (er + (k + Z.pos p)) with ((er + k) + Z.pos p) by lia.
    replace (d + e - 53 + (k + Z.pos p)) with (e + k) by lia.
    rewrite (Z.pow_add_r 2 (er + k) (Z.pos p)) by lia.
    pose proof (pow2_pos (Z.pos p) ltac:(lia)).
    rewrite Z.mul_assoc, (Z.mul_shuffle0 (Z.pos s)).
    apply Z.mul_le_mono_nonneg_r; lia.
Qed.

(** **** The operations on positive normal numbers *)

Lemma normal_digits (m : positive) (e : Z) :
  normal m e -> Z.pos (digits2_pos m) = 53.
Proof. intros [H _]. apply digits2_pos_unique. exact H. Qed.

Lemma normal_valid (m : positive) (e : Z) :
  normal m e -> valid_binary (S754_finite false m e) = true.
Proof.
  intros Hn. pose proof (normal_digits m e Hn) as Hd. destruct Hn as [_ He].
  cbn [SpecFloat.valid_binary]. unfold bounded, canonical_mantissa, fexp.
  rewrite Hd. change (SpecFloat.emin prec emax) with (-1074). change prec with 53.
  change emax with 1024.
  apply andb_true_intro. split; [apply Z.eqb_eq|apply Z.leb_le]; lia.
Qed.

Lemma at_least_valid (mr er : Z) (x : spec_float) :
  at_least mr er x -> valid_binary x = true.
Proof.
  destruct x as [| [] | |[] m e]; cbn [at_least]; try contradiction; try reflexivity.
  intros [Hn _]. apply normal_valid. exact Hn.
Qed.

Lemma shl_align_fst (m : positive) (e e' : Z) :
  e' <= e -> Z.pos (fst (shl_align m e e')) = Z.pos m * 2 ^ (e - e').
Proof.
  intros Hle. unfold shl_align. destruct (e' - e) as [|p|p] eqn:E; cbn [fst]; try lia.
  - replace (e - e') with 0 by lia. lia.
  - rewrite iter_xO. f_equal. f_equal. lia.
Qed.

Lemma scaled_split (m e e' : Z) :
  -1074 <= e' <= e -> m * 2 ^ (e - e') * 2 ^ (e' + 1074) = scaled m e.
Proof.
  intros H. unfold scaled. rewrite <- Z.mul_assoc, <- Z.pow_add_r by lia.
  f_equal. f_equal. lia.
Qed.

Lemma SFadd_at_least (mx : positive) (ex : Z) (my : positive) (ey : Z) (mr er : Z) :
  normal mx ex -> normal my ey -> 2 ^ 52 <= mr < 2 ^ 53 -> -1074 <= er ->
  scaled mr er <= scaled (Z.pos mx) ex + scaled (Z.pos my) ey ->
  at_least mr er (SFadd prec emax (S754_finite false mx ex) (S754_finite false my ey)).
Proof.
  intros [_ Hex] [_ Hey] Hmr Her Hle. cbn [SFadd cond_Zopp].
  set (ez := Z.min ex ey).
  assert (Hez : -1074 <= ez /\ ez <= ex /\ ez <= ey) by (unfold ez; lia).
  pose proof (shl_align_fst mx ex ez ltac:(lia)) as Hx.
  pose proof (shl_align_fst my ey ez ltac:(lia)) as Hy.
  change (Z.pos (fst (shl_align mx ex ez)) + Z.pos (fst (shl_align my ey ez)))
    with (Z.pos (fst (shl_align mx ex ez) + fst (shl_align my ey ez))).
  apply normalize_at_least with 1074; try lia.
  rewrite Pos2Z.inj_add, Hx, Hy, Z.mul_add_distr_r.
  rewrite !scaled_split by lia. exact Hle.
Qed.

Lemma SFmul_at_least (mx : positive) (ex : Z) (my : positive) (ey : Z) (mr er : Z) :
  normal mx ex -> normal my ey -> 2 ^ 52 <= mr < 2 ^ 53 -> -1074 <= er ->
  scaled mr er * 2 ^ 1074 <= scaled (Z.pos mx) ex * scaled (Z.pos my) ey ->
  at_least mr er (SFmul prec emax (S754_finite false mx ex) (S754_finite false my ey)).
Proof.
  intros [[Hmx _] Hex] [[Hmy _] Hey] Hmr Her Hle. cbn [SFmul xorb].
  apply round_aux_at_least with 2148; try lia.
  - pose proof (digits2_pos_bounds (mx * my)) as [_ Hhi].
    rewrite Pos2Z.inj_mul in Hhi.
    assert (2 ^ 52 * 2 ^ 52 <= Z.pos mx * Z.pos my)
      by (apply Z.mul_le_mono_nonneg; lia).
    assert (Hlt : 2 ^ 104 < 2 ^ Z.pos (digits2_pos (mx * my)))
      by (change (2 ^ 104) with (2 ^ 52 * 2 ^ 52); lia).
    apply Z.pow_lt_mono_r_iff in Hlt; lia.
  - rewrite Pos2Z.inj_mul.
    replace (er + 2148) with ((er + 1074) + 1074) by lia.
    replace (ex + ey + 2148) with ((ex + 1074) + (ey + 1074)) by lia.
    rewrite (Z.pow_add_r 2 (er + 1074) 1074), (Z.pow_add_r 2 (ex + 1074) (ey + 1074)) by lia.
    unfold scaled in Hle.
    replace (Z.pos mx * Z.pos my * (2 ^ (ex + 1074) * 2 ^ (ey + 1074)))
      with (Z.pos mx * 2 ^ (ex + 1074) * (Z.pos my * 2 ^ (ey + 1074))) by ring.
    rewrite Z.mul_assoc. exact Hle.
Qed.

Lemma Prim2SF_70 : Prim2SF 70 = S754_finite false m70 (-46).
Proof. vm_compute. reflexivity. Qed.
Lemma Prim2SF_90 : Prim2SF 90 = S754_finite false m90 (-46).
Proof. vm_compute. reflexivity. Qed.
Lemma Prim2SF_95 : Prim2SF 95 = S754_finite false m95 (-46).
Proof. vm_compute. reflexivity. Qed.
Lemma Prim2SF_5 : Prim2SF 5 = S754_finite false m5 (-50).
Proof. vm_compute. reflexivity. Qed.
Lemma Prim2SF_1 : Prim2SF 1 = S754_finite false m1 (-52).
Proof. vm_compute. reflexivity. Qed.

Lemma SFdiv_70_at_least_1 (mx : positive) (ex : Z) :
  normal mx ex -> scaled (Z.pos m70) (-46) <= scaled (Z.pos mx) ex ->
  at_least (Z.pos m1) (-52)
    (SFdiv prec emax (S754_finite false mx ex) (S754_finite false m70 (-46))).
Proof.
  intros Hn Hle. pose proof (normal_digits mx ex Hn) as Hd.
  destruct Hn as [[Hlo Hhi] [Hex Hex']].
  assert (H70 : 2 ^ 52 <= Z.pos m70) by (unfold m70; lia).
  destruct (scaled_le_lex (Z.pos m70) (-46) (Z.pos mx) ex H70 Hhi Hex ltac:(lia) Hle)
    as [Hlt|[Heq Hm]]; clear H70.
  - (* the exponent of x is above that of 70 *)
    cbn [SFdiv xorb]. unfold SFdiv_core_binary, Zdigits2, fexp. rewrite Hd.
    change (Z.pos (digits2_pos m70)) with 53.
    change (SpecFloat.emin prec emax) with (-1074). change prec with 53.
    replace (53 + ex - (53 + -46)) with (ex + 46) by lia.
    rewrite Z.max_l by lia. rewrite Z.min_l by lia.
    replace (ex - -46 - (ex + 46 - 53)) with 53 by lia.
    rewrite Z.shiftl_mul_pow2 by lia.
    pose proof (Z_div_mod (Z.pos mx * 2 ^ 53) (Z.pos m70) eq_refl) as Hdiv.
    destruct (Z.div_eucl (Z.pos mx * 2 ^ 53) (Z.pos m70)) as [q r].
    destruct Hdiv as [Hq Hr].
    change (2 ^ 53) with 9007199254740992 in *.
    change (2 ^ 52) with 4503599627370496 in *.
    unfold m70 in *.
    assert (Hq52 : 4503599627370496 <= q) by lia.
    destruct q as [|q|q]; try lia.
    apply round_aux_at_least with 53; [|unfold m1; lia|lia|lia|lia|].
    + pose proof (digits2_pos_bounds q) as [_ Hqhi].
      assert (Hlt' : 2 ^ 52 < 2 ^ Z.pos (digits2_pos q))
        by (change (2 ^ 52) with 4503599627370496; lia).
      apply Z.pow_lt_mono_r_iff in Hlt'; lia.
    + replace (ex + 46 - 53 + 53) with (1 + (ex + 45)) by lia.
      rewrite (Z.pow_add_r 2 1 (ex + 45)) by lia.
      pose proof (pow2_pos (ex + 45) ltac:(lia)).
      change (-52 + 53) with 1. change (2 ^ 1) with 2. unfold m1.
      rewrite Z.mul_assoc. rewrite <- (Z.mul_1_r (4503599627370496 * 2)).
      apply Z.mul_le_mono_nonneg; lia.
  - (* x has the exponent of 70 and a mantissa that is at least as large *)
    subst ex.
    cbn [SFdiv xorb]. unfold SFdiv_core_binary, Zdigits2, fexp. rewrite Hd.
    change (Z.pos (digits2_pos m70)) with 53.
    change (SpecFloat.emin prec emax) with (-1074). change prec with 53.
    change (Z.min (Z.max (53 + -46 - (53 + -46) - 53) (-1074)) (-46 - -46)) with (-53).
    change (-46 - -46 - -53) with 53.
    rewrite Z.shiftl_mul_pow2 by lia.
    pose proof (Z_div_mod (Z.pos mx * 2 ^ 53) (Z.pos m70) eq_refl) as Hdiv.
    destruct (Z.div_eucl (Z.pos mx * 2 ^ 53) (Z.pos m70)) as [q r].
    destruct Hdiv as [Hq Hr].
    change (2 ^ 53) with 9007199254740992 in *.
    change (2 ^ 52) with 4503599627370496 in *.
    unfold m70 in *.
    assert (Hq53 : 9007199254740992 <= q) by lia.
    destruct q as [|q|q]; try lia.
    apply round_aux_at_least with 53; [|unfold m1; lia|lia|lia|lia|].
    + pose proof (digits2_pos_bounds q) as [_ Hqhi].
      assert (Hlt' : 2 ^ 52 < 2 ^ Z.pos (digits2_pos q))
        by (change (2 ^ 52) with 4503599627370496; lia).
      apply Z.pow_lt_mono_r_iff in Hlt'; lia.
    + change (-53 + 53) with 0. change (-52 + 53) with 1.
      change (2 ^ 0) with 1. change (2 ^ 1) with 2. unfold m1. lia.
Qed.

(** **** The primitive operations *)

Lemma add_at_least (c y : float) (my : positive) (ey mr er mr' er' : Z) :
  Prim2SF y = S754_finite false my ey -> normal my ey ->
  2 ^ 52 <= mr' < 2 ^ 53 -> -1074 <= er' ->
  (forall m e, scaled mr er <= scaled m e ->
               scaled mr' er' <= scaled m e + scaled (Z.pos my) ey) ->
  at_least mr er (Prim2SF c) -> at_least mr' er' (Prim2SF (c + y)).
Proof.
  intros Hy Hny Hmr Her Hsum Hc. rewrite add_spec, Hy. unfold SF64add.
  destruct (Prim2SF c) as [| [] | |[] m e]; cbn [at_least] in Hc; try contradiction.
  - exact I.
  - destruct Hc as [Hn Hle]. apply SFadd_at_least; auto.
Qed.

Lemma count_dot_at_least (c : float) (mr er : Z) :
  2 ^ 52 <= mr < 2 ^ 53 -> -1074 <= er ->
  at_least mr er (Prim2SF c) -> at_least mr er (Prim2SF (count_dot c)).
Proof.
  intros Hmr Her. unfold count_dot.
  apply (add_at_least c 1 m1 (-52)); try assumption.
  - exact Prim2SF_1.
  - split; [unfold m1; lia|lia].
  - intros m e Hle. assert (0 <= scaled (Z.pos m1) (-52)) by (vm_compute; discriminate).
    lia.
Qed.

Lemma add_5_at_least (w : float) :
  at_least (Z.pos m90) (-46) (Prim2SF w) -> at_least (Z.pos m95) (-46) (Prim2SF (w + 5)).
Proof.
  apply (add_at_least w 5 m5 (-50)).
  - exact Prim2SF_5.
  - split; [unfold m5; lia|lia].
  - unfold m95; lia.
  - lia.
  - intros m e Hle.
    assert (E : scaled (Z.pos m95) (-46) = scaled (Z.pos m90) (-46) + scaled (Z.pos m5) (-50))
      by (vm_compute; reflexivity).
    lia.
Qed.

Lemma div_70_at_least (c : float) :
  at_least (Z.pos m70) (-46) (Prim2SF c) -> at_least (Z.pos m1) (-52) (Prim2SF (c / 70)).
Proof.
  intros Hc. rewrite div_spec. unfold SF64div.
  rewrite Prim2SF_70.
  destruct (Prim2SF c) as [| [] | |[] m e]; cbn [at_least] in Hc; try contradiction.
  - exact I.
  - destruct Hc as [Hn Hle]. apply SFdiv_70_at_least_1; assumption.
Qed.

Lemma mul_90_at_least (y : float) :
  at_least (Z.pos m1) (-52) (Prim2SF y) -> at_least (Z.pos m90) (-46) (Prim2SF (y * 90)).
Proof.
  intros Hy. rewrite mul_spec. unfold SF64mul.
  rewrite Prim2SF_90.
  destruct (Prim2SF y) as [| [] | |[] m e]; cbn [at_least] in Hy; try contradiction.
  - exact I.
  - destruct Hy as [Hn Hle]. apply SFmul_at_least; try assumption.
    + split; [unfold m90; lia|lia].
    + unfold m90; lia.
    + lia.
    + rewrite Z.mul_comm.
      assert (E : scaled (Z.pos m1) (-52) = 2 ^ 1074) by (vm_compute; reflexivity).
      rewrite E in Hle.
      apply Z.mul_le_mono_nonneg_r; [vm_compute; discriminate|exact Hle].
Qed.

Lemma floor_at_least (w : float) :
  at_least (Z.pos m90) (-46) (Prim2SF w) ->
  at_least (Z.pos m90) (-46) (Prim2SF (JS.Math_floor w)).
Proof.
  intros Hw. unfold JS.Math_floor.
  destruct (Prim2SF w) as [| [] | |[] m e] eqn:Ew; cbn [at_least] in Hw;
    try contradiction.
  - rewrite Ew. exact I.
  - destruct Hw as [[[Hlo Hhi] [He He']] Hle].
    assert (Hz : 90 <= JS.floor_finite false m e).
    { unfold JS.floor_finite. destruct (Z.leb_spec 0 e) as [Hpos|Hneg].
      - pose proof (pow2_pos e Hpos).
        assert (2 ^ 52 * 1 <= Z.pos m * 2 ^ e) by (apply Z.mul_le_mono_nonneg; lia).
        change (2 ^ 52) with 4503599627370496 in *. lia.
      - apply Z.div_le_lower_bound; [apply pow2_pos; lia|].
        unfold scaled, m90 in Hle.
        change (6333186975989760 * 2 ^ (-46 + 1074)) with (90 * 2 ^ 1074) in Hle.
        replace 1074 with (- e + (e + 1074)) in Hle at 1 by lia.
        rewrite (Z.pow_add_r 2 (- e) (e + 1074)) in Hle by lia.
        pose proof (pow2_pos (e + 1074) ltac:(lia)).
        apply Z.mul_le_mono_pos_r with (2 ^ (e + 1074)); [assumption|].
        rewrite <- Z.mul_assoc, (Z.mul_comm (2 ^ (- e))). lia. }
    cbv zeta. destruct (JS.floor_finite false m e) as [|z|z] eqn:Ez; try lia.
    cbn [Z.eqb].
    assert (Hres : at_least (Z.pos m90) (-46)
                     (binary_normalize prec emax (Z.pos z) 0 false)).
    { apply normalize_at_least with 46; try lia; [unfold m90; lia|].
      change (-46 + 46) with 0. change (0 + 46) with 46. change (2 ^ 0) with 1.
      unfold m90. change (2 ^ 46) with 70368744177664. lia. }
    rewrite Prim2SF_SF2Prim by (eapply at_least_valid; exact Hres).
    exact Hres.
Qed.

Lemma SFcompare_refl (mr er : Z) (x : spec_float) :
  at_least mr er x -> SFcompare x x = Some Eq.
Proof.
  destruct x as [| [] | |[] m e]; cbn [at_least]; try contradiction; intros _;
    cbn [SFcompare]; [reflexivity|].
  rewrite Z.compare_refl, Pos.compare_cont_refl. reflexivity.
Qed.

(** The minimum of 95 and a number that is at least 95. *)
Lemma min_95_at_least (v : float) :
  at_least (Z.pos m95) (-46) (Prim2SF v) -> JS.Math_min 95 v = 95%float.
Proof.
  intros Hv. unfold JS.Math_min.
  change (negb (PrimFloat.eqb 95 95)) with false. cbv iota.
  change (get_sign 95) with false.
  rewrite (FloatAxioms.eqb_spec v v). unfold SFeqb.
  rewrite (SFcompare_refl _ _ _ Hv). cbn [negb].
  rewrite (FloatAxioms.ltb_spec 95 v), (FloatAxioms.ltb_spec v 95). unfold SFltb.
  rewrite Prim2SF_95.
  destruct (Prim2SF v) as [| [] | |[] m e] eqn:Ev; cbn [at_least] in Hv;
    try contradiction.
  - reflexivity.
  - destruct Hv as [[[Hlo Hhi] [He He']] Hle].
    assert (H95 : 2 ^ 52 <= Z.pos m95) by (unfold m95; lia).
    destruct (scaled_le_lex (Z.pos m95) (-46) (Z.pos m) e H95 Hhi He ltac:(lia) Hle)
      as [Hlt|[Heq Hm]].
    + cbn [SFcompare]. rewrite (proj2 (Z.compare_lt_iff (-46) e) Hlt). reflexivity.
    + subst e. cbn [SFcompare]. rewrite Z.compare_refl.
      rewrite !Pos.compare_cont_spec.
      rewrite (Pos.compare_antisym m95 m).
      destruct (Pos.compare_spec m95 m) as [E|E|E]; cbn [CompOpp Pos.switch_Eq].
      * apply Prim2SF_inj. rewrite Ev, <- E. symmetry. exact Prim2SF_95.
      * reflexivity.
      * exfalso. apply Pos2Z.pos_lt_pos in E. apply Z.lt_nge in E. exact (E Hm).
Qed.

(** From 70 dots on the formula yields 95. *)
Lemma dot_progress_capped (c : float) :
  at_least (Z.pos m70) (-46) (Prim2SF c) -> dot_progress c = 95%float.
Proof.
  intros Hc. unfold dot_progress.
  apply min_95_at_least, add_5_at_least, floor_at_least, mul_90_at_least,
    div_70_at_least, Hc.
Qed.

Lemma dots_after_at_least_70 (n : nat) :
  (70 <= n)%nat -> at_least (Z.pos m70) (-46) (Prim2SF (dots_after n)).
Proof.
  induction 1 as [|n Hn IH].
  - assert (E : Prim2SF (dots_after 70) = S754_finite false m70 (-46))
      by (vm_compute; reflexivity).
    rewrite E. split; [split; [unfold m70; lia|lia]|lia].
  - change (dots_after (S n)) with (count_dot (dots_after n)).
    apply count_dot_at_least; [unfold m70; lia|lia|exact IH].
Qed.

(** A number that is at least some normal number does not decrease when
    the counter is incremented. *)
Lemma count_dot_leb (c : float) (mr er : Z) :
  at_least mr er (Prim2SF c) -> PrimFloat.leb c (count_dot c) = true.
Proof.
  intros Hc. rewrite FloatAxioms.leb_spec. unfold SFleb.
  destruct (Prim2SF c) as [| [] | |[] m e] eqn:Ec; cbn [at_least] in Hc;
    try contradiction.
  - unfold count_dot. rewrite add_spec, Ec, Prim2SF_1. reflexivity.
  - destruct Hc as [Hn _].
    assert (Hself : at_least (Z.pos m) e (Prim2SF c))
      by (rewrite Ec; split; [exact Hn|lia]).
    destruct Hn as [[Hlo Hhi] [He He']].
    apply count_dot_at_least in Hself; [|lia|lia].
    destruct (Prim2SF (count_dot c)) as [| [] | |[] m' e']; cbn [at_least] in Hself;
      try contradiction.
    + reflexivity.
    + destruct Hself as [[[Hlo' Hhi'] [He1 He2]] Hle].
      destruct (scaled_le_lex (Z.pos m) e (Z.pos m') e' Hlo Hhi' He1 He Hle)
        as [Hlt|[Heq Hm]].
      * cbn [SFcompare]. rewrite (proj2 (Z.compare_lt_iff e e') Hlt). reflexivity.
      * subst e'. cbn [SFcompare]. rewrite Z.compare_refl, Pos.compare_cont_spec.
        destruct (Pos.compare_spec m m') as [E|E|E]; cbn [Pos.switch_Eq];
          try reflexivity.
        exfalso. apply Pos2Z.pos_lt_pos in E. apply Z.lt_nge in E. exact (E Hm).
Qed.

End Binary64Facts.

(** *** The progress of the dot lines *)

Lemma progress_after_capped (n : nat) : 70 <= n -> progress_after n = 95%float.
Proof.
  intros Hn. apply Binary64Facts.dot_progress_capped, Binary64Facts.dots_after_at_least_70, Hn.
Qed.

(** The first 70 values, compared pairwise by evaluation. *)
Lemma progress_after_table :
  forallb (fun j => forallb (fun k => PrimFloat.leb (progress_after j) (progress_after k))
                            (seq j (71 - j)))
          (seq 0 71) = true.
Proof. vm_compute. reflexivity. Qed.

Lemma progress_after_monotone (j k : nat) :
  j <= k -> PrimFloat.leb (progress_after j) (progress_after k) = true.
Proof.
  intros Hjk.
  assert (Htable : forall a b, a <= b <= 70 ->
                     PrimFloat.leb (progress_after a) (progress_after b) = true).
  { intros a b Hab. pose proof progress_after_table as T.
    rewrite forallb_forall in T. specialize (T a).
    rewrite forallb_forall in T. apply T; apply in_seq; lia. }
  destruct (Nat.le_gt_cases k 70) as [Hk|Hk].
  - apply Htable. lia.
  - rewrite (progress_after_capped k) by lia.
    rewrite <- (progress_after_capped 70) by lia.
    destruct (Nat.le_gt_cases j 70) as [Hj|Hj].
    + apply Htable. lia.
    + rewrite (progress_after_capped j), (progress_after_capped 70) by lia.
      vm_compute. reflexivity.
Qed.

Lemma progress_after_bounded (k : nat) : PrimFloat.leb (progress_after k) 95 = true.
Proof.
  rewrite <- (progress_after_capped (Nat.max k 70)) by lia.
  apply progress_after_monotone. lia.
Qed.

(** The counter never decreases. *)
Lemma dots_after_table :
  forallb (fun n => PrimFloat.leb (dots_after n) (dots_after (S n))) (seq 0 70) = true.
Proof. vm_compute. reflexivity. Qed.

Lemma dots_after_monotone (n : nat) :
  PrimFloat.leb (dots_after n) (dots_after (S n)) = true.
Proof.
  destruct (Nat.le_gt_cases 70 n) as [Hn|Hn].
  - change (dots_after (S n)) with (count_dot (dots_after n)).
    eapply Binary64Facts.count_dot_leb, Binary64Facts.dots_after_at_least_70, Hn.
  - pose proof dots_after_table as T. rewrite forallb_forall in T.
    apply T, in_seq. lia.
Qed.

(** *** The status registers *)

Section Facts.

Variable JSON_parse : string -> option JS.Value.

Lemma setUpdateStatus_run (properties : JS.Value) (st : State) :
  setUpdateStatus properties st =
  ({| systemStatus := systemStatus st;
      updateStatus := JS.spread (updateStatus st) properties;
      factoryResetDemoState := factoryResetDemoState st;
      events := events st ++ [WriteUpdateStatus (JS.spread (updateStatus st) properties)] |},
   Returned tt).
Proof. reflexivity. Qed.

Lemma spread_lookup_Some (target partial : gmap string JS.Value) k v :
  partial !! k = Some v -> JS.spread target (JS.Object partial) !! k = Some v.
Proof. intros H. unfold JS.spread; cbn [JS.own_properties]. by apply lookup_union_Some_l. Qed.

Lemma spread_lookup_None (target partial : gmap string JS.Value) k :
  partial !! k = None -> JS.spread target (JS.Object partial) !! k = target !! k.
Proof. intros H. unfold JS.spread; cbn [JS.own_properties]. by apply lookup_union_r. Qed.

Lemma spread_single (target : gmap string JS.Value) k v :
  JS.spread target (obj [(k, v)]) = <[k := v]> target.
Proof.
  unfold JS.spread, obj; cbn [JS.own_properties list_to_map foldr].
  rewrite insert_empty. symmetry. apply insert_union_singleton_l.
Qed.

(** C3: a write to UpdateStatus is a shallow merge.  Every field the partial
    record names takes the supplied value, every other field keeps its prior
    value, and nothing else of the state changes; merging [{progress: 10}]
    into a record with running true and description x leaves those two as
    they were. *)
Theorem setUpdateStatus_shallow_merge (prior : State) (partial : gmap string JS.Value) :
  let after := (setUpdateStatus (JS.Object partial) prior).1 in
  (setUpdateStatus (JS.Object partial) prior).2 = Returned tt
  /\ (forall k v, partial !! k = Some v -> updateStatus after !! k = Some v)
  /\ (forall k, partial !! k = None -> updateStatus after !! k = updateStatus prior !! k)
  /\ systemStatus after = systemStatus prior
  /\ factoryResetDemoState after = factoryResetDemoState prior
  /\ (forall p e : JS.Value,
        JS.spread {[ "running" := JS.Bool true; "progress" := p;
                     "description" := JS.Str "x"; "error" := e ]}
                  (obj [("progress", JS.Number 10)])
        = {[ "running" := JS.Bool true; "progress" := JS.Number 10;
             "description" := JS.Str "x"; "error" := e ]}).
Proof.
  rewrite setUpdateStatus_run; cbn [fst snd updateStatus systemStatus factoryResetDemoState].
  repeat apply conj; try reflexivity.
  - intros k v. apply spread_lookup_Some.
  - intros k. apply spread_lookup_None.
Qed.

(** *** One line of output *)

Lemma handleLine_marker (payload : string) (dots : float) (st : State) :
  handleLine JSON_parse (marker ^^ payload) dots st =
  match JSON_parse payload with
  | Some status => ((setUpdateStatus status st).1, Returned dots)
  | None => (st, Returned dots)
  end.
Proof.
  unfold handleLine.
  change (JS.startsWith (marker ^^ payload) marker) with true.
  change (JS.replace marker "" (marker ^^ payload)) with payload.
  change (String.eqb (marker ^^ payload) ".") with false.
  cbv beta iota. destruct (JSON_parse payload); reflexivity.
Qed.

Lemma handleLine_dot (dots : float) (st : State) :
  handleLine JSON_parse "." dots st =
  ((setUpdateStatus (obj [("progress", JS.Number (dot_progress (dots + 1)))])
      (log (UpdateProgress (dot_progress (dots + 1))) st).1).1,
   Returned (dots + 1)%float).
Proof. reflexivity. Qed.

Lemma handleLine_other (line : string) (dots : float) (st : State) :
  JS.startsWith line marker = false -> String.eqb line "." = false ->
  handleLine JSON_parse line dots st = (st, Returned dots).
Proof. intros Hm Hd. unfold handleLine. rewrite Hm, Hd. reflexivity. Qed.

Lemma handleLines_app (l1 l2 : list string) (dots : float) (st : State) :
  handleLines JSON_parse (l1 ++ l2) dots st =
  match handleLines JSON_parse l1 dots st with
  | (st', Returned dots') => handleLines JSON_parse l2 dots' st'
  | (st', Thrown e) => (st', Thrown e)
  end.
Proof.
  revert dots st. induction l1 as [|l l1 IH]; intros dots st; [reflexivity|].
  cbn [app handleLines]. unfold mbind, M_bind.
  destruct (handleLine JSON_parse l dots st) as [st' [d'|e]]; [apply IH|reflexivity].
Qed.

(** The counter after [n] more dot lines. *)
Lemma handleLines_dots (n : nat) (dots : float) (st : State) :
  (handleLines JSON_parse (repeat "." n) dots st).2
  = Returned (Nat.iter n count_dot dots).
Proof.
  revert dots st. induction n as [|n IH]; intros dots st; [reflexivity|].
  cbn [repeat handleLines]. unfold mbind, M_bind. rewrite handleLine_dot.
  rewrite IH. f_equal.
  exact (Nat.iter_swap n float count_dot dots).
Qed.

Lemma progress_logged_app (es1 es2 : list Event) :
  progress_logged (es1 ++ es2) = progress_logged es1 ++ progress_logged es2.
Proof.
  induction es1 as [|e es1 IH]; [reflexivity|].
  destruct e as [| | |[]]; cbn [app progress_logged]; rewrite IH; reflexivity.
Qed.

(** A line other than the single dot leaves the counter alone and logs no
    progress. *)
Lemma handleLine_not_dot (line : string) (dots : float) (st : State) :
  line <> "." ->
  (handleLine JSON_parse line dots st).2 = Returned dots
  /\ progress_logged (events (handleLine JSON_parse line dots st).1)
     = progress_logged (events st).
Proof.
  intros Hne. apply String.eqb_neq in Hne. unfold handleLine. rewrite Hne.
  destruct (JS.startsWith line marker); [|split; reflexivity].
  destruct (JSON_parse _) as [status|]; [|split; reflexivity].
  split; [reflexivity|].
  match goal with
  | |- progress_logged (events ?after) = _ =>
      change (events after) with
        (events st ++ [WriteUpdateStatus (JS.spread (updateStatus st) status)])
  end.
  rewrite progress_logged_app, app_nil_r. reflexivity.
Qed.

(** The progress field after one or more dot lines in a row. *)
Lemma handleLines_dots_progress (n : nat) (dots : float) (st : State) :
  JS.get (updateStatus (handleLines JSON_parse (repeat "." (S n)) dots st).1) "progress"
  = JS.Number (dot_progress (Nat.iter (S n) count_dot dots)).
Proof.
  revert dots st. induction n as [|n IH]; intros dots st.
  - cbn [repeat handleLines]. unfold mbind, M_bind. rewrite handleLine_dot.
    rewrite setUpdateStatus_run, spread_single. cbn [fst updateStatus mret M_ret].
    unfold JS.get. rewrite lookup_insert_eq. reflexivity.
  - change (repeat "." (S (S n))) with ("." :: repeat "." (S n)).
    cbn [handleLines]. unfold mbind at 1, M_bind at 1. rewrite handleLine_dot.
    rewrite IH. do 2 f_equal.
    exact (Nat.iter_swap (S n) float count_dot dots).
Qed.

(** *** What a delivery of chunks logs *)

Lemma dot_trail_app (n m : nat) (dots : float) :
  dot_trail (n + m) dots = dot_trail n dots ++ dot_trail m (Nat.iter n count_dot dots).
Proof.
  revert dots. induction n as [|n IH]; intros dots; [reflexivity|].
  cbn [Nat.add dot_trail app]. rewrite IH. do 3 f_equal.
  exact (Nat.iter_swap n float count_dot dots).
Qed.

Lemma handled_seq (n m : nat) (dots : float) (st : State)
    (r1 r2 : State * Result float) :
  handled n dots st r1 -> handled m (Nat.iter n count_dot dots) r1.1 r2 ->
  handled (n + m) dots st r2.
Proof.
  intros (Hr1 & Hs1 & Hf1 & new1 & He1 & Hp1) (Hr2 & Hs2 & Hf2 & new2 & He2 & Hp2).
  unfold handled. rewrite Hr2, Hs2, Hs1, Hf2, Hf1.
  split; [f_equal; rewrite Nat.add_comm; symmetry; apply Nat.iter_add|].
  split; [reflexivity|]. split; [reflexivity|].
  exists (new1 ++ new2). rewrite He2, He1, app_assoc. split; [reflexivity|].
  rewrite progress_logged_app, Hp1, Hp2, dot_trail_app. reflexivity.
Qed.

Lemma handleLine_handled (line : string) (dots : float) (st : State) :
  exists n, handled n dots st (handleLine JSON_parse line dots st).
Proof.
  destruct (String.eqb line ".") eqn:Hdot.
  - apply String.eqb_eq in Hdot. subst line. exists 1. rewrite handleLine_dot.
    rewrite setUpdateStatus_run. repeat split.
    eexists. cbn [fst events log emit]. rewrite <- app_assoc. split; reflexivity.
  - exists 0. unfold handleLine. rewrite Hdot.
    destruct (JS.startsWith line marker).
    + destruct (JSON_parse _) as [status|].
      * repeat split. eexists. split; reflexivity.
      * repeat split. exists []. rewrite app_nil_r. split; reflexivity.
    + repeat split. exists []. rewrite app_nil_r. split; reflexivity.
Qed.

Lemma handleLines_handled (lines : list string) (dots : float) (st : State) :
  exists n, handled n dots st (handleLines JSON_parse lines dots st).
Proof.
  revert dots st. induction lines as [|line lines IH]; intros dots st.
  - exists 0. repeat split. exists []. rewrite app_nil_r. split; reflexivity.
  - destruct (handleLine_handled line dots st) as [n Hn].
    cbn [handleLines]. unfold mbind, M_bind.
    destruct (handleLine JSON_parse line dots st) as [st' [d'|e]] eqn:E.
    + pose proof Hn as (Hr & _). cbn [snd] in Hr. injection Hr as ->.
      destruct (IH (Nat.iter n count_dot dots) st') as [m Hm].
      exists (n + m). eapply handled_seq; [exact Hn|exact Hm].
    + destruct Hn as (Hr & _). discriminate Hr.
Qed.

Lemma deliver_handled (chunks : list (Stream * string)) (dots : float) (st : State) :
  exists n, handled n dots st (deliver JSON_parse chunks dots st).
Proof.
  revert dots st. induction chunks as [|[stream chunk] chunks IH]; intros dots st.
  - exists 0. repeat split. exists []. rewrite app_nil_r. split; reflexivity.
  - destruct (handleLines_handled (JS.split_lines chunk) dots st) as [n Hn].
    cbn [deliver]. unfold mbind, M_bind, handleUpdateScriptOutput.
    destruct (handleLines JSON_parse (JS.split_lines chunk) dots st)
      as [st' [d'|e]] eqn:E.
    + pose proof Hn as (Hr & _). cbn [snd] in Hr. injection Hr as ->.
      destruct (IH (Nat.iter n count_dot dots) st') as [m Hm].
      exists (n + m). eapply handled_seq; [exact Hn|exact Hm].
    + destruct Hn as (Hr & _). discriminate Hr.
Qed.

(** The handler never throws. *)
Lemma deliver_returns (chunks : list (Stream * string)) (dots : float) (st : State) :
  exists dots', deliver JSON_parse chunks dots st
                = ((deliver JSON_parse chunks dots st).1, Returned dots').
Proof.
  destruct (deliver_handled chunks dots st) as [n (Hr & _)].
  destruct (deliver JSON_parse chunks dots st) as [st' r]. cbn [snd] in Hr.
  subst r. eexists. reflexivity.
Qed.

End Facts.

(** *** The update flow *)

Section UpdateFlow.

Variable JSON_parse : string -> option JS.Value.
Variable ctx : Context.

Lemma started_status (st : State) :
  JS.get (updateStatus (started st)) "error" = JS.Bool false
  /\ JS.get (updateStatus (started st)) "progress" = JS.Number 5
  /\ systemStatus (started st) = updating
  /\ events (started st)
     = events st ++ [WriteSystemStatus updating;
                     WriteUpdateStatus (updateStatus (started st))].
Proof.
  unfold started. rewrite setUpdateStatus_run.
  cbn [fst updateStatus systemStatus events setSystemStatus].
  unfold JS.get, JS.spread, starting_status, obj; cbn [JS.own_properties].
  repeat apply conj.
  - erewrite lookup_union_Some_l; reflexivity.
  - erewrite lookup_union_Some_l; reflexivity.
  - reflexivity.
  - rewrite <- app_assoc. reflexivity.
Qed.

Lemma attempt_run (st : State) :
  attempt JSON_parse ctx st = update_try JSON_parse ctx (started st).
Proof. reflexivity. Qed.

(** [update] is its attempt followed by the completion steps, or by the
    [catch] block when the attempt throws. *)
Lemma update_run (st : State) :
  update JSON_parse ctx st =
  match attempt JSON_parse ctx st with
  | (st1, Returned _) => update_complete ctx st1
  | (st1, Thrown error) => update_catch error st1
  end.
Proof.
  cbv beta iota zeta delta
    [update attempt mbind M_bind try_catch setSystemStatus setUpdateStatus gets
     write_updateStatus starting_status].
  match goal with
  | |- context [update_try JSON_parse ctx ?s] =>
      destruct (update_try JSON_parse ctx s) as [st1 [[]|e]]; [reflexivity|]
  end.
  destruct (update_catch e st1) as [st2 [b|e']]; reflexivity.
Qed.

(** The statements after the [try] statement: progress 95 is written,
    stop() is called, reboot() is called once stop() has resolved, and the
    result is true once both have. *)
Lemma update_complete_run (st1 : State) :
  update_complete ctx st1
  = ({| systemStatus := systemStatus st1;
        updateStatus := <["progress" := JS.Number 95]> (updateStatus st1);
        factoryResetDemoState := factoryResetDemoState st1;
        events := events st1
                  ++ WriteUpdateStatus (<["progress" := JS.Number 95]> (updateStatus st1))
                     :: Call Stop true
                     :: match settles ctx Stop with
                        | Resolved _ => [Call Reboot true]
                        | Rejected _ => []
                        end |},
     completion_result ctx).
Proof.
  unfold update_complete, completion_result, run.
  cbv beta iota zeta delta [mbind M_bind].
  rewrite setUpdateStatus_run, spread_single.
  destruct (settles ctx Stop) as [[]|message];
    [destruct (settles ctx Reboot) as [[]|message]|];
    cbv beta iota zeta delta
      [call emit await mret M_ret throw fst snd events updateStatus systemStatus
       factoryResetDemoState];
    rewrite <- !app_assoc; reflexivity.
Qed.

Lemma kept_error_truthy (status : gmap string JS.Value) :
  JS.truthy (kept_error status) = true.
Proof.
  unfold kept_error. destruct (JS.truthy (JS.get status "error")) eqn:E; [exact E|reflexivity].
Qed.

Lemma update_catch_run (error : Error) (st1 : State) :
  let after := (update_catch error st1).1 in
  (update_catch error st1).2 = Returned false
  /\ systemStatus after = running
  /\ updateStatus after = failed_status (kept_error (updateStatus st1))
  /\ factoryResetDemoState after = factoryResetDemoState st1
  /\ exists written,
       events after
       = events st1 ++ written
         ++ [WriteUpdateStatus idle_status;
             WriteUpdateStatus (failed_status (kept_error (updateStatus st1)));
             WriteSystemStatus running;
             Log (UpdateScriptFailed (error_message error))]
       /\ written = if JS.truthy (JS.get (updateStatus st1) "error") then []
                    else [WriteUpdateStatus
                            (<["error" := JS.Str "Update failed"]> (updateStatus st1))].
Proof.
  unfold update_catch, kept_error.
  cbv beta iota zeta delta [mbind M_bind gets].
  destruct (JS.truthy (JS.get (updateStatus st1) "error")) eqn:E; cbn [negb].
  - split; [reflexivity|]. split; [reflexivity|]. split; [reflexivity|].
    split; [reflexivity|].
    exists []. split; [|reflexivity].
    cbv beta iota zeta delta
      [mret M_ret resetUpdateStatus write_updateStatus setUpdateStatus gets
       mbind M_bind setSystemStatus log emit fst events updateStatus
       systemStatus factoryResetDemoState].
    rewrite <- !app_assoc. reflexivity.
  - rewrite setUpdateStatus_run, spread_single.
    cbv beta iota zeta. cbn [updateStatus].
    replace (JS.get (<["error":=JS.Str "Update failed"]> (updateStatus st1)) "error")
      with (JS.Str "Update failed")
      by (unfold JS.get; rewrite lookup_insert_eq; reflexivity).
    split; [reflexivity|]. split; [reflexivity|]. split; [reflexivity|].
    split; [reflexivity|].
    eexists. split; [|reflexivity].
    cbv beta iota zeta delta
      [mret M_ret resetUpdateStatus write_updateStatus setUpdateStatus gets
       mbind M_bind setSystemStatus log emit fst events updateStatus
       systemStatus factoryResetDemoState].
    rewrite <- !app_assoc. reflexivity.
Qed.

(** Where each kind of failure leaves the [try] block. *)
Lemma update_try_failure (kind : FailureKind) (s : State) :
  update_failure ctx kind ->
  exists error,
    update_try JSON_parse ctx s = ((update_try JSON_parse ctx s).1, Thrown error)
    /\ match kind with
       | ReleaseFetchFailed | ScriptDownloadFailed =>
           (update_try JSON_parse ctx s).1 = s
       | MissingScript =>
           (update_try JSON_parse ctx s).1
           = (setUpdateStatus (obj [("error", JS.Str "No update script found")]) s).1
       | ScriptExitedNonZero =>
           exists script,
             (update_try JSON_parse ctx s).1
             = (deliver JSON_parse (bash ctx script).1 0 s).1
       end.
Proof.
  intros Hfail. unfold update_try, getLatestRelease.
  destruct Hfail as [message Hrel|release Hrel Hmiss
                    |release url message Hrel Hurl Hne Hfetch
                    |release url script message Hrel Hurl Hne Hfetch Hexit];
    rewrite Hrel; cbv beta iota zeta delta [await mbind M_bind mret M_ret throw].
  - eexists. split; reflexivity.
  - rewrite Hmiss, setUpdateStatus_run. eexists. split; reflexivity.
  - rewrite Hurl; cbn [script_missing from_option id].
    apply String.eqb_neq in Hne. rewrite Hne, Hfetch.
    eexists. split; reflexivity.
  - rewrite Hurl; cbn [script_missing from_option id].
    apply String.eqb_neq in Hne. rewrite Hne, Hfetch.
    destruct (deliver_returns JSON_parse (bash ctx script).1 0 s) as [d Hd].
    rewrite Hd, Hexit. eexists. split; [reflexivity|].
    exists script. reflexivity.
Qed.

Lemma update_try_success (script : string) (s : State) :
  update_succeeds ctx script ->
  update_try JSON_parse ctx s
  = ((deliver JSON_parse (bash ctx script).1 0 s).1, Returned tt).
Proof.
  intros (release & url & Hrel & Hurl & Hne & Hfetch & Hexit).
  unfold update_try, getLatestRelease. rewrite Hrel.
  cbv beta iota zeta delta [await mbind M_bind mret M_ret throw].
  rewrite Hurl; cbn [script_missing from_option id].
  apply String.eqb_neq in Hne. rewrite Hne, Hfetch.
  destruct (deliver_returns JSON_parse (bash ctx script).1 0 s) as [d Hd].
  rewrite Hd, Hexit. reflexivity.
Qed.

(** Every context is one where the attempt gets through or one of the four
    failures. *)
Lemma update_outcome_cases :
  (exists script, update_succeeds ctx script) \/ (exists kind, update_failure ctx kind).
Proof.
  destruct (latestRelease ctx) as [release|message] eqn:Hrel;
    [|right; exists ReleaseFetchFailed; econstructor; exact Hrel].
  destruct (script_missing (updateScript release)) eqn:Hmiss;
    [right; exists MissingScript; econstructor; [exact Hrel|exact Hmiss]|].
  destruct (updateScript release) as [url|] eqn:Hurl; [|discriminate Hmiss].
  cbn [script_missing] in Hmiss. apply String.eqb_neq in Hmiss.
  destruct (fetchText ctx url) as [script|message] eqn:Hfetch;
    [|right; exists ScriptDownloadFailed; econstructor; eassumption].
  destruct (bash ctx script).2 as [[]|message] eqn:Hexit.
  - left. exists script, release, url. repeat split; assumption.
  - right. exists ScriptExitedNonZero. econstructor; eassumption.
Qed.

(** C4, as the code has it: whenever the update flow fails (the release
    cannot be fetched, it names no script, the script cannot be downloaded,
    or the subprocess exits with a failure), [update] returns false,
    SystemState is back to running, and UpdateStatus is exactly running
    false, progress 0, description empty and an error that is never false
    nor empty: the error that stood in UpdateStatus when the failure was
    caught if it is truthy, the generic message otherwise.  The error that
    stood there is false when fetching the release or the script failed, the
    message of the missing-script check when the release names no script, and
    whatever the script's own output left there when the script ran. *)
Theorem update_failure_outcome (kind : FailureKind) (st : State) :
  update_failure ctx kind ->
  let caught := (attempt JSON_parse ctx st).1 in
  let standing := JS.get (updateStatus caught) "error" in
  let kept := if JS.truthy standing then standing else JS.Str "Update failed" in
  let after := (update JSON_parse ctx st).1 in
  (update JSON_parse ctx st).2 = Returned false
  /\ systemStatus after = running
  /\ updateStatus after = failed_status kept
  /\ (JS.truthy kept = true /\ kept <> JS.Bool false /\ kept <> JS.Str "")
  /\ match kind with
     | ReleaseFetchFailed | ScriptDownloadFailed =>
         standing = JS.Bool false /\ kept = JS.Str "Update failed"
     | MissingScript =>
         standing = JS.Str "No update script found"
         /\ kept = JS.Str "No update script found"
     | ScriptExitedNonZero =>
         exists script,
           caught = (deliver JSON_parse (bash ctx script).1 0 (started st)).1
     end.
Proof.
  intros Hfail caught standing kept after.
  destruct (update_try_failure kind (started st) Hfail) as (error & Hthrown & Hkind).
  assert (Hrun : update JSON_parse ctx st = update_catch error caught).
  { rewrite update_run. unfold caught. rewrite attempt_run, Hthrown. reflexivity. }
  destruct (update_catch_run error caught) as (Hret & Hsys & Hstatus & _).
  assert (Htruthy : JS.truthy kept = true) by apply kept_error_truthy.
  unfold after. rewrite Hrun.
  split; [exact Hret|]. split; [exact Hsys|]. split; [exact Hstatus|].
  split.
  { split; [exact Htruthy|].
    split; intros Heq; rewrite Heq in Htruthy; discriminate Htruthy. }
  destruct (started_status st) as (Herr & _).
  unfold kept, standing, caught. rewrite attempt_run.
  destruct kind.
  - rewrite Hkind, Herr. split; reflexivity.
  - rewrite Hkind, setUpdateStatus_run, spread_single. cbn [fst updateStatus].
    unfold JS.get. rewrite lookup_insert_eq. split; reflexivity.
  - rewrite Hkind, Herr. split; reflexivity.
  - destruct Hkind as [script Hscript]. exists script. exact Hscript.
Qed.

(** C5: when the fetched release has no updateScript field the attempt
    fails.  The error is set to the missing-script message, the failure path
    runs (the record is reset and the error put back), the last SystemState
    written is running, and [update] returns false. *)
Theorem missing_update_script_fails (release : ReleaseInfo) (st : State) :
  latestRelease ctx = Resolved release ->
  updateScript release = None ->
  let after := (update JSON_parse ctx st).1 in
  let announced := updateStatus (started st) in
  let message := JS.Str "No update script found" in
  (update JSON_parse ctx st).2 = Returned false
  /\ systemStatus after = running
  /\ updateStatus after = failed_status message
  /\ events after
     = events st
       ++ [WriteSystemStatus updating;
           WriteUpdateStatus announced;
           WriteUpdateStatus (<["error" := message]> announced);
           WriteUpdateStatus idle_status;
           WriteUpdateStatus (failed_status message);
           WriteSystemStatus running;
           Log (UpdateScriptFailed "No update script found")].
Proof.
  intros Hrel Hnone after announced message.
  assert (Hfail : update_failure ctx MissingScript).
  { eapply missing_script; [exact Hrel|]. rewrite Hnone. reflexivity. }
  destruct (update_try_failure MissingScript (started st) Hfail)
    as (error & Hthrown & Hstate).
  assert (Herror : error = JsError "No update script found").
  { revert Hthrown. unfold update_try, getLatestRelease. rewrite Hrel.
    cbv beta iota zeta delta [await mbind M_bind mret M_ret throw].
    rewrite Hnone. cbn [script_missing]. rewrite setUpdateStatus_run.
    intros H. injection H as H. symmetry. exact H. }
  set (caught := (update_try JSON_parse ctx (started st)).1) in *.
  assert (Hrun : update JSON_parse ctx st = update_catch error caught).
  { rewrite update_run, attempt_run, Hthrown. reflexivity. }
  assert (Hstanding : JS.get (updateStatus caught) "error" = message).
  { rewrite Hstate, setUpdateStatus_run, spread_single. cbn [fst updateStatus].
    unfold JS.get. rewrite lookup_insert_eq. reflexivity. }
  destruct (update_catch_run error caught)
    as (Hret & Hsys & Hstatus & _ & written & Hevents & Hwritten).
  unfold kept_error in Hstatus, Hevents. rewrite Hstanding in Hstatus, Hevents, Hwritten.
  cbn [JS.truthy String.eqb negb] in Hstatus, Hevents, Hwritten. subst written.
  unfold after. rewrite Hrun.
  split; [exact Hret|]. split; [exact Hsys|]. split; [exact Hstatus|].
  rewrite Hevents, Herror. cbn [error_message app].
  rewrite Hstate, setUpdateStatus_run, spread_single. cbn [fst events updateStatus].
  destruct (started_status st) as (_ & _ & _ & Hev). rewrite Hev.
  rewrite <- !app_assoc. reflexivity.
Qed.

(** The progress a dot line writes is never 100. *)
Lemma dot_progress_not_100 (dots : float) : dot_progress dots <> 100%float.
Proof.
  unfold dot_progress, JS.Math_min.
  set (y := (JS.Math_floor (dots / 70 * 90) + 5)%float).
  change (negb (PrimFloat.eqb 95 95)) with false. cbv iota.
  change (get_sign 95) with false.
  destruct (PrimFloat.eqb y y) eqn:Hnan; cbn [negb].
  - destruct (PrimFloat.ltb 95 y) eqn:Hlt.
    + intros H. apply (f_equal (PrimFloat.eqb 95)) in H. vm_compute in H. discriminate H.
    + destruct (PrimFloat.ltb y 95) eqn:Hgt; intros H; rewrite H in *;
        vm_compute in Hlt; discriminate Hlt.
  - intros H. rewrite H in Hnan. vm_compute in Hnan. discriminate Hnan.
Qed.

Lemma dot_trail_not_100 (n : nat) (dots : float) :
  Forall (fun p => p <> 100%float) (dot_trail n dots).
Proof.
  revert dots. induction n as [|n IH]; intros dots; constructor;
    [apply dot_progress_not_100|apply IH].
Qed.

End UpdateFlow.

(** *** Chunks and lines *)

Section Chunks.

Variable JSON_parse : string -> option JS.Value.

Lemma split_lines_nonempty (text : string) : JS.split_lines text <> [].
Proof.
  destruct text as [|c rest]; cbn [JS.split_lines]; [discriminate|].
  destruct (Ascii.eqb c "010"); [discriminate|].
  destruct (JS.split_lines rest); discriminate.
Qed.

(** Splitting a text with a line feed in it: the lines before that line
    feed, then the lines after it. *)
Lemma split_lines_lf (a b : string) :
  JS.split_lines (a ^^ lf ^^ b) = JS.split_lines a ++ JS.split_lines b.
Proof.
  induction a as [|c a IH]; [reflexivity|].
  change (String c a ^^ lf ^^ b) with (String c (a ^^ lf ^^ b)).
  cbn [JS.split_lines]. rewrite IH.
  destruct (Ascii.eqb c "010"); [reflexivity|].
  pose proof (split_lines_nonempty a) as Hne.
  destruct (JS.split_lines a) as [|l ls]; [contradiction|reflexivity].
Qed.

Lemma split_lines_trailing_lf (a : string) :
  JS.split_lines (a ^^ lf) = JS.split_lines a ++ [""].
Proof.
  replace (a ^^ lf) with (a ^^ lf ^^ "") by reflexivity. apply split_lines_lf.
Qed.

Lemma ends_with_lf_spec (text : string) :
  ends_with_lf text = true -> exists a, text = a ^^ lf.
Proof.
  induction text as [|c rest IH]; [discriminate|].
  destruct rest as [|c' rest'].
  - cbn [ends_with_lf]. intros H. apply Ascii.eqb_eq in H. subst c.
    exists "". reflexivity.
  - intros H. destruct (IH H) as [a Ha]. exists (String c a). rewrite Ha. reflexivity.
Qed.

Lemma append_assoc (a b c : string) : (a ^^ b) ^^ c = a ^^ b ^^ c.
Proof.
  induction a as [|x a IH]; [reflexivity|].
  change (String x ((a ^^ b) ^^ c) = String x (a ^^ b ^^ c)). rewrite IH. reflexivity.
Qed.

Lemma append_empty_r (a : string) : a ^^ "" = a.
Proof.
  induction a as [|x a IH]; [reflexivity|].
  change (String x (a ^^ "") = String x a). rewrite IH. reflexivity.
Qed.

(** The empty piece that a trailing line feed leaves behind does nothing. *)
Lemma handleLine_empty (dots : float) (st : State) :
  handleLine JSON_parse "" dots st = (st, Returned dots).
Proof. reflexivity. Qed.

(** Two chunks are handled as the lines of the first followed by the lines
    of the second. *)
Lemma deliver_two (s1 s2 : Stream) (a b : string)
    (rest : list (Stream * string)) (dots : float) (st : State) :
  deliver JSON_parse ((s1, a) :: (s2, b) :: rest) dots st
  = (d ← handleLines JSON_parse (JS.split_lines a ++ JS.split_lines b) dots;
     deliver JSON_parse rest d) st.
Proof.
  cbn [deliver]. unfold handleUpdateScriptOutput, mbind, M_bind.
  rewrite handleLines_app.
  destruct (handleLines JSON_parse (JS.split_lines a) dots st) as [st' [d'|e]];
    reflexivity.
Qed.

(** A chunk boundary right after a line feed can be removed. *)
Lemma deliver_join (s1 s2 s : Stream) (a b : string)
    (rest : list (Stream * string)) (dots : float) (st : State) :
  deliver JSON_parse ((s1, a ^^ lf) :: (s2, b) :: rest) dots st
  = deliver JSON_parse ((s, a ^^ lf ^^ b) :: rest) dots st.
Proof.
  rewrite deliver_two. cbn [deliver].
  unfold handleUpdateScriptOutput, mbind, M_bind.
  rewrite split_lines_lf, split_lines_trailing_lf, <- app_assoc.
  rewrite !handleLines_app.
  destruct (handleLines JSON_parse (JS.split_lines a) dots st) as [st' [d'|e]];
    [|reflexivity].
  cbn [app handleLines]. unfold mbind, M_bind. rewrite handleLine_empty. reflexivity.
Qed.

Lemma ends_with_lf_append (a b : string) :
  ends_with_lf b = true -> ends_with_lf (a ^^ lf ^^ b) = true.
Proof.
  intros Hb. induction a as [|x a IHa].
  { destruct b; [discriminate Hb|exact Hb]. }
  change (String x a ^^ lf ^^ b) with (String x (a ^^ lf ^^ b)).
  cbn [ends_with_lf]. destruct (a ^^ lf ^^ b) eqn:E; [|exact IHa].
  destruct a; discriminate E.
Qed.

Lemma deliver_aligned (chunks : list (Stream * string)) :
  forall (s : Stream) (c : string) (dots : float) (st : State),
    line_aligned ((s, c) :: chunks) = true ->
    deliver JSON_parse ((s, c) :: chunks) dots st
    = handleUpdateScriptOutput JSON_parse (c ^^ chunks_text chunks) dots st.
Proof.
  induction chunks as [|[s2 c2] chunks IH]; intros s c dots st Haligned.
  - cbn [deliver chunks_text]. unfold mbind, M_bind. rewrite append_empty_r.
    destruct (handleUpdateScriptOutput JSON_parse c dots st) as [st' [d'|e]];
      reflexivity.
  - cbn [line_aligned] in Haligned. apply andb_prop in Haligned as [Hlf Hrest].
    apply ends_with_lf_spec in Hlf as [a ->].
    rewrite (deliver_join s s2 s2). rewrite IH.
    + cbn [chunks_text]. rewrite !append_assoc. reflexivity.
    + destruct chunks as [|ch chunks']; [reflexivity|].
      cbn [line_aligned] in *. apply andb_prop in Hrest as [H2 Hrest].
      rewrite Hrest, andb_true_r. apply ends_with_lf_append. exact H2.
Qed.

End Chunks.

(** *** The sequence of progress values of an attempt *)

Lemma dot_trail_progress_after (n k : nat) :
  dot_trail n (dots_after k) = progress_after <$> seq (S k) n.
Proof.
  revert k. induction n as [|n IH]; intros k; [reflexivity|].
  cbn [dot_trail seq fmap list_fmap].
  change (count_dot (dots_after k)) with (dots_after (S k)).
  rewrite IH. reflexivity.
Qed.

(** The progress the code writes against the formula evaluated exactly. *)
Lemma exact_progress_table :
  forallb (fun n => PrimFloat.eqb (progress_after n) (number_of_Z (exact_progress n))
                    || Nat.eqb n 49)
          (seq 0 71) = true.
Proof. vm_compute. reflexivity. Qed.

Lemma exact_progress_capped (n : nat) : 70 <= n -> exact_progress n = 95%Z.
Proof.
  intros Hn. unfold exact_progress.
  assert (90 <= Z.of_nat n * 90 / 70)%Z by (apply Z.div_le_lower_bound; lia).
  lia.
Qed.

(** The binary64 evaluation of the formula agrees with its exact value for
    every number of dots but 49, where 49/70 * 90 rounds to just below 63:
    the code writes 67 and the exact value is 68. *)
Theorem progress_after_exact_but_49 (n : nat) :
  (n <> 49 ->
   PrimFloat.eqb (progress_after n) (number_of_Z (exact_progress n)) = true)
  /\ progress_after 49 = 67%float
  /\ exact_progress 49 = 68%Z
  /\ (49 / 70 * 90)%float = 0x1.f7fffffffffffp+5%float.
Proof.
  split; [|repeat split; vm_compute; reflexivity].
  intros Hne. destruct (Nat.le_gt_cases 70 n) as [Hn|Hn].
  - rewrite progress_after_capped, exact_progress_capped by exact Hn.
    vm_compute. reflexivity.
  - pose proof exact_progress_table as T. rewrite forallb_forall in T.
    specialize (T n ltac:(apply in_seq; lia)).
    apply orb_prop in T as [T|T]; [exact T|].
    apply Nat.eqb_eq in T. contradiction.
Qed.

(** *** hiddenService and factoryReset *)

(** C9: whatever reading the hostname file does, hiddenService returns to
    its caller: the contents when the read succeeds, the empty string when
    it fails in any way; the status registers are not touched. *)
Theorem hiddenService_never_throws (ctx : Context) (st : State) :
  let path := dataDirectory ctx ^^ "/tor/data/web/hostname" in
  (hiddenService ctx st).2
  = Returned (match readFile ctx path with
              | Resolved contents => contents
              | Rejected _ => ""
              end)
  /\ systemStatus (hiddenService ctx st).1 = systemStatus st
  /\ updateStatus (hiddenService ctx st).1 = updateStatus st.
Proof.
  intros path. unfold hiddenService, try_catch. fold path.
  destruct (readFile ctx path) as [contents|message]; repeat split.
Qed.

(** C8: factoryReset validates the password first.  If the password is
    rejected it throws UNAUTHORIZED and the state is what it was: no reset
    was started.  If it is accepted, the reset is started on the data
    directory without being awaited, and the call returns the reset progress
    as it stands at that moment. *)
Theorem factoryReset_validates_then_starts (ctx : Context) (password : string) (st : State) :
  if validatePassword ctx password
  then
    let after := (factoryReset ctx password st).1 in
    (factoryReset ctx password st).2 = Returned (factoryResetDemoState after)
    /\ events after = events st ++ [Call (StartReset (dataDirectory ctx)) false]
    /\ factoryResetDemoState after
       = startResetState ctx (dataDirectory ctx) (factoryResetDemoState st)
    /\ systemStatus after = systemStatus st
    /\ updateStatus after = updateStatus st
  else
    factoryReset ctx password st
    = (st, Thrown (TRPCError "UNAUTHORIZED" "Invalid password")).
Proof.
  unfold factoryReset. destruct (validatePassword ctx password); cbn [negb].
  - repeat split.
  - reflexivity.
Qed.

(** ** Further properties of the router *)

(** *** Lines, dots and ordinary output *)

Section Lines.

Variable JSON_parse : string -> option JS.Value.

(** The chunks are handled as the lines of all of them, one after the
    other. *)
Lemma deliver_chunk_lines (chunks : list (Stream * string)) (dots : float) (st : State) :
  deliver JSON_parse chunks dots st
  = handleLines JSON_parse (chunk_lines chunks) dots st.
Proof.
  revert dots st. induction chunks as [|[s c] chunks IH]; intros dots st; [reflexivity|].
  cbn [deliver chunk_lines]. unfold handleUpdateScriptOutput, mbind, M_bind.
  rewrite handleLines_app.
  destruct (handleLines JSON_parse (JS.split_lines c) dots st) as [st' [d|e]];
    [apply IH|reflexivity].
Qed.

Lemma handleLine_counts (line : string) (dots : float) (st : State) :
  handled (if String.eqb line "." then 1 else 0) dots st
          (handleLine JSON_parse line dots st).
Proof.
  destruct (String.eqb line ".") eqn:Hdot.
  - apply String.eqb_eq in Hdot. subst line. rewrite handleLine_dot.
    rewrite setUpdateStatus_run. repeat split.
    eexists. cbn [fst events log emit]. rewrite <- app_assoc. split; reflexivity.
  - unfold handleLine. rewrite Hdot.
    destruct (JS.startsWith line marker).
    + destruct (JSON_parse _) as [status|].
      * repeat split. eexists. split; reflexivity.
      * repeat split. exists []. rewrite app_nil_r. split; reflexivity.
    + repeat split. exists []. rewrite app_nil_r. split; reflexivity.
Qed.

Lemma handleLines_counts (lines : list string) (dots : float) (st : State) :
  handled (dot_count lines) dots st (handleLines JSON_parse lines dots st).
Proof.
  revert dots st. induction lines as [|line lines IH]; intros dots st.
  - repeat split. exists []. rewrite app_nil_r. split; reflexivity.
  - pose proof (handleLine_counts line dots st) as Hn.
    cbn [handleLines]. unfold mbind, M_bind.
    destruct (handleLine JSON_parse line dots st) as [st' [d'|e]] eqn:E.
    + pose proof Hn as (Hr & _). cbn [snd] in Hr. injection Hr as ->.
      cbn [dot_count]. eapply handled_seq; [exact Hn|apply IH].
    + destruct Hn as (Hr & _). discriminate Hr.
Qed.

Lemma dot_trail_length (n : nat) (dots : float) : length (dot_trail n dots) = n.
Proof.
  revert dots. induction n as [|n IH]; intros dots; [reflexivity|].
  cbn [dot_trail length]. rewrite IH. reflexivity.
Qed.

Lemma chunk_lines_stream (stream : Stream) (chunks : list (Stream * string)) :
  chunk_lines ((fun c : Stream * string => (stream, c.2)) <$> chunks) = chunk_lines chunks.
Proof.
  induction chunks as [|[s c] chunks IH]; [reflexivity|].
  cbn [fmap list_fmap chunk_lines snd]. f_equal. exact IH.
Qed.

(** X2: the handler's counter advances by exactly the number of lines that
    are a single dot, whatever else the chunks hold and however the text is
    cut into chunks.  One progress value is logged per dot line, and the
    stream a chunk arrived on (stdout or stderr) makes no difference. *)
Theorem deliver_counts_dot_lines (chunks : list (Stream * string))
    (dots : float) (st : State) :
  let n := dot_count (chunk_lines chunks) in
  let r := deliver JSON_parse chunks dots st in
  r.2 = Returned (Nat.iter n count_dot dots)
  /\ (exists new, events r.1 = events st ++ new
                  /\ progress_logged new = dot_trail n dots
                  /\ length (progress_logged new) = n)
  /\ (forall stream,
        deliver JSON_parse ((fun c : Stream * string => (stream, c.2)) <$> chunks) dots st
        = r).
Proof.
  intros n r. unfold r, n. rewrite deliver_chunk_lines.
  destruct (handleLines_counts (chunk_lines chunks) dots st)
    as (Hret & _ & _ & new & Hev & Hlog).
  split; [exact Hret|]. split.
  - exists new. split; [exact Hev|]. split; [exact Hlog|].
    rewrite Hlog. apply dot_trail_length.
  - intros stream. rewrite deliver_chunk_lines, chunk_lines_stream. reflexivity.
Qed.

Lemma handleLine_no_marker (line : string) (dots : float) (st : State) :
  JS.startsWith line marker = false ->
  handleLine JSON_parse line dots st
  = if String.eqb line "."
    then ((setUpdateStatus (obj [("progress", JS.Number (dot_progress (dots + 1)))])
             (log (UpdateProgress (dot_progress (dots + 1))) st).1).1,
          Returned (dots + 1)%float)
    else (st, Returned dots).
Proof. intros Hm. unfold handleLine. rewrite Hm. destruct (String.eqb line "."); reflexivity. Qed.

Lemma handleLines_no_marker (lines : list string) (dots : float) (st : State) :
  no_marker lines = true ->
  exists st',
    handleLines JSON_parse lines dots st
    = (st', Returned (Nat.iter (dot_count lines) count_dot dots))
    /\ systemStatus st' = systemStatus st
    /\ (dot_count lines = 0 -> st' = st)
    /\ (0 < dot_count lines ->
        updateStatus st'
        = <["progress" := JS.Number (dot_progress (Nat.iter (dot_count lines) count_dot dots))]>
            (updateStatus st)).
Proof.
  revert dots st. induction lines as [|line lines IH]; intros dots st Hno.
  - exists st. cbn [dot_count]. repeat split. intros H. inversion H.
  - cbn [no_marker forallb] in Hno. apply andb_prop in Hno as [Hline Hno].
    apply negb_true_iff in Hline.
    cbn [handleLines dot_count]. unfold mbind, M_bind.
    rewrite (handleLine_no_marker line dots st Hline).
    destruct (String.eqb line ".").
    + rewrite setUpdateStatus_run, spread_single. cbn [fst updateStatus systemStatus log emit].
      match goal with
      | |- context [handleLines JSON_parse lines ?d ?s] =>
          destruct (IH d s Hno) as (st' & Hrun & Hsys & Hzero & Hpos)
      end.
      exists st'. rewrite Hrun.
      assert (Hiter : Nat.iter (dot_count lines) count_dot (dots + 1)%float
                      = Nat.iter (1 + dot_count lines) count_dot dots).
      { exact (Nat.iter_swap (dot_count lines) float count_dot dots). }
      split; [rewrite Hiter; reflexivity|].
      split; [exact Hsys|].
      split; [intros H; discriminate H|].
      intros _. rewrite <- Hiter.
      destruct (dot_count lines) as [|m] eqn:Hm.
      * rewrite (Hzero eq_refl). reflexivity.
      * rewrite Hpos by lia. cbn [updateStatus]. apply insert_insert_eq.
    + destruct (IH dots st Hno) as (st' & Hrun & Hsys & Hzero & Hpos).
      exists st'. rewrite Hrun. repeat split; assumption.
Qed.

(** X3: output that holds no structured update and no dot line leaves no
    trace: the state, its event log included, and the counter are what they
    were.  This covers the empty chunk, blank lines, and the lines that
    merely contain dots or the marker somewhere after their start. *)
Theorem ordinary_output_ignored (chunks : list (Stream * string))
    (dots : float) (st : State) :
  no_marker (chunk_lines chunks) = true ->
  dot_count (chunk_lines chunks) = 0 ->
  deliver JSON_parse chunks dots st = (st, Returned dots).
Proof.
  intros Hno Hdots. rewrite deliver_chunk_lines.
  destruct (handleLines_no_marker (chunk_lines chunks) dots st Hno)
    as (st' & Hrun & _ & Hzero & _).
  rewrite Hrun, (Hzero Hdots), Hdots. reflexivity.
Qed.

End Lines.

Lemma handleLines_no_marker_parse (parse parse' : string -> option JS.Value)
    (lines : list string) (dots : float) (st : State) :
  no_marker lines = true ->
  handleLines parse lines dots st = handleLines parse' lines dots st.
Proof.
  revert dots st. induction lines as [|line lines IH]; intros dots st Hno; [reflexivity|].
  cbn [no_marker forallb] in Hno. apply andb_prop in Hno as [Hline Hno].
  apply negb_true_iff in Hline.
  cbn [handleLines]. unfold mbind, M_bind.
  rewrite !(handleLine_no_marker _ line dots st Hline).
  destruct (String.eqb line "."); apply IH; exact Hno.
Qed.

(** X4: output without structured updates never reaches [JSON.parse], and
    all it can change of UpdateStatus is the progress field: once a dot line
    came, UpdateStatus is what it was with progress set to the value of the
    final dot count; SystemState stays as it was. *)
Theorem dots_touch_only_progress (JSON_parse : string -> option JS.Value)
    (chunks : list (Stream * string)) (dots : float) (st : State) :
  no_marker (chunk_lines chunks) = true ->
  let n := dot_count (chunk_lines chunks) in
  let r := deliver JSON_parse chunks dots st in
  (forall parse, deliver parse chunks dots st = r)
  /\ (forall k, k <> "progress" -> updateStatus r.1 !! k = updateStatus st !! k)
  /\ systemStatus r.1 = systemStatus st
  /\ (0 < n ->
      updateStatus r.1
      = <["progress" := JS.Number (dot_progress (Nat.iter n count_dot dots))]>
          (updateStatus st)).
Proof.
  intros Hno n r. unfold r, n.
  destruct (handleLines_no_marker JSON_parse (chunk_lines chunks) dots st Hno)
    as (st' & Hrun & Hsys & Hzero & Hpos).
  rewrite deliver_chunk_lines, Hrun. cbn [fst].
  split.
  { intros parse. rewrite deliver_chunk_lines, <- Hrun.
    apply handleLines_no_marker_parse. exact Hno. }
  split; [|split; [exact Hsys|exact Hpos]].
  intros k Hk. destruct (dot_count (chunk_lines chunks)) as [|m] eqn:Hm.
  - rewrite (Hzero eq_refl). reflexivity.
  - rewrite Hpos by lia. apply lookup_insert_ne. congruence.
Qed.

(** *** The update flow as a whole *)

Lemma commands_app (es1 es2 : list Event) :
  commands (es1 ++ es2) = commands es1 ++ commands es2.
Proof.
  induction es1 as [|e es1 IH]; [reflexivity|].
  destruct e; cbn [app commands]; rewrite IH; reflexivity.
Qed.

Lemma system_written_app (es1 es2 : list Event) :
  system_written (es1 ++ es2) = system_written es1 ++ system_written es2.
Proof.
  induction es1 as [|e es1 IH]; [reflexivity|].
  destruct e; cbn [app system_written]; rewrite IH; reflexivity.
Qed.

Section UpdateOutcome.

Variable JSON_parse : string -> option JS.Value.

(** The handler hands over no command and leaves SystemState alone. *)
Lemma handleLine_quiet (line : string) (dots : float) (st : State) :
  exists new, events (handleLine JSON_parse line dots st).1 = events st ++ new
              /\ commands new = [] /\ system_written new = [].
Proof.
  unfold handleLine.
  destruct (JS.startsWith line marker); [destruct (JSON_parse _) as [status|]|];
    destruct (String.eqb line ".");
    cbv beta iota zeta delta
      [mbind M_bind mret M_ret setUpdateStatus gets write_updateStatus log emit
       fst events updateStatus systemStatus factoryResetDemoState];
    rewrite <- ?app_assoc;
    first [ exists []; rewrite app_nil_r; repeat split; fail
          | eexists; split; [reflexivity|split; reflexivity] ].
Qed.

Lemma handleLines_quiet (lines : list string) (dots : float) (st : State) :
  exists new, events (handleLines JSON_parse lines dots st).1 = events st ++ new
              /\ commands new = [] /\ system_written new = [].
Proof.
  revert dots st. induction lines as [|line lines IH]; intros dots st.
  - exists []. rewrite app_nil_r. repeat split.
  - cbn [handleLines]. unfold mbind, M_bind.
    destruct (handleLine_quiet line dots st) as (new1 & He1 & Hc1 & Hs1).
    destruct (handleLine JSON_parse line dots st) as [st' [d'|e]]; cbn [fst] in *.
    + destruct (IH d' st') as (new2 & He2 & Hc2 & Hs2).
      exists (new1 ++ new2). rewrite He2, He1, app_assoc, commands_app, system_written_app.
      rewrite Hc1, Hc2, Hs1, Hs2. repeat split.
    + exists new1. repeat split; assumption.
Qed.

(** The [try] block of [update], outcome by outcome of what it awaits. *)
Lemma update_try_run (ctx : Context) (s : State) :
  update_try JSON_parse ctx s =
  match latestRelease ctx with
  | Rejected message => (s, Thrown (JsError message))
  | Resolved release =>
      if script_missing (updateScript release)
      then ((setUpdateStatus (obj [("error", JS.Str "No update script found")]) s).1,
            Thrown (JsError "No update script found"))
      else match fetchText ctx (default "" (updateScript release)) with
           | Rejected message => (s, Thrown (JsError message))
           | Resolved script =>
               ((deliver JSON_parse (bash ctx script).1 0 s).1,
                match (bash ctx script).2 with
                | Resolved _ => Returned tt
                | Rejected message => Thrown (JsError message)
                end)
           end
  end.
Proof.
  unfold update_try, getLatestRelease.
  destruct (latestRelease ctx) as [release|message];
    cbv beta iota zeta delta [await mbind M_bind mret M_ret throw]; [|reflexivity].
  destruct (script_missing (updateScript release)).
  { rewrite setUpdateStatus_run. reflexivity. }
  destruct (fetchText ctx _) as [script|message]; [|reflexivity].
  destruct (deliver_returns JSON_parse (bash ctx script).1 0 s) as [d Hd].
  rewrite Hd. cbn [fst]. destruct (bash ctx script).2 as [[]|message]; reflexivity.
Qed.

Variable ctx : Context.

Lemma deliver_quiet (chunks : list (Stream * string)) (dots : float) (st : State) :
  exists new, events (deliver JSON_parse chunks dots st).1 = events st ++ new
              /\ commands new = [] /\ system_written new = [].
Proof. rewrite deliver_chunk_lines. apply handleLines_quiet. Qed.

Lemma update_try_quiet (s : State) :
  exists new, events (update_try JSON_parse ctx s).1 = events s ++ new
              /\ commands new = [] /\ system_written new = [].
Proof.
  rewrite update_try_run.
  assert (Hnone : exists new, events s = events s ++ new
                              /\ commands new = [] /\ system_written new = []).
  { exists []. rewrite app_nil_r. repeat split. }
  destruct (latestRelease ctx) as [release|message]; [|exact Hnone].
  destruct (script_missing (updateScript release)).
  { rewrite setUpdateStatus_run. eexists. cbn [fst events]. repeat split. }
  destruct (fetchText ctx _) as [script|message]; [|exact Hnone].
  apply deliver_quiet.
Qed.

Lemma update_try_systemStatus (s : State) :
  systemStatus (update_try JSON_parse ctx s).1 = systemStatus s.
Proof.
  rewrite update_try_run.
  destruct (latestRelease ctx) as [release|message]; [|reflexivity].
  destruct (script_missing (updateScript release)); [reflexivity|].
  destruct (fetchText ctx _) as [script|message]; [|reflexivity].
  destruct (deliver_handled JSON_parse (bash ctx script).1 0 s) as (n & _ & Hsys & _).
  exact Hsys.
Qed.




(** X6: a release whose updateScript is the empty string is treated as
    one without script.  Nothing is downloaded and nothing is run (the
    outcome is the same whatever a download or a subprocess would do),
    [update] returns false, SystemState is back to running, and UpdateStatus
    is the idle record with the error of the missing-script check. *)
Theorem empty_script_url_is_missing (release : ReleaseInfo) (st : State) :
  latestRelease ctx = Resolved release ->
  updateScript release = Some "" ->
  let after := (update JSON_parse ctx st).1 in
  let announced := updateStatus (started st) in
  let message := JS.Str "No update script found" in
  (update JSON_parse ctx st).2 = Returned false
  /\ systemStatus after = running
  /\ updateStatus after = failed_status message
  /\ events after
     = events st
       ++ [WriteSystemStatus updating;
           WriteUpdateStatus announced;
           WriteUpdateStatus (<["error" := message]> announced);
           WriteUpdateStatus idle_status;
           WriteUpdateStatus (failed_status message);
           WriteSystemStatus running;
           Log (UpdateScriptFailed "No update script found")]
  /\ (forall ctx', latestRelease ctx' = latestRelease ctx ->
                   update JSON_parse ctx' st = update JSON_parse ctx st).
Proof.
  intros Hrel Hurl after announced message.
  assert (Htry : forall c, latestRelease c = latestRelease ctx ->
            update_try JSON_parse c (started st)
            = ((setUpdateStatus (obj [("error", message)]) (started st)).1,
               Thrown (JsError "No update script found"))).
  { intros c Hc. rewrite update_try_run, Hc, Hrel, Hurl. reflexivity. }
  set (caught := (setUpdateStatus (obj [("error", message)]) (started st)).1) in *.
  assert (Hrun : forall c, latestRelease c = latestRelease ctx ->
            update JSON_parse c st
            = update_catch (JsError "No update script found") caught).
  { intros c Hc. rewrite update_run, attempt_run, (Htry c Hc). reflexivity. }
  assert (Hstanding : JS.get (updateStatus caught) "error" = message).
  { unfold caught. rewrite setUpdateStatus_run, spread_single. cbn [fst updateStatus].
    unfold JS.get. rewrite lookup_insert_eq. reflexivity. }
  destruct (update_catch_run (JsError "No update script found") caught)
    as (Hret & Hsys & Hstatus & _ & written & Hevents & Hwritten).
  unfold kept_error in Hstatus, Hevents. rewrite Hstanding in Hstatus, Hevents, Hwritten.
  cbn [JS.truthy String.eqb negb] in Hstatus, Hevents, Hwritten. subst written.
  unfold after. rewrite (Hrun ctx eq_refl).
  split; [exact Hret|]. split; [exact Hsys|]. split; [exact Hstatus|].
  split.
  - rewrite Hevents. cbn [error_message app].
    unfold caught. rewrite setUpdateStatus_run, spread_single. cbn [fst events updateStatus].
    destruct (started_status st) as (_ & _ & _ & Hev). rewrite Hev.
    rewrite <- !app_assoc. reflexivity.
  - intros ctx' Hsame. rewrite (Hrun ctx' Hsame). reflexivity.
Qed.

(** A write of the same properties keeps two states alike under a key. *)
Lemma setUpdateStatus_same_field (k : string) (properties : JS.Value) (s1 s2 : State) :
  same_field k s1 s2 ->
  same_field k (setUpdateStatus properties s1).1 (setUpdateStatus properties s2).1.
Proof.
  unfold same_field. intros H. rewrite !setUpdateStatus_run. cbn [fst updateStatus].
  unfold JS.spread. rewrite !lookup_union, H. reflexivity.
Qed.

Lemma handleLine_same_field (k line : string) (dots : float) (s1 s2 : State) :
  same_field k s1 s2 ->
  same_field k (handleLine JSON_parse line dots s1).1 (handleLine JSON_parse line dots s2).1
  /\ (handleLine JSON_parse line dots s1).2 = (handleLine JSON_parse line dots s2).2.
Proof.
  intros H. unfold handleLine.
  assert (Hdot : forall t1 t2, same_field k t1 t2 ->
            same_field k
              ((if String.eqb line "."
                then log (UpdateProgress (dot_progress (dots + 1)));;
                     setUpdateStatus (obj [("progress", JS.Number (dot_progress (dots + 1)))]);;
                     mret (dots + 1)%float
                else mret dots) t1).1
              ((if String.eqb line "."
                then log (UpdateProgress (dot_progress (dots + 1)));;
                     setUpdateStatus (obj [("progress", JS.Number (dot_progress (dots + 1)))]);;
                     mret (dots + 1)%float
                else mret dots) t2).1
            /\ ((if String.eqb line "."
                then log (UpdateProgress (dot_progress (dots + 1)));;
                     setUpdateStatus (obj [("progress", JS.Number (dot_progress (dots + 1)))]);;
                     mret (dots + 1)%float
                else mret dots) t1).2
               = ((if String.eqb line "."
                then log (UpdateProgress (dot_progress (dots + 1)));;
                     setUpdateStatus (obj [("progress", JS.Number (dot_progress (dots + 1)))]);;
                     mret (dots + 1)%float
                else mret dots) t2).2).
  { intros t1 t2 Ht. destruct (String.eqb line "."); [|split; [exact Ht|reflexivity]].
    split; [|reflexivity].
    exact (setUpdateStatus_same_field k _ (log (UpdateProgress (dot_progress (dots + 1))) t1).1
             (log (UpdateProgress (dot_progress (dots + 1))) t2).1 Ht). }
  destruct (JS.startsWith line marker); [destruct (JSON_parse _) as [status|]|].
  - apply (Hdot (setUpdateStatus status s1).1 (setUpdateStatus status s2).1).
    apply setUpdateStatus_same_field. exact H.
  - apply (Hdot s1 s2 H).
  - apply (Hdot s1 s2 H).
Qed.

Lemma handleLines_same_field (k : string) (lines : list string) (dots : float)
    (s1 s2 : State) :
  same_field k s1 s2 ->
  same_field k (handleLines JSON_parse lines dots s1).1 (handleLines JSON_parse lines dots s2).1.
Proof.
  revert dots s1 s2. induction lines as [|line lines IH]; intros dots s1 s2 H; [exact H|].
  cbn [handleLines]. unfold mbind, M_bind.
  destruct (handleLine_same_field k line dots s1 s2 H) as [Hs Hr].
  destruct (handleLine JSON_parse line dots s1) as [t1 r1].
  destruct (handleLine JSON_parse line dots s2) as [t2 r2].
  cbn [fst snd] in Hs, Hr. subst r2. destruct r1 as [d|e]; [apply IH|]; exact Hs.
Qed.

Lemma update_try_same_field (k : string) (s1 s2 : State) :
  same_field k s1 s2 ->
  same_field k (update_try JSON_parse ctx s1).1 (update_try JSON_parse ctx s2).1
  /\ (update_try JSON_parse ctx s1).2 = (update_try JSON_parse ctx s2).2.
Proof.
  intros H. rewrite !update_try_run.
  destruct (latestRelease ctx) as [release|message]; [|split; [exact H|reflexivity]].
  destruct (script_missing (updateScript release)).
  { split; [|reflexivity]. apply setUpdateStatus_same_field. exact H. }
  destruct (fetchText ctx _) as [script|message]; [|split; [exact H|reflexivity]].
  split; [|reflexivity]. cbn [fst]. rewrite !deliver_chunk_lines.
  apply handleLines_same_field. exact H.
Qed.

(** Once [update] has announced itself, the fields of UpdateStatus hold the
    same in every state. *)
Lemma started_same_field (k : string) (s1 s2 : State) :
  In k fields \/ same_field k s1 s2 -> same_field k (started s1) (started s2).
Proof.
  intros H. unfold started, same_field. rewrite !setUpdateStatus_run.
  cbn [fst updateStatus setSystemStatus].
  unfold JS.spread, starting_status, obj. cbn [JS.own_properties].
  destruct H as [Hk|Hk];
    [|rewrite !lookup_union; unfold same_field in Hk; rewrite Hk; reflexivity].
  cbn [fields In] in Hk.
  destruct Hk as [<-|[<-|[<-|[<-|[]]]]];
    (erewrite lookup_union_Some_l by reflexivity);
    (erewrite lookup_union_Some_l by reflexivity); reflexivity.
Qed.

(** X7: what [update] does and leaves behind does not depend on the state it
    starts in.  Its result, SystemState and the four fields of UpdateStatus
    come out the same from any two states, and so does every other key the
    two states agree on; when it fails, the whole of UpdateStatus comes out
    the same.  In particular the error a failed attempt left behind has no
    influence on the next attempt. *)
Theorem update_forgets_prior_state (st1 st2 : State) :
  let r1 := update JSON_parse ctx st1 in
  let r2 := update JSON_parse ctx st2 in
  r1.2 = r2.2
  /\ systemStatus r1.1 = systemStatus r2.1
  /\ (forall k, In k fields \/ updateStatus st1 !! k = updateStatus st2 !! k ->
                updateStatus r1.1 !! k = updateStatus r2.1 !! k)
  /\ (r1.2 = Returned false -> updateStatus r1.1 = updateStatus r2.1).
Proof.
  intros r1 r2. unfold r1, r2. rewrite !update_run, !attempt_run.
  assert (Hfield : forall k, In k fields \/ updateStatus st1 !! k = updateStatus st2 !! k ->
            same_field k (update_try JSON_parse ctx (started st1)).1
                         (update_try JSON_parse ctx (started st2)).1).
  { intros k Hk. apply update_try_same_field, started_same_field. exact Hk. }
  assert (Hres : (update_try JSON_parse ctx (started st1)).2
                 = (update_try JSON_parse ctx (started st2)).2).
  { apply (update_try_same_field "error"), started_same_field. left. cbn. tauto. }
  pose proof (update_try_systemStatus (started st1)) as Hsys1.
  pose proof (update_try_systemStatus (started st2)) as Hsys2.
  destruct (update_try JSON_parse ctx (started st1)) as [t1 res1].
  destruct (update_try JSON_parse ctx (started st2)) as [t2 res2].
  cbn [fst snd] in *. subst res2. destruct res1 as [[]|error].
  - rewrite !update_complete_run. cbn [fst snd systemStatus updateStatus].
    split; [reflexivity|].
    split; [rewrite Hsys1, Hsys2; destruct (started_status st1) as (_ & _ & -> & _);
            destruct (started_status st2) as (_ & _ & -> & _); reflexivity|].
    split.
    + intros k Hk. destruct (decide (k = "progress")) as [->|Hne].
      * rewrite !lookup_insert_eq. reflexivity.
      * rewrite !lookup_insert_ne by congruence. exact (Hfield k Hk).
    + unfold completion_result.
      destruct (settles ctx Stop); [destruct (settles ctx Reboot)|]; discriminate.
  - destruct (update_catch_run error t1) as (Hret1 & Hrun1 & Hstat1 & _).
    destruct (update_catch_run error t2) as (Hret2 & Hrun2 & Hstat2 & _).
    assert (Hsame : updateStatus (update_catch error t1).1
                    = updateStatus (update_catch error t2).1).
    { rewrite Hstat1, Hstat2. unfold kept_error, JS.get.
      rewrite (Hfield "error") by (left; cbn; tauto). reflexivity. }
    rewrite Hret1, Hret2, Hrun1, Hrun2, Hsame. repeat split.
Qed.

End UpdateOutcome.

(** *** Writes to UpdateStatus *)

(** X8: successive writes compose.  Writing [p] and then [q] leaves the
    UpdateStatus that the single write of [{...p, ...q}] leaves; writing the
    same properties twice is writing them once; writing no property changes
    nothing; and a write never removes a key, whatever is written. *)
Theorem setUpdateStatus_composes (p q : gmap string JS.Value) (st : State) :
  let write properties s := (setUpdateStatus properties s).1 in
  updateStatus (write (JS.Object q) (write (JS.Object p) st))
  = updateStatus (write (JS.Object (JS.spread p (JS.Object q))) st)
  /\ updateStatus (write (JS.Object p) (write (JS.Object p) st))
     = updateStatus (write (JS.Object p) st)
  /\ updateStatus (write (JS.Object ∅) st) = updateStatus st
  /\ (forall properties k,
        is_Some (updateStatus st !! k) ->
        is_Some (updateStatus (write properties st) !! k)).
Proof.
  intros write. unfold write. rewrite !setUpdateStatus_run.
  cbn [fst updateStatus]. unfold JS.spread. cbn [JS.own_properties].
  split; [apply (assoc_L (∪))|].
  split; [rewrite (assoc_L (∪)), (idemp_L (∪) p); reflexivity|].
  split; [apply (left_id_L ∅ (∪))|].
  intros properties k [v Hv]. rewrite setUpdateStatus_run. cbn [fst updateStatus].
  unfold JS.spread. rewrite lookup_union, Hv.
  destruct (JS.own_properties properties !! k); eexists; reflexivity.
Qed.

(** *** Structured updates that are not objects *)

(** The decimal numeral of a number starts with a digit. *)
Lemma pretty_N_go_head (x : N) (s : string) :
  (0 < x)%N ->
  exists d rest, (d < 10)%N /\ pretty_N_go x s = String (pretty_N_char d) rest.
Proof.
  revert s. induction (N.lt_wf_0 x) as [x _ IH]; intros s Hx.
  rewrite pretty_N_go_step by exact Hx.
  destruct (N.eq_dec (x `div` 10)%N 0%N) as [E|E].
  - rewrite E, pretty_N_go_0. exists (x `mod` 10)%N, s.
    split; [apply N.mod_lt; lia|reflexivity].
  - apply IH; [apply N.div_lt; lia|apply N.neq_0_lt_0; exact E].
Qed.

Lemma pretty_nat_head (i : nat) :
  exists d rest, (d < 10)%N /\ pretty i = String (pretty_N_char d) rest.
Proof.
  unfold pretty, pretty_nat, pretty, pretty_N.
  destruct (decide (N.of_nat i = 0%N)) as [E|E].
  - exists 0%N, "". split; [lia|reflexivity].
  - apply pretty_N_go_head. lia.
Qed.

(** No field of UpdateStatus is named by a numeral. *)
Lemma pretty_nat_not_field (i : nat) (k : string) : In k fields -> k <> pretty i.
Proof.
  intros Hk Heq. destruct (pretty_nat_head i) as (d & rest & Hd & Hp).
  rewrite Hp in Heq.
  assert (Hdigit : (d = 0 \/ d = 1 \/ d = 2 \/ d = 3 \/ d = 4 \/ d = 5 \/ d = 6
                    \/ d = 7 \/ d = 8 \/ d = 9)%N) by lia.
  cbn [fields In] in Hk.
  destruct Hk as [<-|[<-|[<-|[<-|[]]]]];
    destruct Hdigit as [->|[->|[->|[->|[->|[->|[->|[->|[->| ->]]]]]]]]];
    discriminate Heq.
Qed.

(** The properties an object spread copies from a value that is not an
    object are named by numerals. *)
Lemma own_properties_indexed (v : JS.Value) (k : string) :
  (forall props, v <> JS.Object props) ->
  is_Some (JS.own_properties v !! k) -> exists i : nat, k = pretty i.
Proof.
  intros Hv [x Hx].
  assert (Hindexed : forall l : list JS.Value,
            (list_to_map (JS.indexed l) : gmap string JS.Value) !! k = Some x ->
            exists i : nat, k = pretty i).
  { intros l Hl. apply elem_of_list_to_map_2 in Hl.
    unfold JS.indexed in Hl. apply elem_of_lookup_imap in Hl as (i & y & Heq & _).
    exists i. congruence. }
  destruct v as [| | | |s|items|props]; cbn [JS.own_properties] in Hx;
    try (rewrite lookup_empty in Hx; discriminate Hx).
  - exact (Hindexed _ Hx).
  - exact (Hindexed _ Hx).
  - destruct (Hv props eq_refl).
Qed.

Section NonObject.

Variable JSON_parse : string -> option JS.Value.

(** X9: a structured update whose payload parses to something that is not
    an object cannot change a field of UpdateStatus.  A number, a boolean or
    null changes nothing at all; a string or an array adds its characters or
    elements under the keys 0, 1, 2, ... and leaves every other key, the four
    fields included, as it was.  The record is written all the same. *)
Theorem non_object_update_keeps_fields (payload : string) (status : JS.Value)
    (dots : float) (st : State) :
  JSON_parse payload = Some status ->
  (forall props, status <> JS.Object props) ->
  let after := (handleLine JSON_parse (marker ^^ payload) dots st).1 in
  (forall k, In k fields -> updateStatus after !! k = updateStatus st !! k)
  /\ (forall k, (forall i : nat, k <> pretty i) ->
                updateStatus after !! k = updateStatus st !! k)
  /\ match status with
     | JS.Str _ | JS.Array _ => True
     | _ => updateStatus after = updateStatus st
     end
  /\ events after = events st ++ [WriteUpdateStatus (updateStatus after)].
Proof.
  intros Hparse Hnot after. unfold after.
  rewrite handleLine_marker, Hparse, setUpdateStatus_run. cbn [fst updateStatus events].
  assert (Hkeep : forall k, (forall i : nat, k <> pretty i) ->
            JS.spread (updateStatus st) status !! k = updateStatus st !! k).
  { intros k Hk. unfold JS.spread. apply lookup_union_r.
    destruct (JS.own_properties status !! k) as [x|] eqn:E; [|reflexivity].
    destruct (own_properties_indexed status k Hnot) as [i Hi]; [eexists; exact E|].
    destruct (Hk i Hi). }
  split; [intros k Hk; apply Hkeep; intros i; apply pretty_nat_not_field, Hk|].
  split; [exact Hkeep|]. split; [|reflexivity].
  destruct status as [| | | |s|items|props]; try exact I;
    try (unfold JS.spread; cbn [JS.own_properties]; apply (left_id_L ∅ (∪))).
  destruct (Hnot props eq_refl).
Qed.

End NonObject.

(** *** The progress of the first seventy dots *)

Lemma progress_after_rising_table :
  forallb (fun n => PrimFloat.ltb (progress_after n) (progress_after (S n))
                    && PrimFloat.ltb (progress_after n) 95)
          (seq 0 70) = true.
Proof. vm_compute. reflexivity. Qed.

(** X10: each of the first seventy dot lines of an attempt raises the
    progress: the first writes 6, the values rise strictly with every dot
    up to the seventieth, which is the first to write 95, and every further
    dot writes 95 again. *)
Theorem progress_rises_to_95_at_70_dots (n : nat) :
  progress_after 1 = 6%float
  /\ (n < 70 -> PrimFloat.ltb (progress_after n) (progress_after (S n)) = true
                /\ PrimFloat.ltb (progress_after n) 95 = true)
  /\ (70 <= n -> progress_after n = 95%float).
Proof.
  split; [vm_compute; reflexivity|]. split; [|apply progress_after_capped].
  intros Hn. pose proof progress_after_rising_table as T.
  rewrite forallb_forall in T. specialize (T n ltac:(apply in_seq; lia)).
  apply andb_prop in T. exact T.
Qed.

(** *** Lines of a chunk *)

Lemma split_lines_no_lf (text : string) :
  Forall (fun line => has_lf line = false) (JS.split_lines text).
Proof.
  induction text as [|c rest IH]; [repeat constructor|].
  cbn [JS.split_lines]. destruct (Ascii.eqb c "010") eqn:Hc.
  - constructor; [reflexivity|exact IH].
  - destruct (JS.split_lines rest) as [|l ls].
    + repeat constructor. cbn [has_lf]. rewrite Hc. reflexivity.
    + inversion IH as [|? ? Hl Hls]; subst. constructor; [|exact Hls].
      cbn [has_lf]. rewrite Hc, Hl. reflexivity.
Qed.

Lemma join_split_lines (text : string) : join_lines (JS.split_lines text) = text.
Proof.
  induction text as [|c rest IH]; [reflexivity|].
  cbn [JS.split_lines]. destruct (Ascii.eqb c "010") eqn:Hc.
  - apply Ascii.eqb_eq in Hc. subst c.
    pose proof (split_lines_nonempty rest) as Hne.
    destruct (JS.split_lines rest) as [|l ls] eqn:E; [contradiction|].
    change (join_lines ("" :: l :: ls)) with ("" ^^ lf ^^ join_lines (l :: ls)).
    rewrite IH. reflexivity.
  - pose proof (split_lines_nonempty rest) as Hne.
    destruct (JS.split_lines rest) as [|l ls] eqn:E; [contradiction|].
    rewrite <- IH. destruct ls as [|l' ls']; reflexivity.
Qed.

Lemma length_split_lines (text : string) :
  length (JS.split_lines text) = S (count_lf text).
Proof.
  induction text as [|c rest IH]; [reflexivity|].
  cbn [JS.split_lines count_lf].
  destruct (Ascii.eqb c "010").
  - cbn [length]. rewrite IH. reflexivity.
  - cbn [Nat.add]. rewrite <- IH. pose proof (split_lines_nonempty rest) as Hne.
    destruct (JS.split_lines rest) as [|l ls]; [contradiction|reflexivity].
Qed.

Lemma split_lines_one (line : string) :
  has_lf line = false -> JS.split_lines line = [line].
Proof.
  induction line as [|c rest IH]; [reflexivity|].
  cbn [has_lf JS.split_lines]. intros H. apply orb_false_elim in H as [Hc Hrest].
  rewrite Hc, (IH Hrest). reflexivity.
Qed.

Lemma split_join_lines (lines : list string) :
  lines <> [] -> Forall (fun line => has_lf line = false) lines ->
  JS.split_lines (join_lines lines) = lines.
Proof.
  induction lines as [|l ls IH]; [contradiction|]. intros _ Hall.
  inversion Hall as [|? ? Hl Hls]; subst.
  destruct ls as [|l' ls'].
  - apply split_lines_one. exact Hl.
  - change (join_lines (l :: l' :: ls')) with (l ^^ lf ^^ join_lines (l' :: ls')).
    rewrite split_lines_lf, (split_lines_one l Hl), IH; [reflexivity|discriminate|exact Hls].
Qed.

(** X11: splitting a chunk loses nothing and invents nothing.  The lines
    the handler goes through hold no line feed, there is one more of them
    than there are line feeds in the chunk, and joined by line feeds they are
    the chunk again. *)
Theorem chunk_is_its_lines (JSON_parse : string -> option JS.Value)
    (chunk : string) (dots : float) (st : State) :
  handleUpdateScriptOutput JSON_parse chunk dots st
  = handleLines JSON_parse (JS.split_lines chunk) dots st
  /\ join_lines (JS.split_lines chunk) = chunk
  /\ Forall (fun line => has_lf line = false) (JS.split_lines chunk)
  /\ length (JS.split_lines chunk) = S (count_lf chunk)
  /\ (forall lines,
        lines <> [] -> Forall (fun line => has_lf line = false) lines ->
        JS.split_lines (join_lines lines) = lines).
Proof.
  split; [reflexivity|]. split; [apply join_split_lines|].
  split; [apply split_lines_no_lf|]. split; [apply length_split_lines|].
  exact split_join_lines.
Qed.

(** *** The queries *)

(** X12: for both log types one journalctl command is awaited, so
    [process] is defined where its stdout is read.  [logs] returns that
    stdout with the escape sequences stripped, or fails with the rejection of
    journalctl itself; it never fails for want of a process, and it leaves
    the state alone.  Both commands ask for the last 1500 lines; the umbrel
    one restricts them to four units. *)
Theorem logs_process_is_defined (host : Host) (type : LogType) (st : State) :
  let units := ["--unit"; "umbrel"; "--unit"; "umbreld-production";
                "--unit"; "umbreld"; "--unit"; "ui"] in
  let arguments := match type with
                   | umbrel => units ++ ["--lines"; "1500"]
                   | system => ["--lines"; "1500"]
                   end in
  logs host type st
  = (st, match journalctl host arguments with
         | Resolved output => Returned (stripAnsi host output)
         | Rejected message => Thrown (JsError message)
         end).
Proof.
  intros units arguments. unfold logs, arguments, units.
  destruct type; cbn [LogType_eqb app];
    cbv beta iota zeta delta [mbind M_bind mret M_ret await throw];
    destruct (journalctl host _); reflexivity.
Qed.

(** X13: [latestAvailableVersion] gives out the version and the release
    notes and nothing else: its result has these two keys only, and two
    releases that differ in their update script alone give the same result.
    When the release cannot be fetched it fails with that rejection; the
    state is left alone in every case. *)
Theorem latestAvailableVersion_hides_script (ctx : Context) (st : State) :
  latestAvailableVersion ctx st
  = (st, match latestRelease ctx with
         | Resolved release =>
             Returned (JS.Object {[ "version" := JS.Str (version release);
                                    "releaseNotes" := JS.Str (releaseNotes release) ]})
         | Rejected message => Thrown (JsError message)
         end)
  /\ (forall ctx' release script,
        latestRelease ctx = Resolved release ->
        latestRelease ctx'
        = Resolved {| version := version release;
                      releaseNotes := releaseNotes release;
                      updateScript := script |} ->
        latestAvailableVersion ctx' st = latestAvailableVersion ctx st).
Proof.
  assert (Hrun : forall c,
            latestAvailableVersion c st
            = (st, match latestRelease c with
                   | Resolved release =>
                       Returned (JS.Object {[ "version" := JS.Str (version release);
                                              "releaseNotes" := JS.Str (releaseNotes release) ]})
                   | Rejected message => Thrown (JsError message)
                   end)).
  { intros c. unfold latestAvailableVersion, getLatestRelease.
    destruct (latestRelease c) as [release|message]; [|reflexivity].
    cbv beta iota zeta delta [mbind M_bind mret M_ret await obj].
    cbn [list_to_map foldr]. rewrite insert_empty. reflexivity. }
  split; [apply Hrun|].
  intros ctx' release script Hrel Hrel'. rewrite !Hrun, Hrel, Hrel'. reflexivity.
Qed.

(** *** The router as a whole *)

Section Serving.

Variable JSON_parse : string -> option JS.Value.

Lemma spread_has_fields (status : gmap string JS.Value) (properties : JS.Value) :
  has_fields status -> has_fields (JS.spread status properties).
Proof.
  intros H k Hk. destruct (H k Hk) as [v Hv]. unfold JS.spread.
  rewrite lookup_union, Hv. destruct (JS.own_properties properties !! k); eexists; reflexivity.
Qed.

Lemma failed_status_has_fields (error : JS.Value) : has_fields (failed_status error).
Proof.
  intros k Hk. cbn [fields In] in Hk.
  destruct Hk as [<-|[<-|[<-|[<-|[]]]]]; eexists; reflexivity.
Qed.

Lemma handleLine_has_fields (line : string) (dots : float) (st : State) :
  has_fields (updateStatus st) ->
  has_fields (updateStatus (handleLine JSON_parse line dots st).1).
Proof.
  intros H. unfold handleLine.
  destruct (JS.startsWith line marker); [destruct (JSON_parse _) as [status|]|];
    destruct (String.eqb line ".");
    cbv beta iota zeta delta
      [mbind M_bind mret M_ret setUpdateStatus gets write_updateStatus log emit
       fst events updateStatus systemStatus factoryResetDemoState];
    repeat apply spread_has_fields; exact H.
Qed.

Lemma handleLines_has_fields (lines : list string) (dots : float) (st : State) :
  has_fields (updateStatus st) ->
  has_fields (updateStatus (handleLines JSON_parse lines dots st).1).
Proof.
  revert dots st. induction lines as [|line lines IH]; intros dots st H; [exact H|].
  cbn [handleLines]. unfold mbind, M_bind.
  pose proof (handleLine_has_fields line dots st H) as H1.
  destruct (handleLine JSON_parse line dots st) as [st' [d|e]]; [apply IH|]; exact H1.
Qed.

Lemma started_has_fields (st : State) : has_fields (updateStatus (started st)).
Proof.
  intros k Hk. pose proof (started_same_field k st initial_state (or_introl Hk)) as Hsame.
  unfold same_field in Hsame. rewrite Hsame. clear Hsame.
  cbn [fields In] in Hk.
  destruct Hk as [<-|[<-|[<-|[<-|[]]]]]; eexists; vm_compute; reflexivity.
Qed.

Lemma update_try_has_fields (ctx : Context) (s : State) :
  has_fields (updateStatus s) ->
  has_fields (updateStatus (update_try JSON_parse ctx s).1).
Proof.
  intros H. rewrite update_try_run.
  destruct (latestRelease ctx) as [release|message]; [|exact H].
  destruct (script_missing (updateScript release)).
  { rewrite setUpdateStatus_run. apply spread_has_fields, H. }
  destruct (fetchText ctx _) as [script|message]; [|exact H].
  cbn [fst]. rewrite deliver_chunk_lines. apply handleLines_has_fields, H.
Qed.

(** After [update] the four fields are defined, whatever was there before. *)
Lemma update_has_fields (ctx : Context) (st : State) :
  has_fields (updateStatus (update JSON_parse ctx st).1).
Proof.
  rewrite update_run, attempt_run.
  pose proof (update_try_has_fields ctx (started st) (started_has_fields st)) as H.
  destruct (update_try JSON_parse ctx (started st)) as [st1 [[]|error]].
  - rewrite update_complete_run. cbn [fst updateStatus].
    rewrite <- spread_single. apply spread_has_fields, H.
  - destruct (update_catch_run error st1) as (_ & _ & -> & _).
    apply failed_status_has_fields.
Qed.

Lemma update_try_factoryResetDemoState (ctx : Context) (s : State) :
  factoryResetDemoState (update_try JSON_parse ctx s).1 = factoryResetDemoState s.
Proof.
  rewrite update_try_run.
  destruct (latestRelease ctx) as [release|message]; [|reflexivity].
  destruct (script_missing (updateScript release)); [reflexivity|].
  destruct (fetchText ctx _) as [script|message]; [|reflexivity].
  destruct (deliver_handled JSON_parse (bash ctx script).1 0 s) as (n & _ & _ & Hf & _).
  exact Hf.
Qed.

Lemma update_factoryResetDemoState (ctx : Context) (st : State) :
  factoryResetDemoState (update JSON_parse ctx st).1 = factoryResetDemoState st.
Proof.
  rewrite update_run, attempt_run.
  pose proof (update_try_factoryResetDemoState ctx (started st)) as H.
  destruct (update_try JSON_parse ctx (started st)) as [st1 [[]|error]]; cbn [fst] in H.
  - rewrite update_complete_run. exact H.
  - destruct (update_catch_run error st1) as (_ & _ & _ & -> & _). exact H.
Qed.

Lemma update_events (ctx : Context) (st : State) :
  exists new, events (update JSON_parse ctx st).1 = events st ++ new.
Proof.
  rewrite update_run, attempt_run.
  destruct (update_try_quiet JSON_parse ctx (started st)) as (new & Hev & _).
  destruct (started_status st) as (_ & _ & _ & Hstart).
  destruct (update_try JSON_parse ctx (started st)) as [st1 [[]|error]]; cbn [fst] in Hev.
  - rewrite update_complete_run. cbn [fst events].
    rewrite Hev, Hstart, <- !app_assoc. eexists. reflexivity.
  - destruct (update_catch_run error st1) as (_ & _ & _ & _ & written & -> & _).
    rewrite Hev, Hstart, <- !app_assoc. eexists. reflexivity.
Qed.

(** [shutdown] and [restart]: SystemState is written, stop() is called, the
    power command is called once stop() has resolved, and the result is true
    once both have. *)
Lemma power_run (status : SystemStatus) (power : Command) (ctx : Context) (st : State) :
  (setSystemStatus status;; run ctx Stop;; run ctx power;; mret true) st
  = ({| systemStatus := status;
        updateStatus := updateStatus st;
        factoryResetDemoState := factoryResetDemoState st;
        events := events st
                  ++ WriteSystemStatus status
                     :: Call Stop true
                     :: match settles ctx Stop with
                        | Resolved _ => [Call power true]
                        | Rejected _ => []
                        end |},
     match settles ctx Stop with
     | Rejected message => Thrown (JsError message)
     | Resolved _ =>
         match settles ctx power with
         | Rejected message => Thrown (JsError message)
         | Resolved _ => Returned true
         end
     end).
Proof.
  unfold run. cbv beta iota zeta delta [mbind M_bind setSystemStatus].
  destruct (settles ctx Stop) as [[]|message];
    [destruct (settles ctx power) as [[]|message]|];
    cbv beta iota zeta delta
      [call emit await mret M_ret throw fst snd events updateStatus systemStatus
       factoryResetDemoState];
    rewrite <- !app_assoc; reflexivity.
Qed.

(** The state a power procedure leaves, served or called. *)
Lemma power_state (status : SystemStatus) (power : Command) (ctx : Context) (st : State) :
  ((done ← (setSystemStatus status;; run ctx Stop;; run ctx power;; mret true);
    mret (JS.Bool done)) st).1
  = {| systemStatus := status;
       updateStatus := updateStatus st;
       factoryResetDemoState := factoryResetDemoState st;
       events := events st
                 ++ WriteSystemStatus status
                    :: Call Stop true
                    :: match settles ctx Stop with
                       | Resolved _ => [Call power true]
                       | Rejected _ => []
                       end |}.
Proof.
  unfold mbind at 1, M_bind at 1. rewrite power_run.
  destruct (settles ctx Stop) as [[]|?]; [destruct (settles ctx power) as [[]|?]|];
    reflexivity.
Qed.

(** Only [update] writes UpdateStatus. *)
Lemma serve_keeps_updateStatus (ctx : Context) (host : Host) (p : Procedure.name)
    (st : State) :
  p <> Procedure.update ->
  updateStatus (serve JSON_parse ctx host p st).1 = updateStatus st.
Proof.
  intros Hp. destruct p; cbn [serve]; try reflexivity.
  - unfold latestAvailableVersion, getLatestRelease. destruct (latestRelease ctx); reflexivity.
  - contradiction.
  - unfold mbind, M_bind, hiddenService, try_catch. destruct (readFile ctx _); reflexivity.
  - unfold shutdown. rewrite power_state. reflexivity.
  - unfold restart. rewrite power_state. reflexivity.
  - unfold logs. destruct type; cbn [LogType_eqb];
      cbv beta iota zeta delta [mbind M_bind mret M_ret await throw];
      destruct (journalctl host _); reflexivity.
  - unfold factoryReset. destruct (validatePassword ctx password); reflexivity.
Qed.

Lemma serve_has_fields (ctx : Context) (host : Host) (p : Procedure.name) (st : State) :
  has_fields (updateStatus st) ->
  has_fields (updateStatus (serve JSON_parse ctx host p st).1).
Proof.
  intros H.
  destruct p; try (rewrite serve_keeps_updateStatus by discriminate; exact H).
  cbn [serve]. unfold mbind, M_bind. pose proof (update_has_fields ctx st) as Hu.
  destruct (update JSON_parse ctx st) as [st' [b|e]]; exact Hu.
Qed.

(** X14: UpdateStatus always defines its four fields.  It does when the
    module is loaded, and no sequence of requests, served in whatever world
    and whatever the update scripts print, leaves it without one of them; after
    an update they are defined even if they were not before. *)
Theorem updateStatus_keeps_its_fields (requests : list Request) :
  has_fields (updateStatus initial_state)
  /\ (forall st, has_fields (updateStatus st) ->
                 has_fields (updateStatus (serve_all JSON_parse requests st)))
  /\ (forall ctx st, has_fields (updateStatus (update JSON_parse ctx st).1)).
Proof.
  split; [|split; [|intros ctx st; apply update_has_fields]].
  - intros k Hk. cbn [fields In] in Hk.
    destruct Hk as [<-|[<-|[<-|[<-|[]]]]]; eexists; reflexivity.
  - induction requests as [|r requests IH]; intros st H; [exact H|].
    cbn [serve_all]. apply IH, serve_has_fields, H.
Qed.

(** X15: which procedure writes what.  Only [update] writes UpdateStatus;
    only [update], [shutdown] and [restart] write SystemState; only
    [factoryReset] can change the reset progress; the queries online,
    version, status, updateStatus, uptime, latestAvailableVersion, logs and
    getFactoryResetStatus leave the whole state as it was; and no procedure
    takes anything back from the record of what happened. *)
Theorem serve_frame (ctx : Context) (host : Host) (p : Procedure.name) (st : State) :
  let after := (serve JSON_parse ctx host p st).1 in
  (p <> Procedure.update -> updateStatus after = updateStatus st)
  /\ (p <> Procedure.update -> p <> Procedure.shutdown -> p <> Procedure.restart ->
      systemStatus after = systemStatus st)
  /\ ((forall password, p <> Procedure.factoryReset password) ->
      factoryResetDemoState after = factoryResetDemoState st)
  /\ (read_only p = true -> after = st)
  /\ exists new, events after = events st ++ new.
Proof.
  assert (Hnone : exists new, events st = events st ++ new)
    by (exists []; rewrite app_nil_r; reflexivity).
  destruct p; cbn [serve read_only]; cbv zeta.
  1-5, 13: repeat split; exact Hnone.
  - unfold latestAvailableVersion, getLatestRelease.
    destruct (latestRelease ctx); repeat split; exact Hnone.
  - unfold mbind, M_bind.
    pose proof (update_factoryResetDemoState ctx st) as Hf.
    pose proof (update_events ctx st) as He.
    destruct (update JSON_parse ctx st) as [st' [b|e]]; cbn [fst] in *.
    all: split; [intros H; congruence|];
         split; [intros H; congruence|];
         split; [intros _; exact Hf|];
         split; [discriminate|exact He].
  - unfold mbind, M_bind, hiddenService, try_catch.
    destruct (readFile ctx _); repeat split; try discriminate; try exact Hnone.
    eexists. reflexivity.
  - unfold shutdown. rewrite !power_state.
    split; [reflexivity|]. split; [intros _ H; congruence|]. split; [reflexivity|].
    split; [discriminate|]. eexists. reflexivity.
  - unfold restart. rewrite !power_state.
    split; [reflexivity|]. split; [intros _ _ H; congruence|]. split; [reflexivity|].
    split; [discriminate|]. eexists. reflexivity.
  - unfold logs. destruct type; cbn [LogType_eqb];
      cbv beta iota zeta delta [mbind M_bind mret M_ret await throw];
      destruct (journalctl host _); repeat split; exact Hnone.
  - unfold factoryReset. destruct (validatePassword ctx password); cbn [negb].
    + repeat split; try discriminate.
      * intros H. destruct (H password eq_refl).
      * eexists. reflexivity.
    + repeat split; try discriminate; exact Hnone.
Qed.


Lemma update_systemStatus (ctx : Context) (st : State) :
  systemStatus (update JSON_parse ctx st).1
  = match (update JSON_parse ctx st).2 with
    | Returned false => running
    | _ => updating
    end.
Proof.
  rewrite update_run, attempt_run.
  pose proof (update_try_systemStatus JSON_parse ctx (started st)) as Hkeep.
  destruct (started_status st) as (_ & _ & Hsys & _).
  destruct (update_try JSON_parse ctx (started st)) as [st1 [[]|error]]; cbn [fst] in Hkeep.
  - rewrite update_complete_run. cbn [fst snd systemStatus]. rewrite Hkeep, Hsys.
    unfold completion_result.
    destruct (settles ctx Stop); [destruct (settles ctx Reboot)|]; reflexivity.
  - destruct (update_catch_run error st1) as (Hret & Hrun & _).
    rewrite Hret. exact Hrun.
Qed.

Lemma update_returns_when_settled (ctx : Context) (st : State) :
  settles ctx Stop = Resolved tt -> settles ctx Reboot = Resolved tt ->
  exists b, (update JSON_parse ctx st).2 = Returned b.
Proof.
  intros Hstop Hreboot. rewrite update_run, attempt_run.
  destruct (update_try JSON_parse ctx (started st)) as [st1 [[]|error]].
  - rewrite update_complete_run. unfold completion_result. rewrite Hstop, Hreboot.
    exists true. reflexivity.
  - destruct (update_catch_run error st1) as (Hret & _). exists false. exact Hret.
Qed.

(** X16: [shutdown] and [restart] write their SystemState first, then have
    the services stopped, then, once stop() has resolved, have the machine
    powered off or rebooted, and return true once that has resolved; they
    touch nothing else.  When stop() rejects they throw its error, the power
    command is not handed over, and SystemState stays as they wrote it.  What
    the status query reports afterwards is shutting-down after [shutdown],
    restarting after [restart], and after [update] running if it returned
    false and updating otherwise. *)
Theorem status_reports_the_mutation (ctx : Context) (host : Host) (st : State) :
  let status_after p :=
    (serve JSON_parse ctx host Procedure.status (serve JSON_parse ctx host p st).1).2 in
  let called status commands :=
    {| systemStatus := status;
       updateStatus := updateStatus st;
       factoryResetDemoState := factoryResetDemoState st;
       events := events st ++ WriteSystemStatus status :: commands |} in
  (settles ctx Stop = Resolved tt -> settles ctx Shutdown = Resolved tt ->
   shutdown ctx st
   = (called shutting_down [Call Stop true; Call Shutdown true], Returned true))
  /\ (settles ctx Stop = Resolved tt -> settles ctx Reboot = Resolved tt ->
      restart ctx st
      = (called restarting [Call Stop true; Call Reboot true], Returned true))
  /\ (forall message, settles ctx Stop = Rejected message ->
        shutdown ctx st
        = (called shutting_down [Call Stop true], Thrown (JsError message))
        /\ restart ctx st
           = (called restarting [Call Stop true], Thrown (JsError message)))
  /\ status_after Procedure.shutdown = Returned (JS.Str "shutting-down")
  /\ status_after Procedure.restart = Returned (JS.Str "restarting")
  /\ status_after Procedure.update
     = Returned (JS.Str (match (update JSON_parse ctx st).2 with
                         | Returned false => "running"
                         | _ => "updating"
                         end))
  /\ (settles ctx Stop = Resolved tt -> settles ctx Reboot = Resolved tt ->
      exists b, (update JSON_parse ctx st).2 = Returned b
                /\ status_after Procedure.update
                   = Returned (JS.Str (if b then "updating" else "running"))).
Proof.
  intros status_after called.
  assert (Hupdate : status_after Procedure.update
                    = Returned (JS.Str (match (update JSON_parse ctx st).2 with
                                        | Returned false => "running"
                                        | _ => "updating"
                                        end))).
  { pose proof (update_systemStatus ctx st) as Hsys.
    unfold status_after. cbn [serve]. unfold mbind at 2, M_bind at 2.
    destruct (update JSON_parse ctx st) as [st' [b|e]]; cbn [fst snd] in *.
    - unfold mbind, M_bind, gets. cbn [mret M_ret fst snd]. rewrite Hsys.
      destruct b; reflexivity.
    - unfold mbind, M_bind, gets. cbn [snd mret M_ret fst]. rewrite Hsys. reflexivity. }
  split.
  { intros Hstop Hpower. unfold shutdown. rewrite power_run, Hstop, Hpower. reflexivity. }
  split.
  { intros Hstop Hpower. unfold restart. rewrite power_run, Hstop, Hpower. reflexivity. }
  split.
  { intros message Hstop. unfold shutdown, restart. rewrite !power_run, Hstop.
    split; reflexivity. }
  split.
  { unfold status_after. cbn [serve]. unfold shutdown. rewrite power_state. reflexivity. }
  split.
  { unfold status_after. cbn [serve]. unfold restart. rewrite power_state. reflexivity. }
  split; [exact Hupdate|].
  intros Hstop Hreboot.
  destruct (update_returns_when_settled ctx st Hstop Hreboot) as [b Hb].
  exists b. split; [exact Hb|]. rewrite Hupdate, Hb. destruct b; reflexivity.
Qed.

End Serving.

(** *** The drawer *)

(** X17: the drawer hands its props on to the primitive root unchanged,
    except that shouldScaleBackground is always defined there: it is true
    when the caller left it out or passed undefined, and the caller's value
    otherwise, false included. *)
Theorem Drawer_scales_background_by_default (props : gmap string JS.Value) :
  let rendered := UI.props (UI.Drawer props) in
  UI.component (UI.Drawer props) = "DrawerPrimitive.Root"
  /\ (forall k, k <> "shouldScaleBackground" -> rendered !! k = props !! k)
  /\ (exists v, rendered !! "shouldScaleBackground" = Some v /\ v <> JS.Undefined)
  /\ (props !! "shouldScaleBackground" = None
      \/ props !! "shouldScaleBackground" = Some JS.Undefined ->
      rendered !! "shouldScaleBackground" = Some (JS.Bool true))
  /\ (forall v, props !! "shouldScaleBackground" = Some v -> v <> JS.Undefined ->
                rendered !! "shouldScaleBackground" = Some v).
Proof.
  intros rendered. unfold rendered, UI.Drawer. cbn [UI.props UI.component].
  unfold JS.spread. cbn [JS.own_properties].
  assert (Hscale : forall v,
            (delete "shouldScaleBackground" props ∪ {[ "shouldScaleBackground" := v ]})
              !! "shouldScaleBackground" = Some v).
  { intros v. rewrite lookup_union_r by apply lookup_delete_eq.
    apply lookup_singleton_eq. }
  split; [reflexivity|]. split.
  { intros k Hk. rewrite lookup_union, lookup_delete_ne, lookup_singleton_ne by congruence.
    destruct (props !! k); reflexivity. }
  split.
  { eexists. split; [apply Hscale|].
    destruct (props !! "shouldScaleBackground") as [[]|]; discriminate. }
  split.
  { intros [H|H]; rewrite Hscale, H; reflexivity. }
  intros v Hv Hdef. rewrite Hscale, Hv. destruct v; try reflexivity. contradiction.
Qed.

(** *** The marker and the failure log *)

Lemma startsWith_skip (s p : string) :
  JS.startsWith s p = true -> s = p ^^ JS.skip (String.length p) s.
Proof.
  revert s. induction p as [|a p IH]; intros s H; [reflexivity|].
  destruct s as [|b s]; [discriminate H|].
  cbn [JS.startsWith] in H. apply andb_prop in H as [Hab Hrest].
  apply Ascii.eqb_eq in Hab. subst b.
  cbn [String.length JS.skip]. change (String a p ^^ JS.skip (String.length p) s)
    with (String a (p ^^ JS.skip (String.length p) s)).
  rewrite <- (IH s Hrest). reflexivity.
Qed.

(** X18: for a line that starts with the marker, what is handed to
    [JSON.parse] is the line without its first fifteen characters, the
    marker: replacing the first occurrence of the marker removes that prefix
    and nothing else, also when the marker occurs again further on. *)
Theorem marker_prefix_is_removed (line : string) :
  JS.startsWith line marker = true ->
  line = marker ^^ JS.skip 15 line
  /\ JS.replace marker "" line = JS.skip 15 line
  /\ forall JSON_parse dots st,
       handleLine JSON_parse line dots st
       = match JSON_parse (JS.skip 15 line) with
         | Some status => ((setUpdateStatus status st).1, Returned dots)
         | None => (st, Returned dots)
         end.
Proof.
  intros H. pose proof (startsWith_skip line marker H) as Hline.
  change (String.length marker) with 15 in Hline.
  split; [exact Hline|]. split.
  - destruct line as [|c rest]; [discriminate H|].
    unfold JS.replace; fold JS.replace. rewrite H. reflexivity.
  - intros JSON_parse dots st. rewrite Hline at 1. apply handleLine_marker.
Qed.

Lemma failures_logged_app (es1 es2 : list Event) :
  failures_logged (es1 ++ es2) = failures_logged es1 ++ failures_logged es2.
Proof.
  induction es1 as [|e es1 IH]; [reflexivity|].
  destruct e as [| | |[]]; cbn [app failures_logged]; rewrite IH; reflexivity.
Qed.

Section FailureLog.

Variable JSON_parse : string -> option JS.Value.
Variable ctx : Context.

Lemma handleLines_logs_no_failure (lines : list string) (dots : float) (st : State) :
  exists new, events (handleLines JSON_parse lines dots st).1 = events st ++ new
              /\ failures_logged new = [].
Proof.
  revert dots st. induction lines as [|line lines IH]; intros dots st.
  - exists []. rewrite app_nil_r. split; reflexivity.
  - cbn [handleLines]. unfold mbind, M_bind.
    assert (H1 : exists new, events (handleLine JSON_parse line dots st).1 = events st ++ new
                             /\ failures_logged new = []).
    { unfold handleLine.
      destruct (JS.startsWith line marker); [destruct (JSON_parse _) as [status|]|];
        destruct (String.eqb line ".");
        cbv beta iota zeta delta
          [mbind M_bind mret M_ret setUpdateStatus gets write_updateStatus log emit
           fst events updateStatus systemStatus factoryResetDemoState];
        rewrite <- ?app_assoc;
        first [ exists []; rewrite app_nil_r; split; reflexivity
              | eexists; split; reflexivity ]. }
    destruct H1 as (new1 & He1 & Hf1).
    destruct (handleLine JSON_parse line dots st) as [st' [d'|e]]; cbn [fst] in *.
    + destruct (IH d' st') as (new2 & He2 & Hf2).
      exists (new1 ++ new2). rewrite He2, He1, app_assoc, failures_logged_app, Hf1, Hf2.
      split; reflexivity.
    + exists new1. split; assumption.
Qed.

(** X19: [update] logs one failure when it fails and none when it gets
    through, and the message logged is that of the step that failed: the
    rejection of the release fetch, the message of the missing-script check,
    the rejection of the script download, or the rejection of the awaited
    subprocess.  The handler of the script's output logs no failure. *)
Theorem update_logs_the_failure (st : State) :
  exists new,
    events (update JSON_parse ctx st).1 = events st ++ new
    /\ failures_logged new
       = match latestRelease ctx with
         | Rejected message => [message]
         | Resolved release =>
             if script_missing (updateScript release) then ["No update script found"]
             else match fetchText ctx (default "" (updateScript release)) with
                  | Rejected message => [message]
                  | Resolved script =>
                      match (bash ctx script).2 with
                      | Rejected message => [message]
                      | Resolved _ => []
                      end
                  end
         end.
Proof.
  rewrite update_run, attempt_run, update_try_run.
  destruct (started_status st) as (_ & _ & _ & Hstart).
  assert (Hcatch : forall message caught new0,
            events caught = events (started st) ++ new0 ->
            failures_logged new0 = [] ->
            exists new,
              events (update_catch (JsError message) caught).1 = events st ++ new
              /\ failures_logged new = [message]).
  { intros message caught new0 Hev Hf.
    destruct (update_catch_run (JsError message) caught)
      as (_ & _ & _ & _ & written & Hevents & Hw).
    rewrite Hevents, Hev, Hstart, <- !app_assoc. eexists. split; [reflexivity|].
    rewrite !failures_logged_app, Hf.
    assert (Hwf : failures_logged written = []).
    { rewrite Hw. destruct (JS.truthy _); reflexivity. }
    rewrite Hwf. reflexivity. }
  destruct (latestRelease ctx) as [release|message].
  2: { apply (Hcatch message (started st) []); [rewrite app_nil_r|]; reflexivity. }
  destruct (script_missing (updateScript release)).
  { eapply Hcatch; [rewrite setUpdateStatus_run; cbn [fst events]; reflexivity|reflexivity]. }
  destruct (fetchText ctx _) as [script|message].
  2: { apply (Hcatch message (started st) []); [rewrite app_nil_r|]; reflexivity. }
  cbn [fst snd].
  pose proof (handleLines_logs_no_failure (chunk_lines (bash ctx script).1) 0 (started st))
    as (new0 & Hev & Hf).
  rewrite <- deliver_chunk_lines in Hev.
  destruct (bash ctx script).2 as [[]|message].
  - rewrite update_complete_run. cbn [fst events].
    rewrite Hev, Hstart, <- !app_assoc. eexists. split; [reflexivity|].
    rewrite !failures_logged_app, Hf. destruct (settles ctx Stop); reflexivity.
  - eapply Hcatch; [exact Hev|exact Hf].
Qed.

End FailureLog.

(** *** The order of what [update] writes *)

Section UpdateOrder.

Variable JSON_parse : string -> option JS.Value.
Variable ctx : Context.

(** X20: [update] announces itself before anything else.  Its first write
    sets SystemState to updating and its second sets the four fields of
    UpdateStatus to running true, progress 5, description Updating... and
    error false, every other key staying as it was; whatever else happens
    comes after these two writes. *)
Theorem update_announces_itself_first (st : State) :
  let announced := updateStatus (started st) in
  (exists rest,
     events (update JSON_parse ctx st).1
     = events st ++ [WriteSystemStatus updating; WriteUpdateStatus announced] ++ rest)
  /\ JS.get announced "running" = JS.Bool true
  /\ JS.get announced "progress" = JS.Number 5
  /\ JS.get announced "description" = JS.Str "Updating..."
  /\ JS.get announced "error" = JS.Bool false
  /\ (forall k, ~ In k fields -> announced !! k = updateStatus st !! k).
Proof.
  intros announced.
  assert (Hfield : forall k v,
            (list_to_map [("running", JS.Bool true); ("progress", JS.Number 5);
                          ("description", JS.Str "Updating...");
                          ("error", JS.Bool false)] : gmap string JS.Value) !! k = Some v ->
            JS.get announced k = v).
  { intros k v Hk. unfold announced, started, JS.get. rewrite setUpdateStatus_run.
    cbn [fst updateStatus setSystemStatus].
    unfold JS.spread, starting_status, obj. cbn [JS.own_properties].
    erewrite lookup_union_Some_l by exact Hk. reflexivity. }
  split.
  { destruct (started_status st) as (_ & _ & _ & Hstart).
    destruct (update_try_quiet JSON_parse ctx (started st)) as (new & Hev & _).
    rewrite update_run, attempt_run.
    destruct (update_try JSON_parse ctx (started st)) as [st1 [[]|error]]; cbn [fst] in Hev.
    - rewrite update_complete_run. cbn [fst events].
      rewrite Hev, Hstart, <- !app_assoc. eexists. reflexivity.
    - destruct (update_catch_run error st1) as (_ & _ & _ & _ & written & -> & _).
      rewrite Hev, Hstart, <- !app_assoc. eexists. reflexivity. }
  split; [apply Hfield; reflexivity|]. split; [apply Hfield; reflexivity|].
  split; [apply Hfield; reflexivity|]. split; [apply Hfield; reflexivity|].
  intros k Hk. unfold announced, started. rewrite setUpdateStatus_run.
  cbn [fst updateStatus setSystemStatus].
  unfold JS.spread, starting_status, obj. cbn [JS.own_properties].
  apply lookup_union_r. apply not_elem_of_list_to_map_1.
  cbn [fmap list_fmap fst]. intros Hin. apply Hk.
  apply list_elem_of_In in Hin. exact Hin.
Qed.

(** X21: when [update] fails, SystemState goes back to running only once
    UpdateStatus is settled: the last four things it does are to reset
    UpdateStatus to the idle record, to write the final record with the kept
    error, to write SystemState running, and to log the failure.  An observer
    who reads running after a failed update finds the final UpdateStatus. *)
Theorem failed_update_settles_status_before_running (st : State) :
  (update JSON_parse ctx st).2 = Returned false ->
  let after := (update JSON_parse ctx st).1 in
  systemStatus after = running
  /\ exists before message,
       events after
       = events st ++ before
         ++ [WriteUpdateStatus idle_status;
             WriteUpdateStatus (updateStatus after);
             WriteSystemStatus running;
             Log (UpdateScriptFailed message)].
Proof.
  rewrite update_run, attempt_run.
  destruct (started_status st) as (_ & _ & _ & Hstart).
  destruct (update_try_quiet JSON_parse ctx (started st)) as (new & Hev & _).
  destruct (update_try JSON_parse ctx (started st)) as [st1 [[]|error]]; cbn [fst] in Hev.
  - rewrite update_complete_run. unfold completion_result. cbn [snd]. intros H.
    destruct (settles ctx Stop); [destruct (settles ctx Reboot)|]; discriminate H.
  - intros _ after. unfold after.
    destruct (update_catch_run error st1) as (_ & Hrun & Hstatus & _ & written & Hevents & _).
    split; [exact Hrun|].
    rewrite Hevents, Hstatus, Hev, Hstart, <- !app_assoc.
    exists ([WriteSystemStatus updating; WriteUpdateStatus (updateStatus (started st))]
            ++ new ++ written), (error_message error).
    rewrite <- !app_assoc. reflexivity.
Qed.

End UpdateOrder.

(** *** The progress is a whole number of percent *)

Lemma written_percent_table :
  forallb (fun n => PrimFloat.Leibniz.eqb (progress_after n) (number_of_Z (written_percent n)))
          (seq 0 71) = true.
Proof. vm_compute. reflexivity. Qed.

(** X22: the progress a dot line writes is a whole number of percent, never
    a fraction, infinite or NaN: after [n] dots it is the number
    [written_percent n], which lies between 5 and 95, and from the first dot
    on between 6 and 95. *)
Theorem dot_progress_is_whole_percent (n : nat) :
  progress_after n = number_of_Z (written_percent n)
  /\ (5 <= written_percent n <= 95)%Z
  /\ (1 <= n -> (6 <= written_percent n)%Z).
Proof.
  split.
  - destruct (Nat.le_gt_cases 71 n) as [Hn|Hn].
    + rewrite progress_after_capped by lia. unfold written_percent.
      replace (Nat.eqb n 49) with false by (symmetry; apply Nat.eqb_neq; lia).
      rewrite exact_progress_capped by lia. vm_compute. reflexivity.
    + pose proof written_percent_table as T. rewrite forallb_forall in T.
      apply FloatAxioms.Leibniz.eqb_spec, T, in_seq. lia.
  - unfold written_percent. destruct (Nat.eqb n 49); [lia|].
    unfold exact_progress.
    assert (H0 : (0 <= Z.of_nat n * 90 / 70)%Z) by (apply Z.div_pos; lia).
    split; [lia|]. intros Hn.
    assert (H1 : (1 <= Z.of_nat n * 90 / 70)%Z) by (apply Z.div_le_lower_bound; lia).
    lia.
Qed.

(** *** The order in which chunks arrive *)

Lemma dot_count_app (l1 l2 : list string) :
  dot_count (l1 ++ l2) = dot_count l1 + dot_count l2.
Proof.
  induction l1 as [|l l1 IH]; [reflexivity|].
  cbn [app dot_count]. rewrite IH. lia.
Qed.

Lemma no_marker_app (l1 l2 : list string) :
  no_marker (l1 ++ l2) = no_marker l1 && no_marker l2.
Proof. apply forallb_app. Qed.

Lemma chunk_lines_permutation (chunks1 chunks2 : list (Stream * string)) :
  Permutation chunks1 chunks2 ->
  dot_count (chunk_lines chunks1) = dot_count (chunk_lines chunks2)
  /\ no_marker (chunk_lines chunks1) = no_marker (chunk_lines chunks2).
Proof.
  induction 1 as [|[s c] l1 l2 _ [IHd IHm]|[s1 c1] [s2 c2] l|l1 l2 l3 _ [IHd1 IHm1] _ [IHd2 IHm2]].
  - split; reflexivity.
  - cbn [chunk_lines]. rewrite !dot_count_app, !no_marker_app, IHd, IHm. split; reflexivity.
  - cbn [chunk_lines]. rewrite !dot_count_app, !no_marker_app. split; [lia|].
    destruct (no_marker (JS.split_lines c1)), (no_marker (JS.split_lines c2)); reflexivity.
  - split; congruence.
Qed.

Section Interleaving.

Variable JSON_parse : string -> option JS.Value.

(** Lines without structured updates are handled as their dot lines
    alone. *)
Lemma handleLines_as_dots (lines : list string) (dots : float) (st : State) :
  no_marker lines = true ->
  handleLines JSON_parse lines dots st
  = handleLines JSON_parse (repeat "." (dot_count lines)) dots st.
Proof.
  revert dots st. induction lines as [|line lines IH]; intros dots st Hno; [reflexivity|].
  cbn [no_marker forallb] in Hno. apply andb_prop in Hno as [Hline Hno].
  apply negb_true_iff in Hline.
  cbn [handleLines dot_count]. unfold mbind at 1, M_bind at 1.
  rewrite (handleLine_no_marker JSON_parse line dots st Hline).
  destruct (String.eqb line ".").
  - cbn [Nat.add repeat handleLines]. unfold mbind, M_bind.
    rewrite handleLine_dot. apply IH, Hno.
  - cbn [Nat.add]. apply IH, Hno.
Qed.

(** X23: for output without structured updates, the order in which the
    chunks arrive makes no difference: the chunks of stdout and stderr may be
    interleaved in any way, the handler ends in the same state, the record
    of what it wrote and logged included, with the same dot count. *)
Theorem dots_ignore_interleaving (chunks1 chunks2 : list (Stream * string))
    (dots : float) (st : State) :
  Permutation chunks1 chunks2 ->
  no_marker (chunk_lines chunks1) = true ->
  deliver JSON_parse chunks1 dots st = deliver JSON_parse chunks2 dots st.
Proof.
  intros Hperm Hno. destruct (chunk_lines_permutation chunks1 chunks2 Hperm) as [Hd Hm].
  rewrite !deliver_chunk_lines.
  rewrite (handleLines_as_dots (chunk_lines chunks1)) by exact Hno.
  rewrite (handleLines_as_dots (chunk_lines chunks2)) by (rewrite <- Hm; exact Hno).
  rewrite Hd. reflexivity.
Qed.

End Interleaving.

(** *** The public procedures *)

(** X24: the procedures declared with [publicProcedure] (online, version,
    status and getFactoryResetStatus) change nothing: each returns a value,
    never throws, leaves the whole state as it was, and its result does not
    depend on the network, the file system or any password. *)
Theorem public_procedures_change_nothing (JSON_parse : string -> option JS.Value)
    (ctx : Context) (host : Host) (p : Procedure.name) (st : State) :
  is_public p = true ->
  (exists v, serve JSON_parse ctx host p st = (st, Returned v))
  /\ (forall parse ctx',
        serve parse ctx' host p st = serve JSON_parse ctx host p st).
Proof.
  intros Hp. destruct p; try discriminate Hp;
    (split; [eexists; reflexivity|intros parse ctx'; reflexivity]).
Qed.

(** ** The attempt line by line, and its completion *)

(** *** What the dot lines write *)

Lemma settled_nil : settled [].
Proof. intros p H. discriminate H. Qed.

Lemma settled_write (es : list Event) (status : gmap string JS.Value) :
  settled (es ++ [WriteUpdateStatus status]).
Proof. intros p H. rewrite last_snoc in H. discriminate H. Qed.

Lemma settled_app (es1 es2 : list Event) :
  settled es1 -> settled es2 -> settled (es1 ++ es2).
Proof.
  intros H1 H2 p H. destruct es2 as [|e es2] using rev_ind.
  - rewrite app_nil_r in H. exact (H1 p H).
  - rewrite app_assoc, last_snoc in H. apply (H2 p). rewrite last_snoc. exact H.
Qed.

Lemma dot_written_app (es1 es2 : list Event) :
  settled es1 -> dot_written (es1 ++ es2) = dot_written es1 ++ dot_written es2.
Proof.
  induction es1 as [|e es1 IH]; intros Hs; [reflexivity|].
  assert (Hs1 : settled es1).
  { intros p H. apply (Hs p). destruct es1; [discriminate H|exact H]. }
  specialize (IH Hs1).
  destruct e as [| | |[p| |]]; try (cbn [app dot_written]; exact IH).
  destruct es1 as [|e2 es1].
  - destruct (Hs p). reflexivity.
  - destruct e2 as [|status| |]; cbn [app dot_written] in *;
      try exact IH. rewrite IH. reflexivity.
Qed.

Lemma status_written_app (es1 es2 : list Event) :
  status_written (es1 ++ es2) = status_written es1 ++ status_written es2.
Proof.
  induction es1 as [|e es1 IH]; [reflexivity|].
  destruct e; cbn [app status_written]; rewrite IH; reflexivity.
Qed.

Lemma progress_written_app (es1 es2 : list Event) :
  progress_written (es1 ++ es2) = progress_written es1 ++ progress_written es2.
Proof. unfold progress_written. rewrite status_written_app. apply fmap_app. Qed.

Section Written.

Variable JSON_parse : string -> option JS.Value.

(** What one line adds to the record: a dot line its log and its write, of
    the same progress; a structured update its write; any other line
    nothing. *)
Lemma handleLine_written (line : string) (dots : float) (st : State) :
  exists new,
    events (handleLine JSON_parse line dots st).1 = events st ++ new
    /\ settled new
    /\ dot_written new
       = (if String.eqb line "." then [JS.Number (dot_progress (dots + 1))] else [])
    /\ (JS.startsWith line marker = false -> progress_written new = dot_written new).
Proof.
  destruct (String.eqb line ".") eqn:Hdot.
  - apply String.eqb_eq in Hdot. subst line. rewrite handleLine_dot.
    rewrite setUpdateStatus_run, spread_single. cbn [fst events log emit updateStatus].
    rewrite <- app_assoc. eexists. split; [reflexivity|].
    split; [apply (settled_write [_])|].
    cbn [app dot_written progress_written status_written fmap list_fmap].
    unfold JS.get. rewrite lookup_insert_eq. split; reflexivity.
  - unfold handleLine. rewrite Hdot.
    destruct (JS.startsWith line marker).
    + destruct (JSON_parse _) as [status|].
      * cbv beta iota zeta delta [mbind M_bind]. rewrite setUpdateStatus_run.
        cbn [fst snd events mret M_ret]. eexists. split; [reflexivity|].
        split; [apply (settled_write [])|]. split; [reflexivity|discriminate].
      * exists []. rewrite app_nil_r. split; [reflexivity|].
        split; [apply settled_nil|]. split; [reflexivity|discriminate].
    + exists []. rewrite app_nil_r. split; [reflexivity|].
      split; [apply settled_nil|]. split; reflexivity.
Qed.

Lemma handleLines_written (lines : list string) (dots : float) (st : State) :
  exists new,
    events (handleLines JSON_parse lines dots st).1 = events st ++ new
    /\ settled new
    /\ dot_written new = JS.Number <$> dot_trail (dot_count lines) dots
    /\ (no_marker lines = true -> progress_written new = dot_written new).
Proof.
  revert dots st. induction lines as [|line lines IH]; intros dots st.
  - exists []. rewrite app_nil_r. split; [reflexivity|].
    split; [apply settled_nil|]. split; reflexivity.
  - destruct (handleLine_written line dots st) as (new1 & He1 & Hs1 & Hd1 & Hp1).
    pose proof (handleLine_counts JSON_parse line dots st) as (Hret & _).
    cbn [handleLines dot_count]. unfold mbind, M_bind.
    destruct (handleLine JSON_parse line dots st) as [st' [d'|e]]; cbn [fst snd] in *;
      [|discriminate Hret].
    injection Hret as ->.
    match goal with
    | |- context [handleLines JSON_parse lines ?d st'] =>
        destruct (IH d st') as (new2 & He2 & Hs2 & Hd2 & Hp2)
    end.
    exists (new1 ++ new2). rewrite He2, He1, app_assoc.
    split; [reflexivity|]. split; [apply settled_app; assumption|].
    rewrite dot_written_app by exact Hs1. rewrite Hd1, Hd2.
    split.
    + destruct (String.eqb line "."); reflexivity.
    + intros Hno. cbn [no_marker forallb] in Hno. apply andb_prop in Hno as [Hline Hno].
      apply negb_true_iff in Hline.
      rewrite progress_written_app, (Hp1 Hline), (Hp2 Hno), Hd1, Hd2. reflexivity.
Qed.

End Written.

(** *** The dot lines of an attempt *)

(** The value the code computes for [k] dots is the whole number
    [written_percent k]. *)
Lemma progress_after_percent (k : nat) :
  progress_after k = number_of_Z (written_percent k).
Proof.
  destruct (Nat.le_gt_cases 71 k) as [Hk|Hk].
  - rewrite progress_after_capped by lia. unfold written_percent.
    replace (Nat.eqb k 49) with false by (symmetry; apply Nat.eqb_neq; lia).
    rewrite exact_progress_capped by lia. vm_compute. reflexivity.
  - pose proof written_percent_table as T. rewrite forallb_forall in T.
    apply FloatAxioms.Leibniz.eqb_spec, T, in_seq. lia.
Qed.

Lemma written_percent_bounds (k : nat) :
  (5 <= written_percent k <= 95)%Z /\ (1 <= k -> (6 <= written_percent k)%Z).
Proof.
  unfold written_percent. destruct (Nat.eqb k 49); [lia|].
  unfold exact_progress.
  assert (H0 : (0 <= Z.of_nat k * 90 / 70)%Z) by (apply Z.div_pos; lia).
  split; [lia|]. intros Hk.
  assert (H1 : (1 <= Z.of_nat k * 90 / 70)%Z) by (apply Z.div_le_lower_bound; lia).
  lia.
Qed.

Lemma chunk_lines_app (chunks1 chunks2 : list (Stream * string)) :
  chunk_lines (chunks1 ++ chunks2) = chunk_lines chunks1 ++ chunk_lines chunks2.
Proof.
  induction chunks1 as [|[s c] chunks1 IH]; [reflexivity|].
  cbn [app chunk_lines]. rewrite IH, app_assoc. reflexivity.
Qed.

Lemma split_lines_dot_lines_text (n : nat) :
  JS.split_lines (dot_lines_text n) = repeat "." n ++ [""].
Proof.
  induction n as [|n IH]; [reflexivity|].
  change (dot_lines_text (S n)) with ("." ^^ lf ^^ dot_lines_text n).
  rewrite split_lines_lf, IH. reflexivity.
Qed.

Section DotLines.

Variable JSON_parse : string -> option JS.Value.

(** The dot line that comes when [n] were counted. *)
Lemma handleLine_dot_percent (n : nat) (st : State) :
  handleLine JSON_parse "." (dots_after n) st
  = ({| systemStatus := systemStatus st;
        updateStatus := <["progress" := JS.Number (number_of_Z (written_percent (S n)))]>
                          (updateStatus st);
        factoryResetDemoState := factoryResetDemoState st;
        events := events st
                  ++ [Log (UpdateProgress (number_of_Z (written_percent (S n))));
                      WriteUpdateStatus
                        (<["progress" := JS.Number (number_of_Z (written_percent (S n)))]>
                           (updateStatus st))] |},
     Returned (dots_after (S n))).
Proof.
  rewrite handleLine_dot, setUpdateStatus_run, spread_single.
  change (dot_progress (dots_after n + 1)) with (progress_after (S n)).
  rewrite progress_after_percent.
  cbn [fst events log emit updateStatus systemStatus factoryResetDemoState].
  rewrite <- app_assoc. reflexivity.
Qed.

(** The chunks of an attempt so far, then a chunk that holds one dot
    line. *)
Lemma deliver_then_dot (chunks : list (Stream * string)) (stream : Stream) (st : State) :
  let m := dot_count (chunk_lines chunks) in
  let before := deliver JSON_parse chunks 0 st in
  deliver JSON_parse (chunks ++ [(stream, "." ^^ lf)]) 0 st
  = handleLine JSON_parse "." (dots_after m) before.1
  /\ before.2 = Returned (dots_after m).
Proof.
  intros m before. unfold before, m.
  destruct (handleLines_counts JSON_parse (chunk_lines chunks) 0 st) as (Hret & _).
  rewrite !deliver_chunk_lines, chunk_lines_app, handleLines_app.
  destruct (handleLines JSON_parse (chunk_lines chunks) 0 st) as [st' r].
  cbn [fst snd] in *. subst r. split; [|reflexivity].
  change (chunk_lines [(stream, "." ^^ lf)]) with [("." : string); ""].
  cbn [handleLines]. unfold mbind, M_bind. fold (dots_after (dot_count (chunk_lines chunks))).
  destruct (handleLine JSON_parse "." _ st') as [st2 [d|e]] eqn:E; [|reflexivity].
  rewrite handleLine_empty. reflexivity.
Qed.

(** A chunk of [k] dot lines from the start of an attempt. *)
Lemma deliver_dot_lines_text (k : nat) (stream : Stream) (st : State) :
  let r := deliver JSON_parse [(stream, dot_lines_text k)] 0 st in
  r.2 = Returned (dots_after k)
  /\ (0 < k -> JS.get (updateStatus r.1) "progress"
               = JS.Number (number_of_Z (written_percent k))).
Proof.
  intros r. unfold r. rewrite deliver_chunk_lines. cbn [chunk_lines].
  rewrite app_nil_r, split_lines_dot_lines_text, handleLines_app.
  pose proof (handleLines_dots JSON_parse k 0 st) as Hret.
  destruct (handleLines JSON_parse (repeat "." k) 0 st) as [st' res] eqn:E.
  cbn [snd] in Hret. subst res. cbn [handleLines]. unfold mbind, M_bind.
  rewrite handleLine_empty. cbn [fst snd mret M_ret].
  split; [reflexivity|]. intros Hk. destruct k as [|k]; [inversion Hk|].
  pose proof (handleLines_dots_progress JSON_parse k 0 st) as Hp.
  rewrite E in Hp. cbn [fst] in Hp. rewrite Hp.
  change (dot_progress (Nat.iter (S k) count_dot 0%float)) with (progress_after (S k)).
  rewrite progress_after_percent. reflexivity.
Qed.

End DotLines.

Section DotClaims.

Variable JSON_parse : string -> option JS.Value.

(** What the [try] block of [update] adds to the record: the progress
    values its dot lines wrote are those of 1, 2, ..., n dots. *)
Lemma update_try_dot_written (ctx : Context) (s : State) :
  exists n new,
    events (update_try JSON_parse ctx s).1 = events s ++ new
    /\ settled new
    /\ dot_written new = (fun k => JS.Number (progress_after k)) <$> seq 1 n
    /\ match latestRelease ctx with
       | Resolved release =>
           if script_missing (updateScript release) then True
           else match fetchText ctx (default "" (updateScript release)) with
                | Resolved script =>
                    n = dot_count (chunk_lines (bash ctx script).1)
                    /\ (no_marker (chunk_lines (bash ctx script).1) = true ->
                        progress_written new = dot_written new)
                | Rejected _ => True
                end
       | Rejected _ => True
       end.
Proof.
  rewrite update_try_run.
  assert (Hnone : exists n new,
            events s = events s ++ new /\ settled new
            /\ dot_written new = (fun k => JS.Number (progress_after k)) <$> seq 1 n).
  { exists 0, []. rewrite app_nil_r. split; [reflexivity|].
    split; [apply settled_nil|reflexivity]. }
  destruct (latestRelease ctx) as [release|message].
  2: { destruct Hnone as (n & new & H1 & H2 & H3). exists n, new. repeat split; assumption. }
  destruct (script_missing (updateScript release)).
  { rewrite setUpdateStatus_run. exists 0. eexists. cbn [fst events].
    split; [reflexivity|]. split; [apply (settled_write [])|]. split; reflexivity. }
  destruct (fetchText ctx _) as [script|message].
  2: { destruct Hnone as (n & new & H1 & H2 & H3). exists n, new. repeat split; assumption. }
  cbn [fst]. rewrite deliver_chunk_lines.
  destruct (handleLines_written JSON_parse (chunk_lines (bash ctx script).1) 0 s)
    as (new & Hev & Hs & Hd & Hp).
  exists (dot_count (chunk_lines (bash ctx script).1)), new.
  split; [exact Hev|]. split; [exact Hs|].
  split; [|split; [reflexivity|exact Hp]].
  rewrite Hd. change (0%float) with (dots_after 0).
  rewrite dot_trail_progress_after, <- list_fmap_compose. reflexivity.
Qed.

(** C10: in one update attempt the dot counter starts at 0 and each dot
    line increments it, so after the chunks delivered so far it is
    [dots_after n] for the [n] dot lines among them, and the progress values
    the dot lines wrote to UpdateStatus (and logged) are those of 1, 2, ..., n
    dots, in this order; the same holds of everything the [try] block of
    [update] wrote.  The progress is monotone in the number of dots and never
    above 95, so that sequence is non-decreasing and bounded by 95: of the
    values the dot lines wrote, an earlier one is at most a later one and
    each is at most 95.  The progress of [k] dots is the whole number
    [written_percent k]; the counter itself never decreases. *)
Theorem dot_progress_nondecreasing (ctx : Context) (chunks : list (Stream * string))
    (st : State) :
  let percent k := JS.Number (progress_after k) in
  (let n := dot_count (chunk_lines chunks) in
   (deliver JSON_parse chunks 0 st).2 = Returned (dots_after n)
   /\ exists new,
        events (deliver JSON_parse chunks 0 st).1 = events st ++ new
        /\ dot_written new = percent <$> seq 1 n
        /\ progress_logged new = progress_after <$> seq 1 n
        /\ (forall i j a b,
              i <= j ->
              dot_written new !! i = Some (JS.Number a) ->
              dot_written new !! j = Some (JS.Number b) ->
              PrimFloat.leb a b = true)
        /\ Forall (fun v => exists p, v = JS.Number p /\ PrimFloat.leb p 95 = true)
                  (dot_written new))
  /\ (exists n new,
        events (attempt JSON_parse ctx st).1 = events (started st) ++ new
        /\ dot_written new = percent <$> seq 1 n)
  /\ (forall j k, j <= k ->
        PrimFloat.leb (progress_after j) (progress_after k) = true)
  /\ (forall k, PrimFloat.leb (progress_after k) 95 = true)
  /\ (forall k, progress_after k = number_of_Z (written_percent k))
  /\ dots_after 0 = 0%float
  /\ (forall n, dots_after (S n) = count_dot (dots_after n)
                /\ PrimFloat.leb (dots_after n) (dots_after (S n)) = true).
Proof.
  intros percent. split; [|split; [|split; [|split; [|split; [|split]]]]].
  - cbv zeta. rewrite deliver_chunk_lines.
    destruct (handleLines_counts JSON_parse (chunk_lines chunks) 0 st)
      as (Hret & _ & _ & new & Hev & Hlog).
    destruct (handleLines_written JSON_parse (chunk_lines chunks) 0 st)
      as (new' & Hev' & _ & Hd & _).
    assert (new' = new) as -> by (rewrite Hev in Hev'; exact (app_inv_head _ _ _ (eq_sym Hev'))).
    split; [exact Hret|]. exists new. split; [exact Hev|].
    change (0%float) with (dots_after 0) in Hd, Hlog.
    rewrite dot_trail_progress_after in Hd, Hlog.
    assert (Hdw : dot_written new
                  = percent <$> seq 1 (dot_count (chunk_lines chunks))).
    { rewrite Hd, <- list_fmap_compose. reflexivity. }
    split; [exact Hdw|]. split; [exact Hlog|]. split.
    + intros i j a b Hij Ha Hb. rewrite Hdw, list_lookup_fmap in Ha, Hb.
      destruct (seq 1 (dot_count (chunk_lines chunks)) !! i) as [x|] eqn:Ex;
        [|discriminate Ha].
      destruct (seq 1 (dot_count (chunk_lines chunks)) !! j) as [y|] eqn:Ey;
        [|discriminate Hb].
      apply lookup_seq in Ex, Ey. cbn in Ha, Hb. unfold percent in Ha, Hb.
      injection Ha as <-. injection Hb as <-.
      apply progress_after_monotone. lia.
    + rewrite Hdw. apply Forall_fmap, Forall_true. intros k.
      exists (progress_after k). split; [reflexivity|apply progress_after_bounded].
  - rewrite attempt_run.
    destruct (update_try_dot_written ctx (started st)) as (n & new & Hev & _ & Hd & _).
    exists n, new. split; assumption.
  - exact progress_after_monotone.
  - exact progress_after_bounded.
  - exact progress_after_percent.
  - reflexivity.
  - intros n. split; [reflexivity|apply dots_after_monotone].
Qed.

(** C1, as the code has it: a line that is exactly one dot increments the
    install-progress counter and sets UpdateStatus.progress, every other
    field of UpdateStatus and SystemState staying as they were.  The value
    set is the binary64 value of Math.min(95, Math.floor((dots / 70) * 90) +
    5) for the new count: a whole number between 6 and 95, which is the
    formula min(95, floor(dots/70 * 90) + 5) evaluated exactly for every
    count but 49, where it is 67 and the exact formula gives 68.  So it is
    for the dot line that comes when [n] were counted, and in the handler for
    a chunk with a dot line after the chunks of the attempt so far.  After 35
    dot lines of an attempt the counter is 35 and the progress 50, after 70
    they are 70 and 95, after 140 the progress is still 95.  Output without
    a dot line leaves the counter at 0 and writes and logs no dot progress
    (no progress at all when it has no marker line either),
    and a line that is not a dot does not touch the counter. *)
Theorem dot_line_sets_progress (n : nat) (chunks : list (Stream * string))
    (stream : Stream) (st : State) :
  let percent := number_of_Z (written_percent (S n)) in
  let after := (handleLine JSON_parse "." (dots_after n) st).1 in
  (handleLine JSON_parse "." (dots_after n) st).2 = Returned (dots_after (S n))
  /\ updateStatus after = <["progress" := JS.Number percent]> (updateStatus st)
  /\ (forall k, k <> "progress" -> updateStatus after !! k = updateStatus st !! k)
  /\ systemStatus after = systemStatus st
  /\ events after
     = events st ++ [Log (UpdateProgress percent); WriteUpdateStatus (updateStatus after)]
  /\ (6 <= written_percent (S n) <= 95)%Z
  /\ (S n <> 49 -> written_percent (S n) = exact_progress (S n))
  /\ (written_percent 49 = 67%Z /\ exact_progress 49 = 68%Z)
  /\ (let m := dot_count (chunk_lines chunks) in
      let before := deliver JSON_parse chunks 0 st in
      let r := deliver JSON_parse (chunks ++ [(stream, "." ^^ lf)]) 0 st in
      before.2 = Returned (dots_after m)
      /\ r.2 = Returned (dots_after (S m))
      /\ updateStatus r.1
         = <["progress" := JS.Number (number_of_Z (written_percent (S m)))]>
             (updateStatus before.1)
      /\ systemStatus r.1 = systemStatus before.1)
  /\ (forall k,
        let r := deliver JSON_parse [(stream, dot_lines_text k)] 0 st in
        r.2 = Returned (dots_after k)
        /\ (0 < k -> JS.get (updateStatus r.1) "progress"
                     = JS.Number (number_of_Z (written_percent k))))
  /\ (dots_after 35 = 35%float /\ number_of_Z (written_percent 35) = 50%float)
  /\ (dots_after 70 = 70%float /\ number_of_Z (written_percent 70) = 95%float)
  /\ (dots_after 140 = 140%float /\ number_of_Z (written_percent 140) = 95%float)
  /\ (dot_count (chunk_lines chunks) = 0 ->
      (deliver JSON_parse chunks 0 st).2 = Returned 0%float
      /\ exists new, events (deliver JSON_parse chunks 0 st).1 = events st ++ new
                     /\ dot_written new = [] /\ progress_logged new = []
                     /\ (no_marker (chunk_lines chunks) = true ->
                         progress_written new = []))
  /\ (forall line dots, line <> "." ->
        (handleLine JSON_parse line dots st).2 = Returned dots
        /\ progress_logged (events (handleLine JSON_parse line dots st).1)
           = progress_logged (events st)).
Proof.
  intros percent after. unfold after, percent. rewrite handleLine_dot_percent.
  cbn [fst snd updateStatus systemStatus events].
  split; [reflexivity|]. split; [reflexivity|].
  split; [intros k Hk; apply lookup_insert_ne; congruence|].
  split; [reflexivity|]. split; [reflexivity|].
  split; [pose proof (written_percent_bounds (S n)) as [[_ Hle] Hge]; split; [apply Hge; lia|exact Hle]|].
  split.
  { intros Hne. unfold written_percent.
    replace (Nat.eqb (S n) 49) with false by (symmetry; apply Nat.eqb_neq; exact Hne).
    reflexivity. }
  split; [split; reflexivity|].
  split.
  { cbv zeta. destruct (deliver_then_dot JSON_parse chunks stream st) as [Hrun Hbefore].
    rewrite Hrun, handleLine_dot_percent. cbn [fst snd updateStatus systemStatus].
    repeat split. exact Hbefore. }
  split; [intros k; apply deliver_dot_lines_text|].
  split; [split; vm_compute; reflexivity|].
  split; [split; vm_compute; reflexivity|].
  split; [split; vm_compute; reflexivity|].
  split.
  { intros Hzero. rewrite deliver_chunk_lines.
    destruct (handleLines_counts JSON_parse (chunk_lines chunks) 0 st)
      as (Hret & _ & _ & new & Hev & Hlog).
    destruct (handleLines_written JSON_parse (chunk_lines chunks) 0 st)
      as (new' & Hev' & _ & Hd & Hall).
    assert (new' = new) as -> by (rewrite Hev in Hev'; exact (app_inv_head _ _ _ (eq_sym Hev'))).
    rewrite Hzero in Hret, Hlog, Hd.
    split; [exact Hret|]. exists new.
    split; [exact Hev|]. split; [exact Hd|]. split; [exact Hlog|].
    intros Hnone. rewrite (Hall Hnone). exact Hd. }
  intros line dots. apply handleLine_not_dot.
Qed.

End DotClaims.

(** *** Lines in chunks *)

Lemma has_lf_app (a b : string) : has_lf (a ^^ b) = has_lf a || has_lf b.
Proof.
  induction a as [|c a IH]; [reflexivity|].
  change (String c a ^^ b) with (String c (a ^^ b)). cbn [has_lf].
  rewrite IH, orb_assoc. reflexivity.
Qed.

(** A text that starts with a whole line is split into that line and the
    lines of the rest. *)
Lemma split_lines_first (line rest : string) :
  has_lf line = false ->
  JS.split_lines (line ^^ lf ^^ rest) = line :: JS.split_lines rest.
Proof. intros H. rewrite split_lines_lf, (split_lines_one line H). reflexivity. Qed.

Lemma append_cases (a b : string) (c : ascii) (s : string) :
  a ^^ b = String c s ->
  (a = "" /\ b = String c s) \/ (exists a', a = String c a' /\ a' ^^ b = s).
Proof.
  destruct a as [|c' a']; [left; split; [reflexivity|assumption]|].
  intros H. change (String c' (a' ^^ b) = String c s) in H. injection H as -> H.
  right. exists a'. split; [reflexivity|exact H].
Qed.

Section Cut.

Variable JSON_parse : string -> option JS.Value.

(** The handler on a text that starts with a whole line: the line, then
    the rest. *)
Lemma handler_first_line (line rest : string) (dots : float) (st : State) :
  has_lf line = false ->
  handleUpdateScriptOutput JSON_parse (line ^^ lf ^^ rest) dots st
  = (d ← handleLine JSON_parse line dots;
     handleUpdateScriptOutput JSON_parse rest d) st.
Proof.
  intros H. unfold handleUpdateScriptOutput. rewrite (split_lines_first line rest H).
  reflexivity.
Qed.

(** Neither piece of a marker cut in two is handled as anything. *)
Lemma marker_cut (a b payload : string) (dots : float) (st : State) :
  a ^^ b = marker -> a <> "" -> b <> "" ->
  handleLine JSON_parse a dots st = (st, Returned dots)
  /\ handleLine JSON_parse (b ^^ payload) dots st = (st, Returned dots).
Proof.
  intros H Ha Hb. unfold marker in H.
  apply append_cases in H as [[-> _]|(a1 & -> & H)]; [contradiction|].
  repeat
    (apply append_cases in H as [[-> ->]|(a1' & -> & H)];
     [split; apply handleLine_other; reflexivity|]; rename a1' into a1).
  destruct a1; [|discriminate H]. destruct b; [contradiction|discriminate H].
Qed.

End Cut.

Section HandlerClaims.

Variable JSON_parse : string -> option JS.Value.

(** C2, as the code has it: every chunk is split at its line feeds on its
    own and its pieces are handled as lines, in order, so a chunk holding
    several lines gets each line's effect, one after the other.  When the
    chunk boundaries fall right after line feeds, the chunks have the effect
    of their text delivered in one piece.  Nothing is carried from one chunk
    to the next: the end of one chunk and the start of the next are handled
    as two lines.  So a structured update that arrives whole is merged, and
    one that is cut inside its marker is lost: neither piece is handled as
    anything. *)
Theorem chunks_split_independently (chunks : list (Stream * string))
    (dots : float) (st : State) :
  line_aligned chunks = true ->
  deliver JSON_parse chunks dots st
  = handleUpdateScriptOutput JSON_parse (chunks_text chunks) dots st
  /\ (forall chunk, handleUpdateScriptOutput JSON_parse chunk dots st
                   = handleLines JSON_parse (JS.split_lines chunk) dots st)
  /\ (forall line rest,
        has_lf line = false ->
        handleUpdateScriptOutput JSON_parse (line ^^ lf ^^ rest) dots st
        = (d ← handleLine JSON_parse line dots;
           handleUpdateScriptOutput JSON_parse rest d) st)
  /\ (forall s1 s2 a b,
        deliver JSON_parse [(s1, a); (s2, b)] dots st
        = handleLines JSON_parse (JS.split_lines a ++ JS.split_lines b) dots st)
  /\ (forall s1 s2 a b payload partial,
        a ^^ b = marker -> a <> "" -> b <> "" ->
        has_lf payload = false ->
        JSON_parse payload = Some (JS.Object partial) ->
        (deliver JSON_parse [(s1, marker ^^ payload ^^ lf)] dots st).2 = Returned dots
        /\ updateStatus (deliver JSON_parse [(s1, marker ^^ payload ^^ lf)] dots st).1
           = partial ∪ updateStatus st
        /\ deliver JSON_parse [(s1, a); (s2, b ^^ payload ^^ lf)] dots st
           = (st, Returned dots)).
Proof.
  intros Haligned. split; [|split; [|split; [|split]]].
  - destruct chunks as [|[s c] chunks]; [reflexivity|].
    apply deliver_aligned. exact Haligned.
  - reflexivity.
  - intros line rest. apply handler_first_line.
  - intros s1 s2 a b. rewrite deliver_two. cbn [deliver]. unfold mbind, M_bind.
    destruct (handleLines JSON_parse _ dots st) as [st' [d'|e]]; reflexivity.
  - intros s1 s2 a b payload partial Hcut Ha Hb Hlf Hparse.
    assert (Hmarker : has_lf marker = false) by reflexivity.
    assert (Hab : has_lf a = false /\ has_lf b = false).
    { rewrite <- Hcut, has_lf_app in Hmarker. apply orb_false_elim in Hmarker. exact Hmarker. }
    destruct Hab as [Hla Hlb].
    assert (Hwhole : deliver JSON_parse [(s1, marker ^^ payload ^^ lf)] dots st
                     = ((setUpdateStatus (JS.Object partial) st).1, Returned dots)).
    { rewrite deliver_chunk_lines. cbn [chunk_lines]. rewrite app_nil_r.
      rewrite <- append_assoc, split_lines_trailing_lf, split_lines_one
        by (rewrite has_lf_app, Hmarker, Hlf; reflexivity).
      cbn [app handleLines]. unfold mbind, M_bind.
      rewrite handleLine_marker, Hparse, handleLine_empty. reflexivity. }
    rewrite Hwhole, setUpdateStatus_run. cbn [fst snd updateStatus].
    split; [reflexivity|]. split; [reflexivity|].
    destruct (marker_cut JSON_parse a b payload dots st Hcut Ha Hb) as [Hfirst Hsecond].
    rewrite deliver_chunk_lines. cbn [chunk_lines]. rewrite app_nil_r.
    rewrite (split_lines_one a Hla).
    rewrite <- append_assoc, split_lines_trailing_lf, split_lines_one
      by (rewrite has_lf_app, Hlb, Hlf; reflexivity).
    cbn [app handleLines]. unfold mbind, M_bind.
    rewrite Hfirst, Hsecond, handleLine_empty. reflexivity.
Qed.

(** The handler on a chunk that holds one line with its line feed. *)
Lemma handler_one_line (line : string) (dots : float) (st : State) :
  has_lf line = false ->
  handleUpdateScriptOutput JSON_parse (line ^^ lf) dots st
  = handleLine JSON_parse line dots st.
Proof.
  intros H. unfold handleUpdateScriptOutput.
  rewrite split_lines_trailing_lf, (split_lines_one line H).
  cbn [app handleLines]. unfold mbind, M_bind.
  destruct (handleLine JSON_parse line dots st) as [st' [d|e]]; [|reflexivity].
  rewrite handleLine_empty. reflexivity.
Qed.

(** C6: a line that starts with the marker and whose remainder is not
    valid JSON raises nothing and leaves the whole state (UpdateStatus
    included) and the dot counter as they were; the handler goes on with the
    lines after it, which have their effect: a dot line after it is counted
    and sets the progress, a structured update after it is merged; and an
    update whose script prints such a line and then a dot line gets through,
    having written the progress 5, 6 and 95.  No output at all makes the
    handler throw.  A marker line whose remainder parses to an object is
    merged into UpdateStatus field by field, by the handler and in a run of
    [update]. *)
Theorem marker_line_malformed_or_merged (payload : string) (dots : float) (st : State) :
  has_lf payload = false ->
  let line := marker ^^ payload in
  (JSON_parse payload = None ->
     handleUpdateScriptOutput JSON_parse (line ^^ lf) dots st = (st, Returned dots)
     /\ (forall rest,
           handleUpdateScriptOutput JSON_parse (line ^^ lf ^^ rest) dots st
           = handleUpdateScriptOutput JSON_parse rest dots st)
     /\ (let r := handleUpdateScriptOutput JSON_parse (line ^^ lf ^^ "." ^^ lf) dots st in
         r.2 = Returned (dots + 1)%float
         /\ updateStatus r.1
            = <["progress" := JS.Number (dot_progress (dots + 1))]> (updateStatus st)
         /\ events r.1
            = events st ++ [Log (UpdateProgress (dot_progress (dots + 1)));
                            WriteUpdateStatus (updateStatus r.1)])
     /\ (forall good partial,
           has_lf good = false -> JSON_parse good = Some (JS.Object partial) ->
           let r := handleUpdateScriptOutput JSON_parse
                      (line ^^ lf ^^ marker ^^ good ^^ lf) dots st in
           r.2 = Returned dots /\ updateStatus r.1 = partial ∪ updateStatus st)
     /\ (forall ctx script stream,
           update_succeeds ctx script ->
           (bash ctx script).1 = [(stream, line ^^ lf ^^ "." ^^ lf)] ->
           settles ctx Stop = Resolved tt -> settles ctx Reboot = Resolved tt ->
           (update JSON_parse ctx st).2 = Returned true
           /\ exists new,
                events (update JSON_parse ctx st).1 = events st ++ new
                /\ progress_written new = [JS.Number 5; JS.Number 6; JS.Number 95]))
  /\ (forall chunks d s, exists d', (deliver JSON_parse chunks d s).2 = Returned d')
  /\ (forall partial, JSON_parse payload = Some (JS.Object partial) ->
       (let r := handleUpdateScriptOutput JSON_parse (line ^^ lf) dots st in
        r.2 = Returned dots
        /\ updateStatus r.1 = partial ∪ updateStatus st
        /\ (forall k v, partial !! k = Some v -> updateStatus r.1 !! k = Some v)
        /\ (forall k, partial !! k = None ->
                      updateStatus r.1 !! k = updateStatus st !! k)
        /\ systemStatus r.1 = systemStatus st
        /\ events r.1 = events st ++ [WriteUpdateStatus (partial ∪ updateStatus st)])
       /\ (forall ctx script stream,
             update_succeeds ctx script ->
             (bash ctx script).1 = [(stream, line ^^ lf)] ->
             updateStatus (update JSON_parse ctx st).1
             = <["progress" := JS.Number 95]> (partial ∪ updateStatus (started st)))).
Proof.
  intros Hlf line.
  assert (Hline : has_lf line = false).
  { unfold line. rewrite has_lf_app, Hlf. reflexivity. }
  split; [|split].
  - intros Hbad.
    assert (Hskip : forall d s, handleLine JSON_parse line d s = (s, Returned d)).
    { intros d s. unfold line. rewrite handleLine_marker, Hbad. reflexivity. }
    assert (Hrest : forall rest d s,
              handleUpdateScriptOutput JSON_parse (line ^^ lf ^^ rest) d s
              = handleUpdateScriptOutput JSON_parse rest d s).
    { intros rest d s. rewrite (handler_first_line JSON_parse line rest d s Hline).
      unfold mbind, M_bind. rewrite Hskip. reflexivity. }
    assert (Hdot : forall d s,
              handleUpdateScriptOutput JSON_parse (line ^^ lf ^^ "." ^^ lf) d s
              = handleLine JSON_parse "." d s).
    { intros d s. rewrite Hrest. apply handler_one_line. reflexivity. }
    split; [rewrite handler_one_line by exact Hline; apply Hskip|].
    split; [intros rest; apply Hrest|].
    split.
    { cbv zeta. rewrite Hdot, handleLine_dot, setUpdateStatus_run, spread_single.
      cbn [fst snd updateStatus events log emit]. rewrite <- app_assoc.
      repeat split. }
    split.
    { intros good partial Hgood Hparse. cbv zeta. rewrite Hrest.
      rewrite <- append_assoc, handler_one_line
        by (rewrite has_lf_app, Hgood; reflexivity).
      rewrite handleLine_marker, Hparse, setUpdateStatus_run. split; reflexivity. }
    intros ctx script stream Hok Hout Hstop Hreboot.
    rewrite update_run, attempt_run, (update_try_success JSON_parse ctx script _ Hok), Hout.
    assert (Hrun : deliver JSON_parse [(stream, line ^^ lf ^^ "." ^^ lf)] 0 (started st)
                   = handleLine JSON_parse "." (dots_after 0) (started st)).
    { cbn [deliver]. unfold mbind, M_bind. rewrite Hdot.
      change (dots_after 0) with 0%float.
      destruct (handleLine JSON_parse "." 0 (started st)) as [s' [d|e]]; reflexivity. }
    rewrite Hrun, handleLine_dot_percent, update_complete_run.
    unfold completion_result. rewrite Hstop, Hreboot.
    cbn [fst snd events updateStatus].
    split; [reflexivity|].
    destruct (started_status st) as (_ & H5 & _ & Hstart).
    rewrite Hstart, <- !app_assoc. eexists. split; [reflexivity|].
    cbn [app progress_written status_written fmap list_fmap].
    rewrite H5. unfold JS.get. rewrite !lookup_insert_eq. cbn [default from_option id].
    reflexivity.
  - intros chunks d s. destruct (deliver_returns JSON_parse chunks d s) as [d' Hd'].
    exists d'. rewrite Hd'. reflexivity.
  - intros partial Hok.
    assert (Hmerge : forall d s,
              handleUpdateScriptOutput JSON_parse (line ^^ lf) d s
              = ((setUpdateStatus (JS.Object partial) s).1, Returned d)).
    { intros d s. rewrite handler_one_line by exact Hline.
      unfold line. rewrite handleLine_marker, Hok. reflexivity. }
    split.
    + cbv zeta. rewrite Hmerge, setUpdateStatus_run.
      cbn [fst snd updateStatus systemStatus events].
      repeat apply conj; try reflexivity.
      * intros k v. apply spread_lookup_Some.
      * intros k. apply spread_lookup_None.
    + intros ctx script stream Hsucc Hout.
      rewrite update_run, attempt_run, (update_try_success JSON_parse ctx script _ Hsucc), Hout.
      cbn [deliver]. unfold mbind at 1, M_bind at 1. rewrite Hmerge.
      cbn [mret M_ret fst]. rewrite update_complete_run, setUpdateStatus_run. reflexivity.
Qed.

End HandlerClaims.

Section Completion.

Variable JSON_parse : string -> option JS.Value.

(** C7, as the code has it: when the subprocess exits with success,
    [update] writes progress 95 over whatever UpdateStatus held and calls
    stop(); it awaits stop() and calls reboot() only once stop() has
    resolved, and it returns true only once reboot() has resolved too.  When
    stop() rejects, [update] throws that error: no reboot is asked for and
    nothing is returned; when reboot() rejects, [update] throws after both
    calls.  In every case the progress stays at 95 and the system status at
    updating.  No value [update] computes itself is 100: it writes 5 at the
    start, the value of 1, 2, ..., n dots for the n dot lines of the output,
    each between 6 and 95, and 95 at the end; when the output has no marker
    line these are all the progress values written. *)
Theorem update_success_order (ctx : Context) (script : string) (st : State) :
  update_succeeds ctx script ->
  let exited := (attempt JSON_parse ctx st).1 in
  let result := (update JSON_parse ctx st).2 in
  let after := (update JSON_parse ctx st).1 in
  let done := <["progress" := JS.Number 95]> (updateStatus exited) in
  let lines := chunk_lines (bash ctx script).1 in
  exited = (deliver JSON_parse (bash ctx script).1 0 (started st)).1
  /\ result = completion_result ctx
  /\ events after
     = events exited
       ++ WriteUpdateStatus done :: ((fun c => Call c true) <$> completion_commands ctx)
  /\ (settles ctx Stop = Resolved tt -> settles ctx Reboot = Resolved tt ->
      result = Returned true
      /\ events after
         = events exited ++ [WriteUpdateStatus done; Call Stop true; Call Reboot true])
  /\ (forall message, settles ctx Stop = Rejected message ->
      result = Thrown (JsError message)
      /\ events after = events exited ++ [WriteUpdateStatus done; Call Stop true])
  /\ (forall message,
      settles ctx Stop = Resolved tt -> settles ctx Reboot = Rejected message ->
      result = Thrown (JsError message)
      /\ events after
         = events exited ++ [WriteUpdateStatus done; Call Stop true; Call Reboot true])
  /\ updateStatus after = done
  /\ JS.get (updateStatus after) "progress" = JS.Number 95
  /\ systemStatus after = updating
  /\ JS.get (updateStatus (started st)) "progress" = JS.Number 5
  /\ exists new,
       events exited = events (started st) ++ new
       /\ dot_written new
          = (fun k => JS.Number (number_of_Z (written_percent k)))
              <$> seq 1 (dot_count lines)
       /\ Forall (fun v => v <> JS.Number 100) (dot_written new)
       /\ (forall k, 1 <= k -> (6 <= written_percent k <= 95)%Z)
       /\ (no_marker lines = true ->
           progress_written new = dot_written new
           /\ progress_written (events after)
              = progress_written (events st)
                ++ JS.Number 5 :: dot_written new ++ [JS.Number 95]).
Proof.
  intros Hok exited result after done lines.
  pose proof (update_try_success JSON_parse ctx script (started st) Hok) as Htry.
  assert (Hexited : exited = (deliver JSON_parse (bash ctx script).1 0 (started st)).1).
  { unfold exited. rewrite attempt_run, Htry. reflexivity. }
  assert (Hrun : update JSON_parse ctx st = update_complete ctx exited).
  { rewrite update_run. unfold exited. rewrite attempt_run, Htry. reflexivity. }
  assert (Hsys : systemStatus exited = updating).
  { rewrite Hexited, deliver_chunk_lines.
    destruct (handleLines_counts JSON_parse (chunk_lines (bash ctx script).1) 0 (started st))
      as (_ & Hkeep & _).
    rewrite Hkeep. apply started_status. }
  assert (Hevents : events after
                    = events exited
                      ++ WriteUpdateStatus done
                         :: ((fun c => Call c true) <$> completion_commands ctx)).
  { unfold after. rewrite Hrun, update_complete_run. unfold completion_commands.
    cbn [snd fst events]. destruct (settles ctx Stop); reflexivity. }
  unfold result, after in *. rewrite Hrun in *. rewrite update_complete_run in *.
  cbn [fst snd events updateStatus systemStatus] in *.
  split; [exact Hexited|]. split; [reflexivity|]. split; [exact Hevents|].
  split.
  { intros Hstop Hreboot. unfold completion_result. rewrite Hstop, Hreboot.
    split; reflexivity. }
  split.
  { intros message Hstop. unfold completion_result. rewrite Hstop. split; reflexivity. }
  split.
  { intros message Hstop Hreboot. unfold completion_result. rewrite Hstop, Hreboot.
    split; reflexivity. }
  split; [reflexivity|].
  split; [unfold done, JS.get; rewrite lookup_insert_eq; reflexivity|].
  split; [exact Hsys|].
  split; [apply started_status|].
  destruct (handleLines_written JSON_parse lines 0 (started st))
    as (new & Hev & Hsettled & Hdots & Hall).
  exists new. rewrite Hexited at 1. rewrite deliver_chunk_lines.
  split; [exact Hev|].
  assert (Htrail : dot_written new
                   = (fun k => JS.Number (number_of_Z (written_percent k)))
                       <$> seq 1 (dot_count lines)).
  { rewrite Hdots. change (0%float) with (dots_after 0).
    rewrite dot_trail_progress_after, <- list_fmap_compose.
    apply list_fmap_ext. intros i k _. cbn [compose].
    rewrite progress_after_percent. reflexivity. }
  split; [exact Htrail|].
  split.
  { rewrite Hdots. apply Forall_fmap.
    eapply Forall_impl; [apply dot_trail_not_100|].
    intros p Hp. cbn [compose]. intros Heq. apply Hp. injection Heq as Heq. exact Heq. }
  split.
  { intros k Hk. destruct (written_percent_bounds k) as [[_ Hup] Hlow].
    split; [apply Hlow; exact Hk|exact Hup]. }
  intros Hnone. split; [apply Hall; exact Hnone|].
  rewrite Hevents.
  assert (Hexev : events exited = events (started st) ++ new).
  { rewrite Hexited, deliver_chunk_lines. exact Hev. }
  destruct (started_status st) as (_ & H5 & _ & Hstart).
  rewrite Hexev, Hstart, <- !app_assoc.
  rewrite !progress_written_app.
  rewrite (Hall Hnone). unfold completion_commands.
  assert (Hlast : progress_written
                    (WriteUpdateStatus done :: ((fun c => Call c true) <$>
                       match settles ctx Stop with
                       | Resolved _ => [Stop; Reboot]
                       | Rejected _ => [Stop]
                       end))
                  = [JS.Number 95]).
  { destruct (settles ctx Stop); cbn [fmap list_fmap progress_written status_written];
      unfold done, JS.get; rewrite lookup_insert_eq; reflexivity. }
  rewrite Hlast.
  cbn [progress_written status_written fmap list_fmap app]. rewrite H5. reflexivity.
Qed.

End Completion.

(** ** Instances

    The theorems with hypotheses applied to sample inputs, and the runs on
    which the claims that had to be amended fail as they were stated. *)

(** Chunks cut after line feeds, delivered to the handler. *)
Lemma chunks_split_independently_witness :
  line_aligned aligned_chunks = true
  /\ deliver sample_JSON_parse aligned_chunks 0 initial_state
     = handleUpdateScriptOutput sample_JSON_parse (chunks_text aligned_chunks)
         0 initial_state.
Proof.
  split; [reflexivity|].
  refine (proj1 (chunks_split_independently sample_JSON_parse aligned_chunks
                   0 initial_state _)).
  reflexivity.
Defined.

(** C2 fails as stated: the same text has another effect when a chunk
    boundary falls inside a line.  A marker line cut in two is not
    recognised (progress stays 0 instead of becoming 42), and the final dot of
    an ordinary line, arriving in a chunk of its own, is counted as a dot
    line (progress becomes 6 instead of staying 0). *)
Lemma chunk_boundary_inside_line :
  chunks_text marker_line_cut = chunks_text marker_line_whole
  /\ JS.get (updateStatus (deliver sample_JSON_parse marker_line_whole 0 initial_state).1)
            "progress" = JS.Number 42
  /\ JS.get (updateStatus (deliver sample_JSON_parse marker_line_cut 0 initial_state).1)
            "progress" = JS.Number 0
  /\ chunks_text text_line_cut = chunks_text text_line_whole
  /\ JS.get (updateStatus (deliver sample_JSON_parse text_line_whole 0 initial_state).1)
            "progress" = JS.Number 0
  /\ JS.get (updateStatus (deliver sample_JSON_parse text_line_cut 0 initial_state).1)
            "progress" = JS.Number 6.
Proof. repeat apply conj; vm_compute; reflexivity. Qed.

(** C1 fails as stated at 49 dots: the handler, given 49 dot lines, leaves
    the counter at 49 and the progress at 67, where the formula of the claim,
    min(95, floor(49/70 * 90) + 5), is 68; 49/70 * 90 is 63 exactly and
    rounds to a number below 63 in binary64. *)
Lemma dot_49_writes_67 :
  (deliver sample_JSON_parse [(stdout, dot_lines_text 49)] 0 initial_state).2
  = Returned 49%float
  /\ JS.get (updateStatus (deliver sample_JSON_parse [(stdout, dot_lines_text 49)]
                                   0 initial_state).1) "progress"
     = JS.Number 67
  /\ exact_progress 49 = 68%Z
  /\ (49 * 90 / 70 + 5 = 68)%Z
  /\ PrimFloat.ltb (49 / 70 * 90) 63 = true.
Proof. repeat apply conj; vm_compute; reflexivity. Qed.

(** A script that reports an error of its own and exits with a failure. *)
Lemma update_failure_outcome_witness :
  update_failure (script_context [(stdout, marker ^^ disk_full_json ^^ lf)]
                                 (Rejected "Command failed with exit code 1"))
                 ScriptExitedNonZero
  /\ (update sample_JSON_parse
             (script_context [(stdout, marker ^^ disk_full_json ^^ lf)]
                             (Rejected "Command failed with exit code 1"))
             initial_state).2 = Returned false.
Proof.
  assert (H : update_failure
                (script_context [(stdout, marker ^^ disk_full_json ^^ lf)]
                                (Rejected "Command failed with exit code 1"))
                ScriptExitedNonZero).
  { eapply script_exited_non_zero; try reflexivity. discriminate. }
  split; [exact H|].
  exact (proj1 (update_failure_outcome sample_JSON_parse _ _ initial_state H)).
Defined.

(** C4 fails as stated for the missing script: no script ran, so no
    structured update set an error, and yet the error the attempt ends with
    is not the generic message but the one of the missing-script check. *)
Lemma missing_script_error_is_kept :
  (update sample_JSON_parse no_script_context initial_state).2 = Returned false
  /\ status_written (events (attempt sample_JSON_parse no_script_context initial_state).1)
     = [updateStatus (started initial_state);
        <["error" := JS.Str "No update script found"]>
          (updateStatus (started initial_state))]
  /\ JS.get (updateStatus (update sample_JSON_parse no_script_context initial_state).1)
            "error" = JS.Str "No update script found"
  /\ String.eqb "No update script found" "Update failed" = false.
Proof. repeat apply conj; vm_compute; reflexivity. Qed.

(** A release without script. *)
Lemma missing_update_script_fails_witness :
  latestRelease no_script_context
  = Resolved {| version := "1.0.0"; releaseNotes := ""; updateScript := None |}
  /\ systemStatus (update sample_JSON_parse no_script_context initial_state).1 = running.
Proof.
  split; [reflexivity|].
  refine (proj1 (proj2 (missing_update_script_fails sample_JSON_parse
                          no_script_context _ initial_state _ _))); reflexivity.
Defined.

(** A script that prints one dot line and exits with success. *)
Lemma update_success_order_witness :
  update_succeeds (script_context [(stdout, "." ^^ lf)] (Resolved tt)) "mender install"
  /\ (update sample_JSON_parse (script_context [(stdout, "." ^^ lf)] (Resolved tt))
             initial_state).2 = Returned true.
Proof.
  assert (H : update_succeeds (script_context [(stdout, "." ^^ lf)] (Resolved tt))
                              "mender install").
  { eexists _, _. repeat split; try reflexivity. discriminate. }
  split; [exact H|].
  destruct (update_success_order sample_JSON_parse _ _ initial_state H)
    as (_ & _ & _ & Hboth & _).
  exact (proj1 (Hboth eq_refl eq_refl)).
Defined.

(** C7 fails as stated when stop() rejects after a script that exited with
    success: progress 95 is written and stop() is called, then [update]
    throws the rejection; the reboot is never asked for and true is never
    returned. *)
Lemma update_throws_when_stop_rejects :
  update_succeeds stop_failing_context "mender install"
  /\ (update (fun _ => None) stop_failing_context initial_state).2
     = Thrown (JsError "umbreld failed to stop")
  /\ commands (events (update (fun _ => None) stop_failing_context initial_state).1)
     = [Stop]
  /\ progress_written
       (events (update (fun _ => None) stop_failing_context initial_state).1)
     = [JS.Number 5; JS.Number 6; JS.Number 95]
  /\ systemStatus (update (fun _ => None) stop_failing_context initial_state).1
     = updating.
Proof.
  split.
  - eexists _, _. repeat split; try reflexivity. discriminate.
  - repeat apply conj; vm_compute; reflexivity.
Qed.

(** A structured update is merged as it comes: when the script reports
    progress 100 itself, the run succeeds and the progress values written are
    5, then 100, then 95. *)
Lemma script_can_write_progress_100 :
  (update sample_JSON_parse
          (script_context [(stdout, marker ^^ progress_100_json ^^ lf)] (Resolved tt))
          initial_state).2 = Returned true
  /\ progress_written
       (events (update sample_JSON_parse
                  (script_context [(stdout, marker ^^ progress_100_json ^^ lf)]
                                  (Resolved tt))
                  initial_state).1)
     = [JS.Number 5; JS.Number 100; JS.Number 95].
Proof. split; vm_compute; reflexivity. Qed.

(** The chunks [umbrel-update: not-json] and
    [umbrel-update: {"progress": 42}], each with its line feed, on the idle
    record. *)
Lemma marker_line_malformed_or_merged_witness :
  has_lf "not-json" = false
  /\ sample_JSON_parse "not-json" = None
  /\ handleUpdateScriptOutput sample_JSON_parse (marker ^^ "not-json" ^^ lf)
       0 initial_state
     = (initial_state, Returned 0%float)
  /\ has_lf progress_42_json = false
  /\ updateStatus (handleUpdateScriptOutput sample_JSON_parse
                     (marker ^^ progress_42_json ^^ lf) 0 initial_state).1
     = <["progress" := JS.Number 42]> idle_status.
Proof.
  split; [reflexivity|]. split; [reflexivity|].
  pose proof (marker_line_malformed_or_merged sample_JSON_parse "not-json"
                0 initial_state eq_refl) as [Hbad _].
  pose proof (marker_line_malformed_or_merged sample_JSON_parse progress_42_json
                0 initial_state eq_refl) as (_ & _ & Hok).
  split; [exact (proj1 (Hbad eq_refl))|]. split; [reflexivity|].
  destruct (Hok (list_to_map [("progress", JS.Number 42)]) eq_refl)
    as ((_ & Hmerged & _) & _).
  etransitivity; [exact Hmerged|]. vm_compute. reflexivity.
Defined.

(** Ordinary output delivered to the handler. *)
Lemma ordinary_output_ignored_witness :
  no_marker (chunk_lines ordinary_chunks) = true
  /\ dot_count (chunk_lines ordinary_chunks) = 0
  /\ deliver sample_JSON_parse ordinary_chunks 0 initial_state
     = (initial_state, Returned 0%float).
Proof.
  split; [reflexivity|]. split; [reflexivity|].
  apply (ordinary_output_ignored sample_JSON_parse ordinary_chunks 0 initial_state);
    reflexivity.
Defined.

(** Three dot lines: the progress field becomes that of three dots. *)
Lemma dots_touch_only_progress_witness :
  no_marker (chunk_lines dotted_chunks) = true
  /\ updateStatus (deliver sample_JSON_parse dotted_chunks 0 initial_state).1
     = <["progress" := JS.Number (progress_after 3)]> idle_status.
Proof.
  split; [reflexivity|].
  refine (proj2 (proj2 (proj2 (dots_touch_only_progress sample_JSON_parse dotted_chunks
                                 0 initial_state _))) _).
  - reflexivity.
  - vm_compute. lia.
Defined.

(** A release with an empty script URL. *)
Lemma empty_script_url_is_missing_witness :
  latestRelease empty_script_context
  = Resolved {| version := "1.0.0"; releaseNotes := ""; updateScript := Some "" |}
  /\ (update sample_JSON_parse empty_script_context initial_state).2 = Returned false.
Proof.
  split; [reflexivity|].
  refine (proj1 (empty_script_url_is_missing sample_JSON_parse empty_script_context
                   _ initial_state _ _)); reflexivity.
Defined.

(** The structured update [umbrel-update: "ok"]. *)
Lemma non_object_update_keeps_fields_witness :
  scalar_JSON_parse (dq ^^ "ok" ^^ dq) = Some (JS.Str "ok")
  /\ updateStatus (handleLine scalar_JSON_parse (marker ^^ dq ^^ "ok" ^^ dq)
                              0 initial_state).1 !! "error"
     = Some (JS.Bool false).
Proof.
  split; [reflexivity|].
  pose proof (non_object_update_keeps_fields scalar_JSON_parse (dq ^^ "ok" ^^ dq)
                (JS.Str "ok") 0 initial_state eq_refl) as H.
  destruct H as (Hfields & _); [discriminate|].
  rewrite (Hfields "error"); [reflexivity|]. cbn. tauto.
Defined.

(** A structured update whose text holds the marker once more. *)
Lemma marker_prefix_is_removed_witness :
  JS.startsWith (marker ^^ marker ^^ progress_42_json) marker = true
  /\ JS.replace marker "" (marker ^^ marker ^^ progress_42_json)
     = marker ^^ progress_42_json.
Proof.
  split; [reflexivity|].
  exact (proj1 (proj2 (marker_prefix_is_removed (marker ^^ marker ^^ progress_42_json)
                         eq_refl))).
Defined.

(** An update that fails for want of a script. *)
Lemma failed_update_settles_status_before_running_witness :
  (update sample_JSON_parse no_script_context initial_state).2 = Returned false
  /\ systemStatus (update sample_JSON_parse no_script_context initial_state).1 = running.
Proof.
  assert (H : (update sample_JSON_parse no_script_context initial_state).2 = Returned false)
    by (vm_compute; reflexivity).
  split; [exact H|].
  exact (proj1 (failed_update_settles_status_before_running sample_JSON_parse
                  no_script_context initial_state H)).
Defined.

(** The chunks of the two streams in either order. *)
Lemma dots_ignore_interleaving_witness :
  Permutation dotted_chunks dotted_chunks_swapped
  /\ no_marker (chunk_lines dotted_chunks) = true
  /\ deliver sample_JSON_parse dotted_chunks 0 initial_state
     = deliver sample_JSON_parse dotted_chunks_swapped 0 initial_state.
Proof.
  assert (H : Permutation dotted_chunks dotted_chunks_swapped) by apply perm_swap.
  split; [exact H|]. split; [reflexivity|].
  apply (dots_ignore_interleaving sample_JSON_parse _ _ 0 initial_state H). reflexivity.
Defined.

(** The status query, open to everyone. *)
Lemma public_procedures_change_nothing_witness :
  is_public Procedure.status = true
  /\ exists v, serve sample_JSON_parse no_script_context sample_host Procedure.status
                     initial_state
               = (initial_state, Returned v).
Proof.
  split; [reflexivity|].
  exact (proj1 (public_procedures_change_nothing sample_JSON_parse no_script_context
                  sample_host Procedure.status initial_state eq_refl)).
Defined.
